(** * LangGraph support assignment: workflows over a graph executor

    Shallow embedding of
    - [src/realtime_support_graph.py]: the support-triage workflow
      (sentiment, category, priority, knowledge base, escalation);
    - [src/medium.py]: the retrieval-routing workflow with its
      relevance re-check cycle;
    and of the graph executor that walks them.

    Python dictionaries are finite maps from field names to dynamically
    typed values; exceptions raised by a node are results of an error
    type; calls to services outside the repository (language model,
    similarity search, web search, wall clock) read an explicit [World]
    that is threaded through the execution. *)

From Stdlib Require Import ZArith Ascii String List Bool Lia.
From stdpp Require Import base option gmap strings list fin_maps pretty.

Open Scope string_scope.

(** ** The graph executor *)

Module Engine.

(** Ways an invocation can fail. [Raised] is an exception escaping from a
    node or routing function; [NoOutgoingEdge] is a node that is not a
    terminal marker and has no outgoing rule. *)
Inductive error (Label Exn : Type) : Type :=
  | UnknownNode (name : string)
  | UnmappedLabel (label : Label)
  | NoOutgoingEdge (name : string)
  | Raised (e : Exn).

Arguments UnknownNode {Label Exn} name.
Arguments UnmappedLabel {Label Exn} label.
Arguments NoOutgoingEdge {Label Exn} name.
Arguments Raised {Label Exn} e.

Inductive result (E A : Type) : Type :=
  | Ok (a : A)
  | Err (e : E).

Arguments Ok {E A} a.
Arguments Err {E A} e.

#[global] Instance result_bind {E} : MBind (result E) :=
  λ A B f m, match m with Ok a => f a | Err e => Err e end.

#[global] Instance result_ret {E} : MRet (result E) := λ A a, Ok a.

Section Engine.
Context {World St Upd Label Exn : Type} `{!EqDecision Label}.

(** How the executor folds a node's returned update into the state. *)
Variable merge : St → Upd → St.
(** The update of a terminal marker that has no function of its own. *)
Variable no_update : Upd.

Definition res (A : Type) : Type := result (error Label Exn) A.

(** A node function reads the state (and the world outside) and
    returns an update. *)
Definition NodeFn : Type := World → St → res (World * Upd).

(** A routing function inspects the state and returns a label. *)
Definition RoutingFn : Type := St → res Label.

Inductive Edge : Type :=
  | Static (target : string)
  | Conditional (routingFn : RoutingFn) (labelToNode : list (Label * string)).

Record Workflow : Type := {
  entry : string;
  nodes : gmap string NodeFn;
  edges : gmap string Edge;
  terminals : list string
}.

Definition is_terminal (W : Workflow) (name : string) : bool :=
  bool_decide (name ∈ terminals W).

Fixpoint assoc (table : list (Label * string)) (label : Label) : option string :=
  match table with
  | [] => None
  | (l, n) :: rest => if decide (l = label) then Some n else assoc rest label
  end.

(** Modelled from the spec: the Node Registry's [lookup] of the
    executor, which is not in the source files. A terminal marker
    without a registered function completes with the empty update. *)
Definition lookup_node (W : Workflow) (name : string) : option NodeFn :=
  match nodes W !! name with
  | Some f => Some f
  | None => if is_terminal W name then Some (λ w _, Ok (w, no_update)) else None
  end.

(** Modelled from the spec: the Edge Table's [resolveNext] of the
    executor, which is not in the source files: the target of an
    unconditional edge, else the node mapped to the label the routing
    function returns, [UnmappedLabel] when there is none. *)
Definition resolveNext (W : Workflow) (from : string) (st : St) : res string :=
  match edges W !! from with
  | Some (Static target) => Ok target
  | Some (Conditional routingFn labelToNode) =>
      match routingFn st with
      | Err e => Err e
      | Ok label =>
          match assoc labelToNode label with
          | Some next => Ok next
          | None => Err (UnmappedLabel label)
          end
      end
  | None => Err (NoOutgoingEdge from)
  end.

Inductive outcome : Type :=
  | Next (cur : string) (w : World) (st : St)
  | Finished (st : St)
  | Failed (e : error Label Exn).

(** Modelled from the spec: one turn of the Graph Executor's loop
    (steps 2 to 4 of [run]), which is not in the source files. *)
Definition step (W : Workflow) (cur : string) (w : World) (st : St) : outcome :=
  match lookup_node W cur with
  | None => Failed (UnknownNode cur)
  | Some f =>
      match f w st with
      | Err e => Failed e
      | Ok (w', u) =>
          let st' := merge st u in
          if is_terminal W cur then Finished st'
          else match resolveNext W cur st' with
               | Err e => Failed e
               | Ok next =>
                   match lookup_node W next with
                   | None => Failed (UnknownNode next)
                   | Some _ => Next next w' st'
                   end
               end
      end
  end.

(** Modelled from the spec: the Graph Executor's loop, which is not in
    the source files. The spec's loop has no bound; [fuel] bounds the
    number of turns, and the result is [None] when it runs out. The
    first component is the node-visit sequence. *)
Fixpoint run_from (fuel : nat) (W : Workflow) (cur : string) (w : World) (st : St)
  : list string * option (res St) :=
  match fuel with
  | O => ([], None)
  | S fuel' =>
      match step W cur w st with
      | Failed e => ([cur], Some (Err e))
      | Finished st' => ([cur], Some (Ok st'))
      | Next next w' st' =>
          let '(visits, r) := run_from fuel' W next w' st' in
          (cur :: visits, r)
      end
  end.

(** Modelled from the spec: [run(workflow, initialState)] of the Graph
    Executor, which is not in the source files. *)
Definition run (fuel : nat) (W : Workflow) (w : World) (st : St)
  : list string * option (res St) :=
  run_from fuel W (entry W) w st.

(** The configurations an invocation passes through: the node about to
    run, with the world and the state it is invoked on. *)
Inductive reaches (W : Workflow) (w0 : World) (s0 : St) : string → World → St → Prop :=
  | reaches_entry : reaches W w0 s0 (entry W) w0 s0
  | reaches_step cur w st next w' st' :
      reaches W w0 s0 cur w st →
      step W cur w st = Next next w' st' →
      reaches W w0 s0 next w' st'.

(** The configuration after [n] turns of the loop, when the
    invocation gets that far. *)
Fixpoint config_after (n : nat) (W : Workflow) (w0 : World) (s0 : St)
  : option (string * World * St) :=
  match n with
  | O => Some (entry W, w0, s0)
  | S n' =>
      match config_after n' W w0 s0 with
      | Some (cur, w, st) =>
          match step W cur w st with
          | Next next w' st' => Some (next, w', st')
          | _ => None
          end
      | None => None
      end
  end.

(** *** The executor over node relations

    The same loop when a node or routing function is any relation
    between its input and its result, so that a function that is not
    deterministic can be described. *)

Definition NodeRel : Type := World → St → res (World * Upd) → Prop.
Definition RoutingRel : Type := St → res Label → Prop.

Inductive REdge : Type :=
  | RStatic (target : string)
  | RConditional (routingRel : RoutingRel) (labelToNode : list (Label * string)).

Record RWorkflow : Type := {
  r_entry : string;
  r_nodes : gmap string NodeRel;
  r_edges : gmap string REdge;
  r_terminals : list string
}.

Definition r_is_terminal (W : RWorkflow) (name : string) : bool :=
  bool_decide (name ∈ r_terminals W).

(** Modelled from the spec: the Node Registry's [lookup] of the
    executor, which is not in the source files, over node relations. *)
Definition r_lookup_node (W : RWorkflow) (name : string) : option NodeRel :=
  match r_nodes W !! name with
  | Some R => Some R
  | None => if r_is_terminal W name then Some (λ w _ r, r = Ok (w, no_update)) else None
  end.

(** Modelled from the spec: the Edge Table's [resolveNext] of the
    executor, which is not in the source files, over routing relations. *)
Inductive r_resolveNext (W : RWorkflow) (from : string) (st : St) : res string → Prop :=
  | rn_static target :
      r_edges W !! from = Some (RStatic target) →
      r_resolveNext W from st (Ok target)
  | rn_raised R table e :
      r_edges W !! from = Some (RConditional R table) →
      R st (Err e) →
      r_resolveNext W from st (Err e)
  | rn_mapped R table label next :
      r_edges W !! from = Some (RConditional R table) →
      R st (Ok label) →
      assoc table label = Some next →
      r_resolveNext W from st (Ok next)
  | rn_unmapped R table label :
      r_edges W !! from = Some (RConditional R table) →
      R st (Ok label) →
      assoc table label = None →
      r_resolveNext W from st (Err (UnmappedLabel label))
  | rn_no_edge :
      r_edges W !! from = None →
      r_resolveNext W from st (Err (NoOutgoingEdge from)).

(** Modelled from the spec: one turn of the Graph Executor's loop
    (steps 2 to 4 of [run]), which is not in the source files, over node
    and routing relations. *)
Inductive r_step (W : RWorkflow) (cur : string) (w : World) (st : St) : outcome → Prop :=
  | rs_unknown :
      r_lookup_node W cur = None →
      r_step W cur w st (Failed (UnknownNode cur))
  | rs_raised R e :
      r_lookup_node W cur = Some R →
      R w st (Err e) →
      r_step W cur w st (Failed e)
  | rs_finished R w' u :
      r_lookup_node W cur = Some R →
      R w st (Ok (w', u)) →
      r_is_terminal W cur = true →
      r_step W cur w st (Finished (merge st u))
  | rs_route_failed R w' u e :
      r_lookup_node W cur = Some R →
      R w st (Ok (w', u)) →
      r_is_terminal W cur = false →
      r_resolveNext W cur (merge st u) (Err e) →
      r_step W cur w st (Failed e)
  | rs_unknown_next R w' u next :
      r_lookup_node W cur = Some R →
      R w st (Ok (w', u)) →
      r_is_terminal W cur = false →
      r_resolveNext W cur (merge st u) (Ok next) →
      r_lookup_node W next = None →
      r_step W cur w st (Failed (UnknownNode next))
  | rs_next R w' u next R' :
      r_lookup_node W cur = Some R →
      R w st (Ok (w', u)) →
      r_is_terminal W cur = false →
      r_resolveNext W cur (merge st u) (Ok next) →
      r_lookup_node W next = Some R' →
      r_step W cur w st (Next next w' (merge st u)).

(** Modelled from the spec: the Graph Executor's [run], which is not in
    the source files, over node and routing relations.
    [Exec W cur w st visits r]: started at node [cur], the invocation
    visits [visits] and ends with [r]. *)
Inductive Exec (W : RWorkflow) : string → World → St → list string → res St → Prop :=
  | Exec_failed cur w st e :
      r_step W cur w st (Failed e) →
      Exec W cur w st [cur] (Err e)
  | Exec_finished cur w st st' :
      r_step W cur w st (Finished st') →
      Exec W cur w st [cur] (Ok st')
  | Exec_next cur w st next w' st' visits r :
      r_step W cur w st (Next next w' st') →
      Exec W next w' st' visits r →
      Exec W cur w st (cur :: visits) r.

(** A relation that relates every input to at most one result. *)
Definition deterministic_node (R : NodeRel) : Prop :=
  ∀ w st r1 r2, R w st r1 → R w st r2 → r1 = r2.

Definition deterministic_routing (R : RoutingRel) : Prop :=
  ∀ st r1 r2, R st r1 → R st r2 → r1 = r2.

Definition deterministic_workflow (W : RWorkflow) : Prop :=
  (∀ name R, r_nodes W !! name = Some R → deterministic_node R) ∧
  (∀ name R table, r_edges W !! name = Some (RConditional R table) →
                   deterministic_routing R).

(** A node function that makes no call outside. *)
Definition pure_node (f : St → res Upd) : NodeFn :=
  λ w st, match f st with Ok u => Ok (w, u) | Err e => Err e end.

(** Modelled from the spec: how the executor, which is not in the
    source files, calls a routing function that writes into the state
    it is handed. The spec's [resolveNext] takes the returned label and
    nothing else, and the loop goes on with the state the node's update
    was merged into: what the routing function has written is not seen
    again. *)
Definition label_of (f : St → res (Label * St)) : RoutingFn :=
  λ st, match f st with Ok (label, _) => Ok label | Err e => Err e end.

(** A workflow of functions, seen as a workflow of relations. *)
Definition lift_edge (e : Edge) : REdge :=
  match e with
  | Static target => RStatic target
  | Conditional f table => RConditional (λ st r, r = f st) table
  end.

Definition lift (W : Workflow) : RWorkflow :=
  {| r_entry := entry W;
     r_nodes := (λ (f : NodeFn) w st r, r = f w st) <$> nodes W;
     r_edges := lift_edge <$> edges W;
     r_terminals := terminals W |}.

End Engine.

End Engine.

(** ** Python values and dictionaries *)

Module Py.

Import Engine.

(** The values a state dictionary of the two workflows can hold:
    [None], [bool], [int], [str] and [List[str]]. *)
Inductive value : Type :=
  | VNone
  | VBool (b : bool)
  | VInt (z : Z)
  | VStr (s : string)
  | VList (l : list string).

#[global] Instance value_eq_dec : EqDecision value.
Proof. solve_decision. Defined.

(** Exceptions that the modelled code can raise. *)
Inductive exn : Type :=
  | KeyError (key : string)
  | TypeError
  | AttributeError.

#[global] Instance exn_eq_dec : EqDecision exn.
Proof. solve_decision. Defined.

(** A [dict] with string keys. *)
Abbreviation dict := (gmap string value).

(** [bool(v)]: the truth value used by [if], [not] and [and]. *)
Definition truthy (v : value) : bool :=
  match v with
  | VNone => false
  | VBool b => b
  | VInt z => negb (z =? 0)%Z
  | VStr s => negb (String.eqb s EmptyString)
  | VList l => match l with [] => false | _ => true end
  end.

(** [v == "lit"] for a string literal: only a [str] with the same
    characters is equal to it. *)
Definition eq_str (v : value) (lit : string) : bool :=
  match v with
  | VStr s => String.eqb s lit
  | _ => false
  end.

(** [v in ["a", "b", ...]] for a list of string literals. *)
Definition in_strs (v : value) (lits : list string) : bool :=
  existsb (eq_str v) lits.

(** [d.get(k)]: the value, or [None] when the key is absent. *)
Definition get (d : dict) (k : string) : value :=
  default VNone (d !! k).

(** [d.get(k, dflt)]. *)
Definition get_default (d : dict) (k : string) (dflt : value) : value :=
  default dflt (d !! k).

(** ** Strings (ASCII text) *)

(** [c.lower()] on one character; only the ASCII letters are cased. *)
Definition lower_ascii (c : ascii) : ascii :=
  let n := nat_of_ascii c in
  if (65 <=? n)%nat && (n <=? 90)%nat then ascii_of_nat (n + 32) else c.

(** [s.lower()]. *)
Fixpoint lower (s : string) : string :=
  match s with
  | EmptyString => EmptyString
  | String c rest => String (lower_ascii c) (lower rest)
  end.

(** [word in msg] on strings: [word] occurs as a substring of [msg]. *)
Fixpoint contains (word msg : string) : bool :=
  if String.prefix word msg then true
  else match msg with
       | EmptyString => false
       | String _ rest => contains word rest
       end.

(** [any(word in msg for word in words)]. *)
Definition any_in (words : list string) (msg : string) : bool :=
  existsb (fun word => contains word msg) words.

(** Text is modelled where it is ASCII: the string functions of this
    file ([lower], [strip], [splitlines]) treat the ASCII letters, white
    space and line breaks as Python does and leave every other
    character alone. A property that needs them to agree with Python
    on a text says that the text is ASCII. *)
Fixpoint ascii_text (s : string) : bool :=
  match s with
  | EmptyString => true
  | String c rest => (nat_of_ascii c <? 128)%nat && ascii_text rest
  end.

(** The characters [str.strip()] removes: ASCII white space. *)
Definition is_space (c : ascii) : bool :=
  let n := nat_of_ascii c in
  ((9 <=? n)%nat && (n <=? 13)%nat) || ((28 <=? n)%nat && (n <=? 32)%nat).

Fixpoint lstrip (s : string) : string :=
  match s with
  | EmptyString => EmptyString
  | String c rest => if is_space c then lstrip rest else s
  end.

Fixpoint rstrip (s : string) : string :=
  match s with
  | EmptyString => EmptyString
  | String c rest =>
      match rstrip rest with
      | EmptyString => if is_space c then EmptyString else String c EmptyString
      | rest' => String c rest'
      end
  end.

(** [s.strip()]. *)
Definition strip (s : string) : string := rstrip (lstrip s).

(** [sep.join(items)]. *)
Fixpoint join (sep : string) (items : list string) : string :=
  match items with
  | [] => EmptyString
  | [x] => x
  | x :: rest => x ++ sep ++ join sep rest
  end.

Definition backslash : ascii := ascii_of_nat 92.

(** [repr(s)] of a string, as printed inside the [repr] of a list:
    quoted, with backslash, the quote and control characters escaped. *)
Definition hex_digit (n : nat) : ascii :=
  if (n <? 10)%nat then ascii_of_nat (48 + n) else ascii_of_nat (87 + n).

Definition repr_char (quote : ascii) (c : ascii) : string :=
  let n := nat_of_ascii c in
  if Ascii.eqb c quote || Ascii.eqb c backslash then String backslash (String c EmptyString)
  else if (n =? 9)%nat then "\t"
  else if (n =? 10)%nat then "\n"
  else if (n =? 13)%nat then "\r"
  else if (n <? 32)%nat || (n =? 127)%nat
       then String backslash (String "x"%char
              (String (hex_digit (n / 16)) (String (hex_digit (n mod 16)) EmptyString)))
  else String c EmptyString.

Fixpoint repr_body (quote : ascii) (s : string) : string :=
  match s with
  | EmptyString => EmptyString
  | String c rest => repr_char quote c ++ repr_body quote rest
  end.

Definition repr_str (s : string) : string :=
  let quote :=
    if contains "'" s && negb (contains (String (ascii_of_nat 34) EmptyString) s)
    then ascii_of_nat 34 else "'"%char in
  String quote (repr_body quote s) ++ String quote EmptyString.

(** [str(v)], the text an f-string substitutes for [{v}]. *)
Definition str (v : value) : string :=
  match v with
  | VNone => "None"
  | VBool b => if b then "True" else "False"
  | VInt z => pretty z
  | VStr s => s
  | VList l => "[" ++ join ", " (map repr_str l) ++ "]"
  end.

(** Results of the modelled Python code: a value, or the failure of the
    invocation. Routing labels are Python values. *)
Abbreviation pyres := (result (error value exn)).

(** [raise e]. *)
Definition raise {A : Type} (e : exn) : pyres A := Err (Raised e).

(** [d[k]]: the value, [KeyError] when the key is absent. *)
Definition getitem (d : dict) (k : string) : pyres value :=
  match d !! k with
  | Some v => Ok v
  | None => raise (KeyError k)
  end.

(** [v.lower()]: only a [str] has the method. *)
Definition lower_method (v : value) : pyres string :=
  match v with
  | VStr s => Ok (lower s)
  | _ => raise AttributeError
  end.

(** [v + 1] for the augmented assignment [v += 1]: defined on [int]
    (and [bool], which is an [int]), a [TypeError] on the rest. *)
Definition add_one (v : value) : pyres Z :=
  match v with
  | VInt z => Ok (z + 1)%Z
  | VBool b => Ok (if b then 2 else 1)%Z
  | _ => raise TypeError
  end.

(** [state.update(u)]: the keys of the update win, the other keys keep
    their value. *)
Definition update (state u : dict) : dict := u ∪ state.

(** A double quote, and a line feed, as one-character strings. *)
Definition dquote : string := String (ascii_of_nat 34) EmptyString.
Definition nl : string := String (ascii_of_nat 10) EmptyString.

End Py.



(** ** The support-triage workflow ([src/realtime_support_graph.py]) *)

Module Support.

Import Engine Py.

(** What [datetime.now().strftime('%Y%m%d%H%M%S')] evaluates to when the
    invocation asks for it. *)
Definition Clock : Type := string.

Definition urgent_keywords : list string :=
  ["urgent"; "asap"; "immediately"; "emergency"; "critical"; "not working"].

Definition negative_keywords : list string :=
  ["angry"; "frustrated"; "disappointed"; "terrible"; "worst"].

Definition analyze_sentiment (state : dict) : pyres dict :=
  message ← getitem state "message";
  msg ← lower_method message;
  let sentiment :=
    if any_in urgent_keywords msg then "urgent"
    else if any_in negative_keywords msg then "negative"
    else if any_in ["thank"; "great"; "love"; "awesome"] msg then "positive"
    else "neutral" in
  Ok {[ "sentiment" := VStr sentiment ]}.

Definition categorize_issue (state : dict) : pyres dict :=
  message ← getitem state "message";
  msg ← lower_method message;
  let category :=
    if any_in ["bill"; "charge"; "payment"; "refund"; "invoice"] msg then "billing"
    else if any_in ["bug"; "error"; "crash"; "not working"; "broken"] msg then "technical"
    else if any_in ["login"; "password"; "access"; "account"; "reset"] msg then "account"
    else "product" in
  Ok {[ "category" := VStr category ]}.

Definition assign_priority (state : dict) : pyres dict :=
  sentiment ← getitem state "sentiment";
  category ← getitem state "category";
  let priority :=
    if eq_str sentiment "urgent" || (eq_str category "billing" && eq_str sentiment "negative")
    then "critical"
    else if eq_str sentiment "negative" || eq_str category "technical"
    then "high"
    else if in_strs category ["technical"; "account"] && eq_str sentiment "neutral"
    then "medium"
    else "low" in
  Ok {[ "priority" := VStr priority ]}.

Definition check_knowledge_base (state : dict) : pyres dict :=
  category ← getitem state "category";
  priority ← getitem state "priority";
  let can_auto_resolve :=
    in_strs priority ["low"; "medium"] && in_strs category ["account"; "product"] in
  if can_auto_resolve
  then Ok {[ "response" := VStr ("Auto-resolved " ++ str category ++ " issue from knowledge base");
             "requires_human" := VBool false ]}
  else Ok {[ "requires_human" := VBool true ]}.

Definition generate_ai_response (state : dict) : pyres dict :=
  category ← getitem state "category";
  priority ← getitem state "priority";
  Ok {[ "response" := VStr ("AI-generated response for " ++ str category
                            ++ " issue (Priority: " ++ str priority ++ ")");
        "escalate" := VBool (eq_str priority "critical") ]}.

Definition escalate_to_human (now : Clock) (state : dict) : pyres (Clock * dict) :=
  let ticket_id := "TKT-" ++ now in
  Ok (now, {[ "response" := VStr ("Escalated to human agent - Ticket: " ++ ticket_id);
              "ticket_id" := VStr ticket_id;
              "escalate" := VBool true ]}).

Definition send_automated_response (state : dict) : pyres dict :=
  category ← getitem state "category";
  Ok {[ "response" := VStr ("Automated response for " ++ str category ++ " query");
        "escalate" := VBool false ]}.

(** *** Routing functions *)

Definition should_auto_resolve (state : dict) : pyres value :=
  if negb (truthy (get state "requires_human")) then Ok (VStr "automated")
  else
    priority ← getitem state "priority";
    if in_strs priority ["critical"; "high"] then Ok (VStr "escalate")
    else Ok (VStr "ai_response").

Definition should_escalate (state : dict) : pyres value :=
  if truthy (get state "escalate") then Ok (VStr "escalate")
  else Ok (VStr "end").

(** *** The workflow *)

(** The terminal marker [END] of the graph library. *)
Definition END : string := "__end__".

Abbreviation Workflow := (@Engine.Workflow Clock dict dict value exn).

Definition workflow : Workflow :=
  {| entry := "analyze_sentiment";
     nodes := list_to_map
       [ ("analyze_sentiment", pure_node analyze_sentiment);
         ("categorize", pure_node categorize_issue);
         ("assign_priority", pure_node assign_priority);
         ("check_kb", pure_node check_knowledge_base);
         ("ai_response", pure_node generate_ai_response);
         ("escalate", escalate_to_human);
         ("automated", pure_node send_automated_response) ];
     edges := list_to_map
       [ ("analyze_sentiment", Static "categorize");
         ("categorize", Static "assign_priority");
         ("assign_priority", Static "check_kb");
         ("check_kb", Conditional should_auto_resolve
            [ (VStr "automated", "automated");
              (VStr "ai_response", "ai_response");
              (VStr "escalate", "escalate") ]);
         ("ai_response", Conditional should_escalate
            [ (VStr "escalate", "escalate");
              (VStr "end", END) ]);
         ("automated", Static END);
         ("escalate", Static END) ];
     terminals := [END] |}.

(** [app.invoke(state)]: the executor on the compiled workflow. Every
    path of the graph has at most six visits. *)
Definition invoke (now : Clock) (state : dict) : list string * option (pyres dict) :=
  run update ∅ 6 workflow now state.

(** The three requests of the script's [test_cases]. *)
Definition test_case (user_id message : string) : dict :=
  {[ "user_id" := VStr user_id; "message" := VStr message; "context" := VList [] ]}.

Definition test_case_1 : dict :=
  test_case "U123" "URGENT: Cannot access my account, need help immediately!".

Definition test_case_2 : dict :=
  test_case "U456" "How do I reset my password?".

Definition test_case_3 : dict :=
  test_case "U789" "I'm very frustrated with the billing charges, this is terrible!".

(** The priority decision table in the words of the specification's
    testable properties, for comparison with [assign_priority]; [None]
    where those words name no priority. *)
Definition spec_priority (sentiment category : string) : option string :=
  if String.eqb sentiment "urgent" then Some "critical"
  else if String.eqb category "billing" && String.eqb sentiment "negative" then Some "critical"
  else if String.eqb sentiment "negative" then Some "high"
  else if String.eqb category "technical" && String.eqb sentiment "neutral" then Some "medium"
  else if (String.eqb category "account" || String.eqb category "product")
          && (String.eqb sentiment "neutral" || String.eqb sentiment "positive")
  then Some "low"
  else None.

(** A state that holds the given sentiment and category. *)
Definition classified (sentiment category : string) : dict :=
  {[ "sentiment" := VStr sentiment; "category" := VStr category ]}.

End Support.

(** ** The retrieval-routing workflow ([src/medium.py]) *)

Module Medium.

Import Engine Py.

(** The services the nodes call and the file does not define: the
    language model, the two document collections and the web search.
    Each answer may depend on the request and on [n], the number of
    calls made to the outside before it, so that the same request can be
    answered differently when it is repeated. *)
Record Services : Type := {
  get_llm_response : nat → value → string;
  collection1_query : nat → value → list string;
  collection2_query : nat → value → list string;
  search_run : nat → value → string
}.

(** *** Routing decision functions *)

Definition route_decision (state : dict) : pyres value :=
  getitem state "source".

(** [relevance_decision] writes into the dictionary it is handed and
    returns a label; its result here is the label together with the
    dictionary as the function leaves it. *)
Definition relevance_decision (state : dict) : pyres (value * dict) :=
  let iteration_count := get_default state "iteration_count" (VInt 0) in
  iteration_count ← add_one iteration_count;
  let state := <["iteration_count" := VInt iteration_count]> state in
  let state :=
    if (3 <=? iteration_count)%Z then <["is_relevant" := VStr "Yes"]> state else state in
  label ← getitem state "is_relevant";
  Ok (label, state).

(** *** Workflow node functions

    Every node writes into the state dictionary it is given and returns
    that dictionary; the first component of the result counts the calls
    made to the outside. *)

Section Nodes.
Variable svc : Services.

Definition router (n : nat) (state : dict) : pyres (nat * dict) :=
  query ← getitem state "query";
  let decision_prompt :=
    nl ++
    "    You are a routing agent. Based on the user query, decide where to look for information." ++ nl ++
    "    Options:" ++ nl ++
    "    - Retrieve_QnA: if it's about general medical knowledge, symptoms, or treatment." ++ nl ++
    "    - Retrieve_Device: if it's about medical devices, manuals, or instructions." ++ nl ++
    "    - Web_Search: if it's about recent news, brand names, or external data." ++ nl ++
    "    Query: " ++ dquote ++ str query ++ dquote ++ nl ++
    "    Respond ONLY with one of: Retrieve_QnA, Retrieve_Device, Web_Search" ++ nl ++
    "    " in
  let router_decision := strip (get_llm_response svc n (VStr decision_prompt)) in
  let state := <["source" := VStr router_decision]> state in
  Ok (S n, state).

Definition retrieve_context_q_n_a (n : nat) (state : dict) : pyres (nat * dict) :=
  query ← getitem state "query";
  let results := collection1_query svc n query in
  let context := join nl results in
  let state := <["context" := VStr context]> state in
  let state := <["source" := VStr "Medical Q&A Collection"]> state in
  Ok (S n, state).

Definition retrieve_context_medical_device (n : nat) (state : dict) : pyres (nat * dict) :=
  query ← getitem state "query";
  let results := collection2_query svc n query in
  let context := join nl results in
  let state := <["context" := VStr context]> state in
  let state := <["source" := VStr "Medical Device Manual"]> state in
  Ok (S n, state).

Definition web_search (n : nat) (state : dict) : pyres (nat * dict) :=
  query ← getitem state "query";
  let search_results := search_run svc n query in
  let state := <["context" := VStr search_results]> state in
  let state := <["source" := VStr "Web Search"]> state in
  Ok (S n, state).

Definition build_prompt (state : dict) : pyres dict :=
  query ← getitem state "query";
  context ← getitem state "context";
  let prompt :=
    nl ++
    "            Answer the following question using the context below." ++ nl ++
    "            Context:" ++ nl ++
    "            " ++ str context ++ nl ++
    "            Question: " ++ str query ++ nl ++
    "            please limit your answer in 50 words." ++ nl ++
    "            " in
  let state := <["prompt" := VStr prompt]> state in
  Ok state.

Definition call_llm (n : nat) (state : dict) : pyres (nat * dict) :=
  prompt ← getitem state "prompt";
  let answer := get_llm_response svc n prompt in
  let state := <["response" := VStr answer]> state in
  Ok (S n, state).

Definition check_context_relevance (n : nat) (state : dict) : pyres (nat * dict) :=
  query ← getitem state "query";
  context ← getitem state "context";
  let relevance_prompt :=
    nl ++
    "            Check the below context if the context is relevent to the user query or." ++ nl ++
    "            ####" ++ nl ++
    "            Context:" ++ nl ++
    "            " ++ str context ++ nl ++
    "            ####" ++ nl ++
    "            User Query: " ++ str query ++ nl ++
    "            Options:" ++ nl ++
    "            - Yes: if the context is relevant." ++ nl ++
    "            - No: if the context is not relevant." ++ nl ++
    "            Please answer with only 'Yes' or 'No'." ++ nl ++
    "            " in
  let relevance_decision_value := strip (get_llm_response svc n (VStr relevance_prompt)) in
  let state := <["is_relevant" := VStr relevance_decision_value]> state in
  Ok (S n, state).

(** *** The workflow *)

Definition END : string := "__end__".

Abbreviation Workflow := (@Engine.Workflow nat dict dict value exn).

Definition workflow : Workflow :=
  {| entry := "Router";
     nodes := list_to_map
       [ ("Router", router);
         ("Retrieve_QnA", retrieve_context_q_n_a);
         ("Retrieve_Device", retrieve_context_medical_device);
         ("Web_Search", web_search);
         ("Relevance_Checker", check_context_relevance);
         ("Augment", pure_node build_prompt);
         ("Generate", call_llm) ];
     edges := list_to_map
       [ ("Router", Conditional route_decision
            [ (VStr "Retrieve_QnA", "Retrieve_QnA");
              (VStr "Retrieve_Device", "Retrieve_Device");
              (VStr "Web_Search", "Web_Search") ]);
         ("Retrieve_QnA", Static "Relevance_Checker");
         ("Retrieve_Device", Static "Relevance_Checker");
         ("Web_Search", Static "Relevance_Checker");
         ("Relevance_Checker", Conditional (label_of relevance_decision)
            [ (VStr "Yes", "Augment");
              (VStr "No", "Web_Search") ]);
         ("Augment", Static "Generate");
         ("Generate", Static END) ];
     terminals := [END] |}.

(** [agentic_rag.invoke(state)], for at most [fuel] node visits. *)
Definition invoke (fuel : nat) (state : dict) : list string * option (pyres dict) :=
  run update ∅ fuel workflow 0%nat state.

End Nodes.

(** The number of times the relevance decision point is visited. *)
Definition relevance_checks (visits : list string) : nat :=
  length (filter (λ name, name = "Relevance_Checker") visits).

(** Services for examples: the language model answers its first request
    (the routing prompt) with [route] and every later request with
    [verdict]; the collections and the search return fixed texts. *)
Definition example_services (route verdict : string) : Services :=
  {| get_llm_response := λ n _, match n with O => route | _ => verdict end;
     collection1_query := λ _ _, ["first document"; "second document"];
     collection2_query := λ _ _, ["device manual"];
     search_run := λ _ _, "search results" |}.

End Medium.

(** ** The chat form ([src/support_chat_ui_app.py]) *)

Module ChatUI.

Import Engine Py Support.

(** The calls the script makes to put something on the page. Texts are
    held as the bytes of the source file. *)
Inductive widget : Type :=
  | st_error (body : string)
  | st_info (body : string)
  | st_success (body : string)
  | st_subheader (body : string)
  | st_write (v : value)
  | st_divider
  | st_json (d : dict).

(** The page, in the order the script fills it: a call at the top level,
    or the calls made inside a [with] block of a column or of an
    expander. *)
Inductive element : Type :=
  | top (w : widget)
  | column (index : nat) (body : list widget)
  | expander (label : string) (body : list widget).

(** The characters at which [str.splitlines()] ends a line of ASCII
    text: line feed, vertical tab, form feed, carriage return and the
    file, group and record separators. *)
Definition is_linebreak (c : ascii) : bool :=
  let n := nat_of_ascii c in
  ((10 <=? n)%nat && (n <=? 13)%nat) || ((28 <=? n)%nat && (n <=? 30)%nat).

Definition cr : ascii := ascii_of_nat 13.
Definition lf : ascii := ascii_of_nat 10.

(** [s.splitlines()], with [line] the characters of the current line
    read so far: a carriage return followed by a line feed ends one
    line, and there is no empty line after the last line break. *)
Fixpoint splitlines_from (line s : string) : list string :=
  match s with
  | EmptyString => if String.eqb line EmptyString then [] else [line]
  | String c rest =>
      if is_linebreak c
      then line :: match rest with
                   | String c' rest' =>
                       if Ascii.eqb c cr && Ascii.eqb c' lf
                       then splitlines_from EmptyString rest'
                       else splitlines_from EmptyString rest
                   | EmptyString => []
                   end
      else splitlines_from (line ++ String c EmptyString) rest
  end.

Definition splitlines (s : string) : list string := splitlines_from EmptyString s.

(** [[line.strip() for line in context_text.splitlines() if line.strip()]] *)
Definition context_list (context_text : string) : list string :=
  map strip (List.filter (λ line, truthy (VStr (strip line))) (splitlines context_text)).

(** The state the form builds for the workflow. *)
Definition form_state (user_id message context_text : string) : dict :=
  {[ "user_id" := VStr user_id;
     "message" := VStr message;
     "context" := VList (context_list context_text) ]}.

(** The first column of the analysis. *)
Definition first_column (result : dict) : list widget :=
  [ st_write (VStr ("**Sentiment:** " ++ str (get_default result "sentiment" (VStr "-"))));
    st_write (VStr ("**Category:** " ++ str (get_default result "category" (VStr "-"))));
    st_write (VStr ("**Priority:** " ++ str (get_default result "priority" (VStr "-")))) ].

(** The two lines of the second column that are always written. *)
Definition second_column (result : dict) : list widget :=
  [ st_write (VStr ("**Requires Human:** "
                    ++ str (get_default result "requires_human" (VBool false))));
    st_write (VStr ("**Escalated:** " ++ str (get_default result "escalate" (VBool false)))) ].

(** [if result.get("ticket_id"): st.write(f"**Ticket ID:** {result['ticket_id']}")] *)
Definition ticket_line (result : dict) : pyres (list widget) :=
  if truthy (get result "ticket_id")
  then ticket_id ← getitem result "ticket_id";
       Ok [ st_write (VStr ("**Ticket ID:** " ++ str ticket_id)) ]
  else Ok [].

(** What follows the columns. *)
Definition response_part (result : dict) : list element :=
  [ top st_divider;
    top (st_subheader "💬 Response");
    top (st_write (get_default result "response" (VStr "No response generated.")));
    top st_divider;
    expander "🧾 Raw State Data" [ st_json result ] ].

(** The body of [if submitted:]: the elements put on the page and, when
    an exception stopped the script, that exception. There is no outcome
    when the workflow does not end within its visits. *)
Definition on_submit (now : Clock) (user_id message context_text : string) :
    option (list element * option (error value exn)) :=
  if negb (truthy (VStr (strip message)))
  then Some ([ top (st_error "Please enter a message.") ], None)
  else
    let state := form_state user_id message context_text in
    let shown := [ top (st_info "⏳ Running support workflow...") ] in
    match (invoke now state).2 with
    | None => None
    | Some (Err e) => Some (shown, Some e)
    | Some (Ok result) =>
        let shown :=
          (shown ++ [ top (st_success "✅ Workflow executed successfully!");
                      top (st_subheader "📊 Analysis Results");
                      column 1 (first_column result) ])%list in
        match ticket_line result with
        | Err e => Some ((shown ++ [ column 2 (second_column result) ])%list, Some e)
        | Ok ticket =>
            Some ((shown ++ [ column 2 (second_column result ++ ticket)%list ]
                         ++ response_part result)%list, None)
        end
    end.

End ChatUI.

(** * Properties *)

(** ** Python values *)

Module PyFacts.

Import Engine Py.

Lemma eq_str_true (v : value) (lit : string) :
  eq_str v lit = true ↔ v = VStr lit.
Proof.
  destruct v; simpl; try (split; [discriminate | congruence]).
  rewrite String.eqb_eq. split; congruence.
Qed.

Lemma eq_str_false (v : value) (lit : string) :
  eq_str v lit = false ↔ v ≠ VStr lit.
Proof.
  rewrite <- eq_str_true. destruct (eq_str v lit); split; congruence.
Qed.

Lemma eq_str_refl (lit : string) : eq_str (VStr lit) lit = true.
Proof. by apply eq_str_true. Qed.

Lemma in_strs_true (v : value) (lits : list string) :
  in_strs v lits = true ↔ ∃ lit, In lit lits ∧ v = VStr lit.
Proof.
  unfold in_strs. rewrite existsb_exists.
  split; intros (lit & Hin & H); exists lit; split; auto; by apply eq_str_true.
Qed.

Lemma in_strs_2 (v : value) (a b : string) :
  in_strs v [a; b] = true ↔ v = VStr a ∨ v = VStr b.
Proof.
  unfold in_strs; simpl. rewrite orb_false_r, orb_true_iff, !eq_str_true. tauto.
Qed.

Lemma getitem_Some (d : dict) (k : string) (v : value) :
  d !! k = Some v → getitem d k = Ok v.
Proof. unfold getitem. by intros ->. Qed.

Lemma getitem_Ok (d : dict) (k : string) (v : value) :
  getitem d k = Ok v → d !! k = Some v.
Proof. unfold getitem, raise. destruct (d !! k); congruence. Qed.

(** Equal results hold equal dictionaries. *)
Lemma Ok_lookup (a b : dict) (k : string) :
  Ok (E:=error value exn) a = Ok b → a !! k = b !! k.
Proof.
  intros H.
  assert (a = b) as ->; [| done].
  exact (f_equal (λ r : pyres dict, match r with Ok d => d | Err _ => a end) H).
Qed.

(** The keys the update does not name keep their value. *)
Lemma update_frame (state u : dict) (k : string) :
  u !! k = None → update state u !! k = state !! k.
Proof. intros H. unfold update. by rewrite lookup_union_r. Qed.

(** The keys of the update win. *)
Lemma update_wins (state u : dict) (k : string) (v : value) :
  u !! k = Some v → update state u !! k = Some v.
Proof. intros H. unfold update. by apply lookup_union_Some_l. Qed.

Lemma update_empty (state : dict) : update state ∅ = state.
Proof. unfold update. apply (left_id_L ∅ (∪)). Qed.

Lemma prefix_refl (s : string) : String.prefix s s = true.
Proof.
  induction s as [| c s IH]; simpl; [done |].
  destruct (ascii_dec c c); [done | congruence].
Qed.

Lemma prefix_app (s t : string) : String.prefix s (s ++ t) = true.
Proof.
  induction s as [| c s IH]; simpl; [by destruct t |].
  destruct (ascii_dec c c); [done | congruence].
Qed.

Lemma contains_prefix (word msg : string) :
  String.prefix word msg = true → contains word msg = true.
Proof. intros H. destruct msg; simpl in *; by rewrite H. Qed.

(** A word occurs in every text that is built around it. *)
Lemma contains_app (word before after : string) :
  contains word (before ++ word ++ after) = true.
Proof.
  induction before as [| c before IH].
  - apply contains_prefix. apply (prefix_app word after).
  - change (contains word (String c (before ++ word ++ after)) = true).
    cbn [contains]. rewrite IH. by destruct (String.prefix word _).
Qed.

Lemma contains_suffix (word before : string) :
  contains word (before ++ word) = true.
Proof.
  induction before as [| c before IH].
  - apply contains_prefix. apply prefix_refl.
  - change (contains word (String c (before ++ word)) = true).
    cbn [contains]. rewrite IH. by destruct (String.prefix word _).
Qed.

End PyFacts.

(** ** The graph executor *)

Module EngineFacts.

Import Engine.

Section Facts.
Context {World St Upd Label Exn : Type} `{!EqDecision Label}.
Variable merge : St → Upd → St.
Variable no_update : Upd.

Local Abbreviation Workflow := (@Workflow World St Upd Label Exn).
Local Abbreviation RWorkflow := (@RWorkflow World St Upd Label Exn).
Local Abbreviation NodeFn := (@NodeFn World St Upd Label Exn).
Local Abbreviation res := (@res Label Exn).
Local Abbreviation RoutingFn := (@RoutingFn St Label Exn).
Local Abbreviation step := (step merge no_update).
Local Abbreviation run_from := (run_from merge no_update).
Local Abbreviation run := (run merge no_update).
Local Abbreviation reaches := (reaches merge no_update).
Local Abbreviation r_step := (r_step merge no_update).
Local Abbreviation Exec := (Exec merge no_update).
Local Abbreviation lookup_node := (lookup_node no_update).
Local Abbreviation r_lookup_node := (r_lookup_node no_update).

(** *** Fuel *)

Lemma run_from_S (fuel : nat) (W : Workflow) cur w st :
  run_from (S fuel) W cur w st =
  match step W cur w st with
  | Failed e => ([cur], Some (Err e))
  | Finished st' => ([cur], Some (Ok st'))
  | Next next w' st' =>
      (cur :: (run_from fuel W next w' st').1, (run_from fuel W next w' st').2)
  end.
Proof.
  simpl. destruct (step W cur w st); try reflexivity.
  by destruct (Engine.run_from _ _ _ _ _ _ _).
Qed.

(** Once an invocation has ended, more fuel changes nothing. *)
Lemma run_from_mono (fuel fuel' : nat) (W : Workflow) cur w st visits r :
  run_from fuel W cur w st = (visits, Some r) →
  (fuel ≤ fuel')%nat →
  run_from fuel' W cur w st = (visits, Some r).
Proof.
  revert fuel' cur w st visits. induction fuel as [| fuel IH];
    intros fuel' cur w st visits Hrun Hle; [discriminate |].
  destruct fuel' as [| fuel']; [lia |].
  rewrite run_from_S in *.
  destruct (step W cur w st) as [next w' st' | |]; try done.
  destruct (run_from fuel W next w' st') as [vs o] eqn:E. simpl in Hrun.
  injection Hrun as <- ->.
  by rewrite (IH fuel' _ _ _ _ E ltac:(lia)).
Qed.

(** With less fuel the executor visits a prefix of the nodes. *)
Lemma run_from_prefix (fuel fuel' : nat) (W : Workflow) cur w st :
  (fuel ≤ fuel')%nat →
  (run_from fuel W cur w st).1 `prefix_of` (run_from fuel' W cur w st).1.
Proof.
  revert fuel' cur w st. induction fuel as [| fuel IH]; intros fuel' cur w st Hle.
  - apply prefix_nil.
  - destruct fuel' as [| fuel']; [lia |].
    rewrite !run_from_S.
    destruct (step W cur w st) as [next w' st' | |]; try done.
    simpl. apply prefix_cons, IH. lia.
Qed.

(** *** Unmapped labels *)

Lemma resolveNext_unmapped (W : Workflow) from st (routingFn : RoutingFn)
    table label :
  edges W !! from = Some (Conditional routingFn table) →
  routingFn st = Ok label →
  assoc table label = None →
  resolveNext W from st = Err (UnmappedLabel label).
Proof. intros He Hr Ha. unfold resolveNext. by rewrite He, Hr, Ha. Qed.

Lemma unmapped_label_fails (W : Workflow) cur w st (f : NodeFn) w' u
    (routingFn : RoutingFn) table label :
  nodes W !! cur = Some f →
  f w st = Ok (w', u) →
  is_terminal W cur = false →
  edges W !! cur = Some (Conditional routingFn table) →
  routingFn (merge st u) = Ok label →
  assoc table label = None →
  resolveNext W cur (merge st u) = Err (UnmappedLabel label) ∧
  step W cur w st = Failed (UnmappedLabel label) ∧
  ∀ fuel, run_from (S fuel) W cur w st = ([cur], Some (Err (UnmappedLabel label))).
Proof.
  intros Hn Hf Ht He Hr Ha.
  pose proof (resolveNext_unmapped W cur _ _ _ _ He Hr Ha) as Hres.
  assert (step W cur w st = Failed (UnmappedLabel label)) as Hstep.
  { unfold Engine.step, Engine.lookup_node. by rewrite Hn, Hf, Ht, Hres. }
  split; [done |]. split; [done |].
  intros fuel. by rewrite run_from_S, Hstep.
Qed.

(** *** Invariants of an invocation *)

(** A property of the state that every turn of the loop keeps holds of
    the state the invocation returns. *)
Lemma run_from_invariant (P : St → Prop) (W : Workflow) :
  (∀ cur w st next w' st', P st → step W cur w st = Next next w' st' → P st') →
  (∀ cur w st st', P st → step W cur w st = Finished st' → P st') →
  ∀ fuel cur w st visits st',
    P st → run_from fuel W cur w st = (visits, Some (Ok st')) → P st'.
Proof.
  intros Hnext Hfin. induction fuel as [| fuel IH];
    intros cur w st visits st' HP Hrun; [discriminate |].
  rewrite run_from_S in Hrun.
  destruct (step W cur w st) as [next w1 st1 | st1 |] eqn:E.
  - destruct (run_from fuel W next w1 st1) as [vs o] eqn:E'. simpl in Hrun.
    injection Hrun as _ ->. eapply IH; [| exact E']. eauto.
  - injection Hrun as _ <-. eauto.
  - discriminate.
Qed.

(** *** Counting visits and bounding the length of an invocation *)

(** When every turn that visits a node of [P] uses up one unit of a
    budget [B], no invocation visits more nodes of [P] than the budget
    it starts with. *)
Lemma run_from_count_bound (P : string → Prop) `{!∀ x, Decision (P x)}
    (Inv : St → Prop) (B : string → St → nat) (W : Workflow) :
  (∀ cur w st next w' st',
     Inv st → step W cur w st = Next next w' st' →
     Inv st' ∧ ((if decide (P cur) then 1 else 0) + B next st' ≤ B cur st)%nat) →
  (∀ cur st, Inv st → P cur → (1 ≤ B cur st)%nat) →
  ∀ fuel cur w st,
    Inv st → (length (filter P (run_from fuel W cur w st).1) ≤ B cur st)%nat.
Proof.
  intros Hnext Hlast. induction fuel as [| fuel IH]; intros cur w st HI.
  - simpl. lia.
  - rewrite run_from_S.
    destruct (step W cur w st) as [next w' st' | st' | e] eqn:E.
    + destruct (Hnext _ _ _ _ _ _ HI E) as [HI' Hle].
      specialize (IH next w' st' HI'). simpl. rewrite filter_cons.
      destruct (decide (P cur)); simpl; lia.
    + simpl. rewrite filter_cons, filter_nil.
      destruct (decide (P cur)) as [HP |]; simpl; [| lia].
      specialize (Hlast _ _ HI HP). lia.
    + simpl. rewrite filter_cons, filter_nil.
      destruct (decide (P cur)) as [HP |]; simpl; [| lia].
      specialize (Hlast _ _ HI HP). lia.
Qed.

(** When every turn lowers a measure [T], an invocation ends within
    the number of turns its first measure allows. *)
Lemma run_from_terminates (Inv : St → Prop) (T : string → St → nat) (W : Workflow) :
  (∀ cur w st next w' st',
     Inv st → step W cur w st = Next next w' st' →
     Inv st' ∧ (T next st' < T cur st)%nat) →
  ∀ fuel cur w st,
    Inv st → (T cur st < fuel)%nat → ∃ r, (run_from fuel W cur w st).2 = Some r.
Proof.
  intros Hnext. induction fuel as [| fuel IH]; intros cur w st HI Hlt; [lia |].
  rewrite run_from_S.
  destruct (step W cur w st) as [next w' st' | st' | e] eqn:E; simpl; eauto.
  destruct (Hnext _ _ _ _ _ _ HI E) as [HI' Hlt']. apply IH; [done | lia].
Qed.

(** *** Reading a turn of the loop backwards *)

Lemma step_Next_inv (W : Workflow) cur w st next w' st' :
  step W cur w st = Next next w' st' →
  ∃ (f : NodeFn) u,
    lookup_node W cur = Some f ∧ f w st = Ok (w', u) ∧
    is_terminal W cur = false ∧
    resolveNext W cur (merge st u) = Ok next ∧
    st' = merge st u.
Proof.
  unfold Engine.step. intros H.
  destruct (lookup_node W cur) as [f |] eqn:El; [| discriminate].
  destruct (f w st) as [[w1 u] | e] eqn:Ef; [| discriminate].
  destruct (is_terminal W cur) eqn:Et; [discriminate |].
  destruct (resolveNext W cur (merge st u)) as [n | e] eqn:Er; [| discriminate].
  destruct (lookup_node W n); [| discriminate].
  injection H as -> -> <-. by exists f, u.
Qed.

Lemma step_Finished_inv (W : Workflow) cur w st st' :
  step W cur w st = Finished st' →
  ∃ (f : NodeFn) w' u,
    lookup_node W cur = Some f ∧ f w st = Ok (w', u) ∧
    is_terminal W cur = true ∧ st' = merge st u.
Proof.
  unfold Engine.step. intros H.
  destruct (lookup_node W cur) as [f |] eqn:El; [| discriminate].
  destruct (f w st) as [[w1 u] | e] eqn:Ef; [| discriminate].
  destruct (is_terminal W cur) eqn:Et.
  - injection H as <-. by exists f, w1, u.
  - destruct (resolveNext W cur (merge st u)) as [n | e]; [| discriminate].
    destruct (lookup_node W n); discriminate.
Qed.

Lemma config_after_reaches (n : nat) (W : Workflow) w0 s0 cur w st :
  Engine.config_after merge no_update n W w0 s0 = Some (cur, w, st) →
  reaches W w0 s0 cur w st.
Proof.
  revert cur w st. induction n as [| n IH]; simpl; intros cur w st H.
  - injection H as <- <- <-. apply reaches_entry.
  - destruct (Engine.config_after _ _ n W w0 s0) as [[[c1 w1] s1] |]; [| discriminate].
    destruct (step W c1 w1 s1) as [next w' st' | |] eqn:E; try discriminate.
    injection H as <- <- <-. eapply reaches_step; [by apply IH | exact E].
Qed.

(** *** Functions and relations *)

Lemma r_lookup_node_lift (W : Workflow) (name : string) :
  r_lookup_node (lift W) name
  = (λ (f : NodeFn) w st r, r = f w st) <$> lookup_node W name.
Proof.
  unfold Engine.r_lookup_node, Engine.lookup_node, r_is_terminal, is_terminal.
  simpl. rewrite lookup_fmap.
  destruct (nodes W !! name); simpl; [done |].
  by destruct (bool_decide _).
Qed.

Lemma r_resolveNext_lift (W : Workflow) from st :
  r_resolveNext (lift W) from st (resolveNext W from st).
Proof.
  unfold resolveNext.
  destruct (edges W !! from) as [[target | f table] |] eqn:E.
  - apply rn_static. simpl. by rewrite lookup_fmap, E.
  - assert (r_edges (lift W) !! from
            = Some (RConditional (λ st r, r = f st) table)) as E'.
    { simpl. by rewrite lookup_fmap, E. }
    destruct (f st) as [label | e] eqn:Ef.
    + destruct (assoc table label) eqn:Ea.
      * eapply rn_mapped; [exact E' | by simpl | done].
      * eapply rn_unmapped; [exact E' | by simpl | done].
    + eapply rn_raised; [exact E' | by simpl].
  - apply rn_no_edge. simpl. by rewrite lookup_fmap, E.
Qed.

Lemma r_step_lift (W : Workflow) cur w st :
  r_step (lift W) cur w st (step W cur w st).
Proof.
  unfold Engine.step.
  destruct (lookup_node W cur) as [f |] eqn:El.
  - assert (r_lookup_node (lift W) cur = Some (λ w st r, r = f w st)) as El'.
    { by rewrite r_lookup_node_lift, El. }
    destruct (f w st) as [[w' u] | e] eqn:Ef.
    + destruct (is_terminal W cur) eqn:Et.
      * eapply rs_finished; [exact El' | by simpl | done].
      * pose proof (r_resolveNext_lift W cur (merge st u)) as Hres.
        destruct (resolveNext W cur (merge st u)) as [next | e].
        -- destruct (lookup_node W next) as [g |] eqn:Eg.
           ++ eapply rs_next; [exact El' | by simpl | done | done |].
              by rewrite r_lookup_node_lift, Eg.
           ++ eapply rs_unknown_next; [exact El' | by simpl | done | done |].
              by rewrite r_lookup_node_lift, Eg.
        -- eapply rs_route_failed; [exact El' | by simpl | done | done].
    + eapply rs_raised; [exact El' | by simpl].
  - apply rs_unknown. by rewrite r_lookup_node_lift, El.
Qed.

(** What the executable loop computes is an execution of the
    workflow seen as relations. *)
Lemma run_from_Exec (fuel : nat) (W : Workflow) cur w st visits r :
  run_from fuel W cur w st = (visits, Some r) →
  Exec (lift W) cur w st visits r.
Proof.
  revert cur w st visits. induction fuel as [| fuel IH];
    intros cur w st visits Hrun; [discriminate |].
  rewrite run_from_S in Hrun. pose proof (r_step_lift W cur w st) as Hstep.
  destruct (step W cur w st) as [next w' st' | st' | e].
  - destruct (run_from fuel W next w' st') as [vs o] eqn:E. simpl in Hrun.
    injection Hrun as <- ->. eapply Exec_next; eauto.
  - injection Hrun as <- <-. by apply Exec_finished.
  - injection Hrun as <- <-. by apply Exec_failed.
Qed.

Lemma lift_deterministic (W : Workflow) : deterministic_workflow (lift W).
Proof.
  split.
  - intros name R. simpl. rewrite lookup_fmap.
    destruct (nodes W !! name); simpl; [| done].
    intros [= <-] w st r1 r2 -> ->. done.
  - intros name R table. simpl. rewrite lookup_fmap.
    destruct (edges W !! name) as [[| f t] |]; simpl; try done.
    intros [= <- <-] st r1 r2 -> ->. done.
Qed.

(** *** Determinism *)

Lemma r_lookup_node_deterministic (W : RWorkflow) name R :
  deterministic_workflow W →
  r_lookup_node W name = Some R →
  deterministic_node R.
Proof.
  intros [Hn _]. unfold Engine.r_lookup_node.
  destruct (r_nodes W !! name) as [R' |] eqn:E.
  - intros [= <-]. eauto.
  - destruct (r_is_terminal W name); [| done].
    intros [= <-] w st r1 r2 -> ->. done.
Qed.

Lemma r_resolveNext_deterministic (W : RWorkflow) from st r1 r2 :
  deterministic_workflow W →
  r_resolveNext W from st r1 →
  r_resolveNext W from st r2 →
  r1 = r2.
Proof.
  intros [_ He] H1 H2.
  destruct H1 as [t1 E1 | R1 t1 e1 E1 Hr1 | R1 t1 l1 n1 E1 Hr1 Ha1
                 | R1 t1 l1 E1 Hr1 Ha1 | E1];
    destruct H2 as [t2 E2 | R2 t2 e2 E2 Hr2 | R2 t2 l2 n2 E2 Hr2 Ha2
                   | R2 t2 l2 E2 Hr2 Ha2 | E2];
    rewrite E1 in E2; try discriminate E2; try (by injection E2 as <-); try done;
    injection E2 as <- <-;
    pose proof (He _ _ _ E1 _ _ _ Hr1 Hr2) as Heq;
    try discriminate Heq; injection Heq; intros; subst; congruence.
Qed.

Lemma r_step_deterministic (W : RWorkflow) cur w st o1 o2 :
  deterministic_workflow W →
  r_step W cur w st o1 →
  r_step W cur w st o2 →
  o1 = o2.
Proof.
  intros HW H1 H2.
  destruct H1 as [El1 | R1 e1 El1 Hr1 | R1 w1 u1 El1 Hr1 Ht1
                 | R1 w1 u1 e1 El1 Hr1 Ht1 Hn1
                 | R1 w1 u1 n1 El1 Hr1 Ht1 Hn1 Hl1
                 | R1 w1 u1 n1 R1' El1 Hr1 Ht1 Hn1 Hl1];
    destruct H2 as [El2 | R2 e2 El2 Hr2 | R2 w2 u2 El2 Hr2 Ht2
                   | R2 w2 u2 e2 El2 Hr2 Ht2 Hn2
                   | R2 w2 u2 n2 El2 Hr2 Ht2 Hn2 Hl2
                   | R2 w2 u2 n2 R2' El2 Hr2 Ht2 Hn2 Hl2];
    try done; try congruence;
    rewrite El1 in El2; injection El2 as <-;
    pose proof (r_lookup_node_deterministic W cur R1 HW El1 _ _ _ _ Hr1 Hr2) as Heq;
    try discriminate Heq; injection Heq; intros; subst; try congruence;
    pose proof (r_resolveNext_deterministic W cur _ _ _ HW Hn1 Hn2) as Heq';
    try discriminate Heq'; injection Heq'; intros; subst; congruence.
Qed.

Lemma Exec_deterministic (W : RWorkflow) cur w st visits1 r1 visits2 r2 :
  deterministic_workflow W →
  Exec W cur w st visits1 r1 →
  Exec W cur w st visits2 r2 →
  r1 = r2 ∧ visits1 = visits2.
Proof.
  intros HW H1. revert visits2 r2.
  induction H1 as [cur w st e Hs | cur w st st' Hs
                  | cur w st next w' st' visits r Hs H1 IH];
    intros visits2 r2 H2; inversion H2 as [? ? ? e2 Hs2 | ? ? ? st2 Hs2
                                         | ? ? ? n2 w2 st2 vs2 ? Hs2 H2']; subst;
    pose proof (r_step_deterministic W cur w st _ _ HW Hs Hs2) as Heq;
    try discriminate Heq; injection Heq; intros; subst; try done.
  destruct (IH _ _ H2') as [-> ->]. done.
Qed.

(** C7: for every workflow whose node functions and routing functions
    are deterministic, and every initial state (with the same world
    outside), two runs end with the same result and visit the same
    sequence of nodes. *)
Theorem run_deterministic (W : RWorkflow) (w : World) (st : St)
    (visits1 visits2 : list string) (r1 r2 : res St) :
  deterministic_workflow W →
  Exec W (r_entry W) w st visits1 r1 →
  Exec W (r_entry W) w st visits2 r2 →
  r1 = r2 ∧ visits1 = visits2.
Proof. apply Exec_deterministic. Qed.

End Facts.

End EngineFacts.

(** ** The support-triage workflow *)

Module SupportFacts.

Import Engine Py PyFacts Support.

(** C2 (as the specification states it, refuted): the table of the
    specification gives [medium] for a neutral technical request, where
    [assign_priority] gives [high]; so [assign_priority] does not follow
    that table on every pair. *)
Lemma assign_priority_not_spec_table :
  ¬ (∀ sentiment category priority,
       spec_priority sentiment category = Some priority →
       assign_priority (classified sentiment category)
       = Ok {[ "priority" := VStr priority ]}).
Proof.
  intros H. specialize (H "neutral" "technical" "medium" eq_refl).
  apply (Ok_lookup _ _ "priority") in H. vm_compute in H. discriminate H.
Qed.

(** C2 (amended): for every state that holds a sentiment and a category,
    [assign_priority] returns exactly the field [priority], and it is
    [critical] when the sentiment is urgent, whatever the category;
    [critical] for a negative billing request; [high] for a negative
    request of another category; [high] for a neutral technical request;
    [medium] for a neutral account request; [low] for a positive account
    request and for a neutral or positive product request. *)
Theorem assign_priority_table (state : dict) (sentiment category : value) :
  state !! "sentiment" = Some sentiment →
  state !! "category" = Some category →
  ∃ priority,
    assign_priority state = Ok {[ "priority" := VStr priority ]} ∧
    (sentiment = VStr "urgent" → priority = "critical") ∧
    (category = VStr "billing" → sentiment = VStr "negative" → priority = "critical") ∧
    (sentiment = VStr "negative" → category ≠ VStr "billing" → priority = "high") ∧
    (category = VStr "technical" → sentiment = VStr "neutral" → priority = "high") ∧
    (category = VStr "account" → sentiment = VStr "neutral" → priority = "medium") ∧
    (category = VStr "account" → sentiment = VStr "positive" → priority = "low") ∧
    (category = VStr "product" →
     sentiment = VStr "neutral" ∨ sentiment = VStr "positive" → priority = "low").
Proof.
  intros Hs Hc. unfold assign_priority.
  rewrite (getitem_Some _ _ _ Hs), (getitem_Some _ _ _ Hc). simpl.
  eexists. split; [reflexivity |].
  repeat split.
  - by intros ->.
  - by intros -> ->.
  - intros -> Hne. apply eq_str_false in Hne. by rewrite Hne.
  - by intros -> ->.
  - by intros -> ->.
  - by intros -> ->.
  - by intros -> [-> | ->].
Qed.

Lemma assign_priority_table_witness :
  ∃ priority,
    assign_priority (classified "neutral" "account")
    = Ok {[ "priority" := VStr priority ]} ∧
    (VStr "neutral" = VStr "urgent" → priority = "critical") ∧
    (VStr "account" = VStr "billing" → VStr "neutral" = VStr "negative" →
     priority = "critical") ∧
    (VStr "neutral" = VStr "negative" → VStr "account" ≠ VStr "billing" →
     priority = "high") ∧
    (VStr "account" = VStr "technical" → VStr "neutral" = VStr "neutral" →
     priority = "high") ∧
    (VStr "account" = VStr "account" → VStr "neutral" = VStr "neutral" →
     priority = "medium") ∧
    (VStr "account" = VStr "account" → VStr "neutral" = VStr "positive" →
     priority = "low") ∧
    (VStr "account" = VStr "product" →
     VStr "neutral" = VStr "neutral" ∨ VStr "neutral" = VStr "positive" →
     priority = "low").
Proof.
  apply (assign_priority_table (classified "neutral" "account")
           (VStr "neutral") (VStr "account")); reflexivity.
Defined.

(** *** The node functions *)

Lemma analyze_sentiment_Ok (state u : dict) :
  analyze_sentiment state = Ok u →
  ∃ sentiment, u = {[ "sentiment" := VStr sentiment ]}.
Proof.
  unfold analyze_sentiment. destruct (getitem state "message") as [m |]; [| discriminate].
  simpl. destruct (lower_method m); [| discriminate]. simpl.
  intros [= <-]. by eexists.
Qed.

Lemma categorize_issue_Ok (state u : dict) :
  categorize_issue state = Ok u →
  ∃ category, u = {[ "category" := VStr category ]}.
Proof.
  unfold categorize_issue. destruct (getitem state "message") as [m |]; [| discriminate].
  simpl. destruct (lower_method m); [| discriminate]. simpl.
  intros [= <-]. by eexists.
Qed.

Lemma assign_priority_Ok (state u : dict) :
  assign_priority state = Ok u →
  ∃ priority, u = {[ "priority" := VStr priority ]} ∧
              In priority ["critical"; "high"; "medium"; "low"].
Proof.
  unfold assign_priority. destruct (getitem state "sentiment") as [s |]; [| discriminate].
  simpl. destruct (getitem state "category") as [c |]; [| discriminate]. simpl.
  intros [= <-]. eexists. split; [reflexivity |].
  repeat case_match; simpl; tauto.
Qed.

Lemma check_knowledge_base_cases (state : dict) (priority category : value) :
  state !! "priority" = Some priority →
  state !! "category" = Some category →
  ((priority = VStr "low" ∨ priority = VStr "medium") ∧
   (category = VStr "account" ∨ category = VStr "product") ∧
   check_knowledge_base state
   = Ok {[ "response" := VStr ("Auto-resolved " ++ str category
                               ++ " issue from knowledge base");
           "requires_human" := VBool false ]}) ∨
  (¬ ((priority = VStr "low" ∨ priority = VStr "medium") ∧
      (category = VStr "account" ∨ category = VStr "product")) ∧
   check_knowledge_base state = Ok {[ "requires_human" := VBool true ]}).
Proof.
  intros Hp Hc. unfold check_knowledge_base.
  rewrite (getitem_Some _ _ _ Hc), (getitem_Some _ _ _ Hp).
  unfold mbind, result_bind.
  destruct (in_strs priority ["low"; "medium"]) eqn:E1;
    destruct (in_strs category ["account"; "product"]) eqn:E2; simpl.
  - apply in_strs_2 in E1, E2. by left.
  - right. split; [| done]. intros [_ H]. apply in_strs_2 in H. congruence.
  - right. split; [| done]. intros [H _]. apply in_strs_2 in H. congruence.
  - right. split; [| done]. intros [H _]. apply in_strs_2 in H. congruence.
Qed.

Lemma check_knowledge_base_Ok (state u : dict) :
  check_knowledge_base state = Ok u →
  ∃ priority category,
    state !! "priority" = Some priority ∧ state !! "category" = Some category.
Proof.
  unfold check_knowledge_base, getitem, raise.
  destruct (state !! "category") as [c |]; [| discriminate]. simpl.
  destruct (state !! "priority") as [p |]; [| discriminate]. eauto.
Qed.

Lemma should_auto_resolve_cases (state : dict) (human : bool) (priority : value) :
  state !! "requires_human" = Some (VBool human) →
  state !! "priority" = Some priority →
  should_auto_resolve state =
  Ok (VStr (if negb human then "automated"
            else if in_strs priority ["critical"; "high"] then "escalate"
            else "ai_response")).
Proof.
  intros Hh Hp. unfold should_auto_resolve, get.
  rewrite Hh, (getitem_Some _ _ _ Hp). unfold mbind, result_bind.
  destruct human; simpl default; simpl truthy; simpl negb; cbv iota; [| done].
  by destruct (in_strs _ _).
Qed.

(** C3: for every state that holds a priority and a category,
    [check_knowledge_base] returns the auto-resolution (a knowledge-base
    response and [requires_human = False]) if and only if the priority
    is low or medium and the category is account or product; in every
    other case it returns [requires_human = True]. *)
Theorem check_knowledge_base_auto_resolve (state : dict) (priority category : value) :
  state !! "priority" = Some priority →
  state !! "category" = Some category →
  ∃ u,
    check_knowledge_base state = Ok u ∧
    (u = {[ "response" := VStr ("Auto-resolved " ++ str category
                                ++ " issue from knowledge base");
            "requires_human" := VBool false ]}
     ↔ (priority = VStr "low" ∨ priority = VStr "medium") ∧
       (category = VStr "account" ∨ category = VStr "product")) ∧
    (u !! "requires_human" = Some (VBool false)
     ↔ (priority = VStr "low" ∨ priority = VStr "medium") ∧
       (category = VStr "account" ∨ category = VStr "product")) ∧
    (¬ ((priority = VStr "low" ∨ priority = VStr "medium") ∧
        (category = VStr "account" ∨ category = VStr "product"))
     → u = {[ "requires_human" := VBool true ]}).
Proof.
  intros Hp Hc.
  destruct (check_knowledge_base_cases state priority category Hp Hc)
    as [(H1 & H2 & ->) | (Hn & ->)]; eexists; (split; [reflexivity |]).
  - split; [tauto |]. split; [| tauto]. by split.
  - split; [| split; [| done]].
    + split; [| tauto]. intros H.
      apply (f_equal (λ m : dict, m !! "requires_human")) in H. discriminate H.
    + split; [| tauto]. intros H. discriminate H.
Qed.

Lemma check_knowledge_base_auto_resolve_witness :
  ∃ u,
    check_knowledge_base {[ "priority" := VStr "medium"; "category" := VStr "account" ]}
    = Ok u ∧
    (u = {[ "response" := VStr ("Auto-resolved " ++ str (VStr "account")
                                ++ " issue from knowledge base");
            "requires_human" := VBool false ]}
     ↔ (VStr "medium" = VStr "low" ∨ VStr "medium" = VStr "medium") ∧
       (VStr "account" = VStr "account" ∨ VStr "account" = VStr "product")) ∧
    (u !! "requires_human" = Some (VBool false)
     ↔ (VStr "medium" = VStr "low" ∨ VStr "medium" = VStr "medium") ∧
       (VStr "account" = VStr "account" ∨ VStr "account" = VStr "product")) ∧
    (¬ ((VStr "medium" = VStr "low" ∨ VStr "medium" = VStr "medium") ∧
        (VStr "account" = VStr "account" ∨ VStr "account" = VStr "product"))
     → u = {[ "requires_human" := VBool true ]}).
Proof.
  apply (check_knowledge_base_auto_resolve
           {[ "priority" := VStr "medium"; "category" := VStr "account" ]}
           (VStr "medium") (VStr "account")); reflexivity.
Defined.

Lemma after_check_knowledge_base (state u : dict) :
  check_knowledge_base state = Ok u →
  ∃ (human : bool) (priority : value),
    state !! "priority" = Some priority ∧
    update state u !! "priority" = Some priority ∧
    update state u !! "requires_human" = Some (VBool human) ∧
    (human = false → priority = VStr "low" ∨ priority = VStr "medium").
Proof.
  intros H. destruct (check_knowledge_base_Ok _ _ H) as (p & c & Hp & Hc).
  destruct (check_knowledge_base_cases state p c Hp Hc)
    as [(H1 & H2 & E) | (Hn & E)]; rewrite E in H; injection H as <-.
  - exists false, p. split; [done |].
    split; [by rewrite update_frame |]. split; [by apply update_wins | done].
  - exists true, p. split; [done |].
    split; [by rewrite update_frame |]. split; [by apply update_wins | done].
Qed.

Lemma resolveNext_check_kb (st : dict) (human : bool) (priority : value) :
  st !! "requires_human" = Some (VBool human) →
  st !! "priority" = Some priority →
  resolveNext workflow "check_kb" st
  = Ok (if negb human then "automated"
        else if in_strs priority ["critical"; "high"] then "escalate"
        else "ai_response").
Proof.
  intros Hh Hp. unfold resolveNext.
  change (edges workflow !! "check_kb")
    with (Some (Conditional should_auto_resolve
                  [ (VStr "automated", "automated");
                    (VStr "ai_response", "ai_response");
                    (VStr "escalate", "escalate") ])).
  cbv beta iota. rewrite (should_auto_resolve_cases st human priority Hh Hp).
  destruct human; simpl negb; cbv iota; [| done].
  by destruct (in_strs priority _).
Qed.

(** C4: in every state that [check_knowledge_base] leaves behind, the
    conditional edge after [check_kb] leads to [escalate] if and only if
    [requires_human] is true and the priority is critical or high; it
    leads to [automated] when [requires_human] is false, and to
    [ai_response] in the remaining case. *)
Theorem should_auto_resolve_routes (state u : dict) :
  check_knowledge_base state = Ok u →
  ∃ (human : bool) (priority : value) (next : string),
    update state u !! "requires_human" = Some (VBool human) ∧
    update state u !! "priority" = Some priority ∧
    resolveNext workflow "check_kb" (update state u) = Ok next ∧
    (next = "escalate"
     ↔ human = true ∧ (priority = VStr "critical" ∨ priority = VStr "high")) ∧
    (human = false → next = "automated") ∧
    (human = true → ¬ (priority = VStr "critical" ∨ priority = VStr "high") →
     next = "ai_response").
Proof.
  intros H. destruct (after_check_knowledge_base _ _ H) as (human & p & _ & Hp & Hh & _).
  exists human, p. eexists. split; [done |]. split; [done |].
  split; [apply (resolveNext_check_kb _ human p Hh Hp) |].
  destruct human; simpl negb; cbv iota.
  - destruct (in_strs p ["critical"; "high"]) eqn:E.
    + apply in_strs_2 in E. by repeat split.
    + assert (¬ (p = VStr "critical" ∨ p = VStr "high")) as Hn.
      { intros Hc. apply in_strs_2 in Hc. congruence. }
      repeat split; try done. tauto.
  - repeat split; try done. by intros [? _].
Qed.

Lemma should_auto_resolve_routes_witness :
  ∃ (human : bool) (priority : value) (next : string),
    update (classified "urgent" "account" ∪ {[ "priority" := VStr "critical" ]})
      {[ "requires_human" := VBool true ]} !! "requires_human" = Some (VBool human) ∧
    update (classified "urgent" "account" ∪ {[ "priority" := VStr "critical" ]})
      {[ "requires_human" := VBool true ]} !! "priority" = Some priority ∧
    resolveNext workflow "check_kb"
      (update (classified "urgent" "account" ∪ {[ "priority" := VStr "critical" ]})
         {[ "requires_human" := VBool true ]})
    = Ok next ∧
    (next = "escalate"
     ↔ human = true ∧ (priority = VStr "critical" ∨ priority = VStr "high")) ∧
    (human = false → next = "automated") ∧
    (human = true → ¬ (priority = VStr "critical" ∨ priority = VStr "high") →
     next = "ai_response").
Proof.
  apply (should_auto_resolve_routes
           (classified "urgent" "account" ∪ {[ "priority" := VStr "critical" ]})
           {[ "requires_human" := VBool true ]}).
  reflexivity.
Defined.

(** *** The graph *)

Lemma generate_ai_response_Ok (state u : dict) :
  generate_ai_response state = Ok u →
  ∃ category priority,
    state !! "priority" = Some priority ∧
    u = {[ "response" := VStr ("AI-generated response for " ++ str category
                               ++ " issue (Priority: " ++ str priority ++ ")");
           "escalate" := VBool (eq_str priority "critical") ]}.
Proof.
  unfold generate_ai_response, getitem, raise.
  destruct (state !! "category") as [c |]; [| discriminate].
  destruct (state !! "priority") as [p |]; [| discriminate].
  unfold mbind, result_bind. intros [= <-]. by exists c, p.
Qed.

Lemma send_automated_response_Ok (state u : dict) :
  send_automated_response state = Ok u →
  ∃ category,
    u = {[ "response" := VStr ("Automated response for " ++ str category ++ " query");
           "escalate" := VBool false ]}.
Proof.
  unfold send_automated_response, getitem, raise.
  destruct (state !! "category") as [c |]; [| discriminate].
  unfold mbind, result_bind. intros [= <-]. by exists c.
Qed.

Lemma escalate_to_human_Ok (now now' : Clock) (state u : dict) :
  escalate_to_human now state = Ok (now', u) →
  now' = now ∧
  u = {[ "response" := VStr ("Escalated to human agent - Ticket: " ++ "TKT-" ++ now);
         "ticket_id" := VStr ("TKT-" ++ now);
         "escalate" := VBool true ]}.
Proof. unfold escalate_to_human. intros H. by injection H as <- <-. Qed.

Lemma pure_node_Ok (f : dict → pyres dict) (w w' : Clock) (st u : dict) :
  pure_node f w st = Ok (w', u) → w' = w ∧ f st = Ok u.
Proof. unfold pure_node. destruct (f st); [| discriminate]. by intros [= <- <-]. Qed.

(** The registry holds the seven nodes of the script, and the terminal
    marker completes with the empty update. *)
Lemma support_nodes_inv (cur : string) (f : @NodeFn Clock dict dict value exn) :
  lookup_node ∅ workflow cur = Some f →
  (cur = "analyze_sentiment" ∧ f = pure_node analyze_sentiment) ∨
  (cur = "categorize" ∧ f = pure_node categorize_issue) ∨
  (cur = "assign_priority" ∧ f = pure_node assign_priority) ∨
  (cur = "check_kb" ∧ f = pure_node check_knowledge_base) ∨
  (cur = "ai_response" ∧ f = pure_node generate_ai_response) ∨
  (cur = "escalate" ∧ f = escalate_to_human) ∨
  (cur = "automated" ∧ f = pure_node send_automated_response) ∨
  (cur = END ∧ f = λ w _, Ok (w, ∅)).
Proof.
  unfold lookup_node, workflow, is_terminal. simpl nodes. simpl terminals.
  intros H.
  repeat (rewrite lookup_insert in H;
          destruct (decide _) as [<- | _]; [injection H as <-; tauto |]).
  rewrite lookup_empty in H.
  destruct (bool_decide _) eqn:E; [| discriminate].
  apply bool_decide_eq_true in E. apply list_elem_of_singleton in E.
  injection H as <-. tauto.
Qed.

Lemma resolveNext_ai_response (st : dict) :
  resolveNext workflow "ai_response" st
  = Ok (if truthy (get st "escalate") then "escalate" else END).
Proof.
  unfold resolveNext.
  change (edges workflow !! "ai_response")
    with (Some (Conditional should_escalate
                  [ (VStr "escalate", "escalate"); (VStr "end", END) ])).
  unfold should_escalate. by destruct (truthy _).
Qed.

(** Every turn of the loop that goes on to another node follows one of
    the edges of the script. *)
Lemma support_step_Next (cur : string) (w : Clock) (st : dict) next w' st' :
  step update ∅ workflow cur w st = Next next w' st' →
  w' = w ∧
  ∃ u, st' = update st u ∧
    ((cur = "analyze_sentiment" ∧ next = "categorize" ∧ analyze_sentiment st = Ok u) ∨
     (cur = "categorize" ∧ next = "assign_priority" ∧ categorize_issue st = Ok u) ∨
     (cur = "assign_priority" ∧ next = "check_kb" ∧ assign_priority st = Ok u) ∨
     (cur = "check_kb" ∧ check_knowledge_base st = Ok u ∧
      ∃ (human : bool) (priority : value),
        st !! "priority" = Some priority ∧
        st' !! "priority" = Some priority ∧
        st' !! "requires_human" = Some (VBool human) ∧
        next = (if negb human then "automated"
                else if in_strs priority ["critical"; "high"] then "escalate"
                else "ai_response")) ∨
     (cur = "ai_response" ∧ generate_ai_response st = Ok u ∧
      next = (if truthy (get st' "escalate") then "escalate" else END)) ∨
     (cur = "escalate" ∧ next = END ∧ escalate_to_human w st = Ok (w, u)) ∨
     (cur = "automated" ∧ next = END ∧ send_automated_response st = Ok u)).
Proof.
  intros H. apply EngineFacts.step_Next_inv in H as (f & u & Hl & Hf & Ht & Hr & ->).
  apply support_nodes_inv in Hl
    as [[-> ->] | [[-> ->] | [[-> ->] | [[-> ->] | [[-> ->] | [[-> ->] | [[-> ->] | [-> ->]]]]]]]];
    try (apply pure_node_Ok in Hf as [-> Hf]).
  - injection Hr as <-. split; [done |]. exists u. split; [done |]. tauto.
  - injection Hr as <-. split; [done |]. exists u. split; [done |]. tauto.
  - injection Hr as <-. split; [done |]. exists u. split; [done |]. tauto.
  - destruct (after_check_knowledge_base _ _ Hf) as (human & p & Hp & Hp' & Hh & _).
    rewrite (resolveNext_check_kb _ human p Hh Hp') in Hr. injection Hr as <-.
    split; [done |]. exists u. split; [done |].
    do 3 right. left. split; [done |]. split; [done |]. by exists human, p.
  - rewrite resolveNext_ai_response in Hr. injection Hr as <-.
    split; [done |]. exists u. split; [done |]. do 4 right. left. done.
  - injection Hr as <-. destruct (escalate_to_human_Ok _ _ _ _ Hf) as [-> _].
    split; [done |]. exists u. split; [done |]. do 5 right. left. done.
  - injection Hr as <-. split; [done |]. exists u. split; [done |].
    do 6 right. done.
  - vm_compute in Ht. discriminate Ht.
Qed.

(** The only turn that ends the invocation is the one at the terminal
    marker, and it leaves the state as it is. *)
Lemma support_step_Finished (cur : string) (w : Clock) (st st' : dict) :
  step update ∅ workflow cur w st = Finished st' → cur = END ∧ st' = st.
Proof.
  intros H. apply EngineFacts.step_Finished_inv in H as (f & w' & u & Hl & Hf & Ht & ->).
  apply support_nodes_inv in Hl
    as [[-> ->] | [[-> ->] | [[-> ->] | [[-> ->] | [[-> ->] | [[-> ->] | [[-> ->] | [-> ->]]]]]]]];
    try (vm_compute in Ht; discriminate Ht).
  injection Hf as <- <-. by rewrite update_empty.
Qed.

(** No node writes the fields [user_id] and [message]. *)
Lemma support_node_frame (name : string) (f : @NodeFn Clock dict dict value exn)
    (w w' : Clock) (st u : dict) :
  lookup_node ∅ workflow name = Some f →
  f w st = Ok (w', u) →
  u !! "user_id" = None ∧ u !! "message" = None.
Proof.
  intros Hl Hf.
  apply support_nodes_inv in Hl
    as [[-> ->] | [[-> ->] | [[-> ->] | [[-> ->] | [[-> ->] | [[-> ->] | [[-> ->] | [-> ->]]]]]]]];
    try (apply pure_node_Ok in Hf as [-> Hf]).
  - apply analyze_sentiment_Ok in Hf as [? ->]. done.
  - apply categorize_issue_Ok in Hf as [? ->]. done.
  - apply assign_priority_Ok in Hf as (? & -> & _). done.
  - destruct (check_knowledge_base_Ok _ _ Hf) as (p & c & Hp & Hc).
    destruct (check_knowledge_base_cases st p c Hp Hc) as [(_ & _ & E) | (_ & E)];
      rewrite E in Hf; injection Hf as <-; done.
  - apply generate_ai_response_Ok in Hf as (? & ? & _ & ->). done.
  - apply escalate_to_human_Ok in Hf as [_ ->]. done.
  - apply send_automated_response_Ok in Hf as [? ->]. done.
  - injection Hf as <- <-. done.
Qed.

Lemma support_step_frame (cur : string) (w : Clock) (st : dict) next w' st' :
  step update ∅ workflow cur w st = Next next w' st' →
  st' !! "user_id" = st !! "user_id" ∧ st' !! "message" = st !! "message".
Proof.
  intros H. destruct (support_step_Next _ _ _ _ _ _ H) as (-> & u & -> & Hcase).
  assert (u !! "user_id" = None ∧ u !! "message" = None) as [Hu Hm].
  { destruct Hcase as [(-> & _ & Hf) | [(-> & _ & Hf) | [(-> & _ & Hf)
      | [(-> & Hf & _) | [(-> & Hf & _) | [(-> & _ & Hf) | (-> & _ & Hf)]]]]]].
    - apply (support_node_frame "analyze_sentiment" (pure_node analyze_sentiment) w w st u);
        [reflexivity | unfold pure_node; by rewrite Hf].
    - apply (support_node_frame "categorize" (pure_node categorize_issue) w w st u);
        [reflexivity | unfold pure_node; by rewrite Hf].
    - apply (support_node_frame "assign_priority" (pure_node assign_priority) w w st u);
        [reflexivity | unfold pure_node; by rewrite Hf].
    - apply (support_node_frame "check_kb" (pure_node check_knowledge_base) w w st u);
        [reflexivity | unfold pure_node; by rewrite Hf].
    - apply (support_node_frame "ai_response" (pure_node generate_ai_response) w w st u);
        [reflexivity | unfold pure_node; by rewrite Hf].
    - apply (support_node_frame "escalate" escalate_to_human w w st u);
        [reflexivity | exact Hf].
    - apply (support_node_frame "automated" (pure_node send_automated_response) w w st u);
        [reflexivity | unfold pure_node; by rewrite Hf]. }
  split; by apply update_frame.
Qed.

(** *** Invocations *)

(** C9: merging an update keeps every field the update does not name;
    no node of the support-triage workflow names [user_id] or [message]
    in the update it returns, so both are kept by the merge after every
    node; and in every invocation that returns a state, [user_id] and
    [message] are the same in the initial and in the final state. *)
Theorem merge_keeps_unnamed_fields :
  (∀ (state u : dict) (k : string),
     u !! k = None → update state u !! k = state !! k) ∧
  (∀ (name : string) (f : @NodeFn Clock dict dict value exn) (w w' : Clock) (st u : dict),
     nodes workflow !! name = Some f →
     f w st = Ok (w', u) →
     u !! "user_id" = None ∧ u !! "message" = None ∧
     update st u !! "user_id" = st !! "user_id" ∧
     update st u !! "message" = st !! "message") ∧
  (∀ (fuel : nat) (now : Clock) (s0 : dict) (visits : list string) (final : dict),
     run update ∅ fuel workflow now s0 = (visits, Some (Ok final)) →
     final !! "user_id" = s0 !! "user_id" ∧ final !! "message" = s0 !! "message").
Proof.
  split; [exact update_frame |]. split.
  - intros name f w w' st u Hn Hf.
    assert (lookup_node ∅ workflow name = Some f) as Hl.
    { unfold lookup_node. by rewrite Hn. }
    destruct (support_node_frame _ _ _ _ _ _ Hl Hf) as [Hu Hm].
    repeat split; try done; by apply update_frame.
  - intros fuel now s0 visits final Hrun. unfold run in Hrun.
    apply (EngineFacts.run_from_invariant update ∅
             (λ st, st !! "user_id" = s0 !! "user_id" ∧ st !! "message" = s0 !! "message")
             workflow) in Hrun; try done.
    + intros cur w st next w' st' [Hu Hm] Hstep.
      destruct (support_step_frame _ _ _ _ _ _ Hstep) as [-> ->]. done.
    + intros cur w st st' HP Hstep.
      by destruct (support_step_Finished _ _ _ _ Hstep) as [_ ->].
Qed.

Lemma merge_keeps_unnamed_fields_witness :
  match (invoke "20261104120000" test_case_1).2 with Some (Ok d) => d | _ => ∅ end
    !! "user_id" = test_case_1 !! "user_id" ∧
  match (invoke "20261104120000" test_case_1).2 with Some (Ok d) => d | _ => ∅ end
    !! "message" = test_case_1 !! "message".
Proof.
  apply (proj2 (proj2 merge_keeps_unnamed_fields) 6%nat "20261104120000" test_case_1
           (invoke "20261104120000" test_case_1).1).
  vm_compute. reflexivity.
Defined.

(** On its way through the graph the state holds an assigned priority
    when it comes to [check_kb], and when it comes to [ai_response] a
    human is required, the priority is low or medium and the category
    is known. *)
Lemma support_invariant (now : Clock) (s0 : dict) (cur : string) (w : Clock) (st : dict) :
  reaches update ∅ workflow now s0 cur w st →
  (cur = "check_kb" →
   ∃ p, st !! "priority" = Some (VStr p) ∧ In p ["critical"; "high"; "medium"; "low"]) ∧
  (cur = "ai_response" →
   st !! "requires_human" = Some (VBool true) ∧
   (st !! "priority" = Some (VStr "low") ∨ st !! "priority" = Some (VStr "medium")) ∧
   ∃ c, st !! "category" = Some c).
Proof.
  induction 1 as [| cur w st next w' st' Hreach [IHkb IHai] Hstep].
  - split; intros [=].
  - destruct (support_step_Next _ _ _ _ _ _ Hstep) as (-> & u & -> & Hcase).
    destruct Hcase as [(-> & -> & Hf) | [(-> & -> & Hf) | [(-> & -> & Hf)
      | [(-> & Hf & human & p & Hp & Hp' & Hh & ->) | [(-> & Hf & ->)
      | [(-> & -> & Hf) | (-> & -> & Hf)]]]]]].
    + split; intros [=].
    + split; intros [=].
    + split; [intros _ | intros [=]].
      apply assign_priority_Ok in Hf as (p & -> & Hin).
      exists p. split; [| done]. by apply update_wins.
    + destruct (IHkb eq_refl) as (q & Hq & Hin).
      assert (p = VStr q) as -> by congruence.
      destruct human; simpl negb; cbv iota.
      * destruct (in_strs (VStr q) ["critical"; "high"]) eqn:E;
          [split; intros [=] |].
        split; [intros [=] | intros _]. split; [done |].
        assert (¬ (VStr q = VStr "critical" ∨ VStr q = VStr "high")) as Hn.
        { intros Hc. apply in_strs_2 in Hc. congruence. }
        split.
        -- simpl in Hin.
           destruct Hin as [<- | [<- | [<- | [<- | []]]]]; try tauto; exfalso; tauto.
        -- destruct (check_knowledge_base_Ok _ _ Hf) as (p0 & c & _ & Hc).
           exists c. rewrite update_frame; [done |].
           destruct (check_knowledge_base_cases st _ _ Hq Hc) as [(_ & _ & E') | (_ & E')];
             rewrite E' in Hf; by injection Hf as <-.
      * split; intros [=].
    + destruct (truthy _); split; intros [=].
    + split; intros [=].
    + split; intros [=].
Qed.

Lemma generate_ai_response_Some (state : dict) (category priority : value) :
  state !! "category" = Some category →
  state !! "priority" = Some priority →
  generate_ai_response state
  = Ok {[ "response" := VStr ("AI-generated response for " ++ str category
                              ++ " issue (Priority: " ++ str priority ++ ")");
          "escalate" := VBool (eq_str priority "critical") ]}.
Proof.
  intros Hc Hp. unfold generate_ai_response.
  by rewrite (getitem_Some _ _ _ Hc), (getitem_Some _ _ _ Hp).
Qed.

(** C10: for every initial state, a state that comes to the
    [ai_response] node has [requires_human = True] and a priority that
    is low or medium; [generate_ai_response] then sets [escalate] to
    [False], [should_escalate] returns ["end"], and the turn of the
    executor at [ai_response] goes to the terminal marker, not to
    [escalate]. *)
Theorem ai_response_never_escalates (now : Clock) (s0 : dict) (w : Clock) (st : dict) :
  reaches update ∅ workflow now s0 "ai_response" w st →
  st !! "requires_human" = Some (VBool true) ∧
  (st !! "priority" = Some (VStr "low") ∨ st !! "priority" = Some (VStr "medium")) ∧
  ∃ u,
    generate_ai_response st = Ok u ∧
    u !! "escalate" = Some (VBool false) ∧
    should_escalate (update st u) = Ok (VStr "end") ∧
    step update ∅ workflow "ai_response" w st = Next END w (update st u).
Proof.
  intros Hreach.
  destruct (support_invariant _ _ _ _ _ Hreach) as [_ Hai].
  destruct (Hai eq_refl) as (Hh & Hp & c & Hc).
  split; [done |]. split; [done |].
  assert (∃ p, st !! "priority" = Some p ∧ eq_str p "critical" = false)
    as (p & Hp' & Hcrit).
  { destruct Hp as [Hp | Hp]; eexists; (split; [exact Hp | done]). }
  pose proof (generate_ai_response_Some st c p Hc Hp') as Hgen.
  rewrite Hcrit in Hgen.
  destruct (generate_ai_response st) as [u |] eqn:Eu; [| discriminate].
  assert (u !! "escalate" = Some (VBool false)) as Hesc.
  { rewrite (Ok_lookup _ _ "escalate" Hgen).
    rewrite lookup_insert_ne by done. apply lookup_insert_eq. }
  assert (truthy (get (update st u) "escalate") = false) as Htruthy.
  { unfold get. by rewrite (update_wins _ _ _ _ Hesc). }
  exists u. split; [done |]. split; [done |]. split.
  - unfold should_escalate. by rewrite Htruthy.
  - unfold step.
    change (lookup_node ∅ workflow "ai_response")
      with (Some (pure_node (World:=Clock) (Label:=value) generate_ai_response)).
    unfold pure_node. rewrite Eu.
    change (is_terminal workflow "ai_response") with false. cbv iota.
    rewrite resolveNext_ai_response, Htruthy. reflexivity.
Qed.

Lemma ai_response_never_escalates_witness :
  ∃ st,
    reaches update ∅ workflow "20261104120000"
      (test_case "U001" "I have a question about my bill")
      "ai_response" "20261104120000" st ∧
    st !! "requires_human" = Some (VBool true) ∧
    (st !! "priority" = Some (VStr "low") ∨ st !! "priority" = Some (VStr "medium")) ∧
    ∃ u,
      generate_ai_response st = Ok u ∧
      u !! "escalate" = Some (VBool false) ∧
      should_escalate (update st u) = Ok (VStr "end") ∧
      step update ∅ workflow "ai_response" "20261104120000" st
      = Next END "20261104120000" (update st u).
Proof.
  set (cfg := config_after update ∅ 4 workflow "20261104120000"
                (test_case "U001" "I have a question about my bill")).
  set (st := match cfg with Some (_, _, st) => st | None => ∅ end).
  assert (cfg = Some ("ai_response", "20261104120000", st)) as Hst.
  { vm_compute. reflexivity. }
  exists st.
  pose proof (EngineFacts.config_after_reaches _ _ _ _ _ _ _ _ _ Hst) as Hreach.
  split; [exact Hreach |].
  exact (ai_response_never_escalates _ _ _ _ Hreach).
Defined.

(** C5: for the request "URGENT: Cannot access my account, need help
    immediately!" the support-triage workflow finds the sentiment
    urgent, the category account and the priority critical, requires a
    human, goes from [check_kb] to the [escalate] node, and ends with a
    response that contains the ticket identifier it generated. *)
Theorem urgent_account_request_escalates (now : Clock) :
  (invoke now test_case_1).1
  = ["analyze_sentiment"; "categorize"; "assign_priority"; "check_kb"; "escalate"; END] ∧
  ∃ final ticket response,
    (invoke now test_case_1).2 = Some (Ok final) ∧
    final !! "sentiment" = Some (VStr "urgent") ∧
    final !! "category" = Some (VStr "account") ∧
    final !! "priority" = Some (VStr "critical") ∧
    final !! "requires_human" = Some (VBool true) ∧
    final !! "escalate" = Some (VBool true) ∧
    final !! "ticket_id" = Some (VStr ticket) ∧
    final !! "response" = Some (VStr response) ∧
    ticket = "TKT-" ++ now ∧
    contains ticket response = true.
Proof.
  split; [vm_compute; reflexivity |].
  exists (match (invoke now test_case_1).2 with Some (Ok d) => d | _ => ∅ end).
  exists ("TKT-" ++ now), ("Escalated to human agent - Ticket: " ++ "TKT-" ++ now).
  do 8 (split; [vm_compute; reflexivity |]).
  split; [reflexivity |].
  apply (contains_suffix ("TKT-" ++ now) "Escalated to human agent - Ticket: ").
Qed.

(** C6 (as the specification states it, refuted): the request "How do
    I reset my password?" does not end with the priority low. *)
Lemma password_reset_priority_not_low :
  ¬ (∃ visits final,
       invoke "20261104120000" test_case_2 = (visits, Some (Ok final)) ∧
       final !! "sentiment" = Some (VStr "neutral") ∧
       final !! "category" = Some (VStr "account") ∧
       final !! "priority" = Some (VStr "low") ∧
       final !! "requires_human" = Some (VBool false) ∧
       In "automated" visits).
Proof.
  intros (visits & final & Hrun & _ & _ & Hlow & _).
  assert (match (invoke "20261104120000" test_case_2).2 with
          | Some (Ok d) => d !! "priority"
          | _ => None
          end = Some (VStr "medium")) as Hmedium by (vm_compute; reflexivity).
  rewrite Hrun in Hmedium. simpl in Hmedium. congruence.
Qed.

(** C6 (amended): for the request "How do I reset my password?" the
    support-triage workflow finds the sentiment neutral, the category
    account and the priority medium, requires no human, and goes from
    [check_kb] to the [automated] node. *)
Theorem password_reset_request_automated (now : Clock) :
  (invoke now test_case_2).1
  = ["analyze_sentiment"; "categorize"; "assign_priority"; "check_kb"; "automated"; END] ∧
  ∃ final,
    (invoke now test_case_2).2 = Some (Ok final) ∧
    final !! "sentiment" = Some (VStr "neutral") ∧
    final !! "category" = Some (VStr "account") ∧
    final !! "priority" = Some (VStr "medium") ∧
    final !! "requires_human" = Some (VBool false) ∧
    final !! "escalate" = Some (VBool false) ∧
    final !! "response" = Some (VStr "Automated response for account query").
Proof.
  split; [vm_compute; reflexivity |].
  exists (match (invoke now test_case_2).2 with Some (Ok d) => d | _ => ∅ end).
  do 6 (split; [vm_compute; reflexivity |]).
  vm_compute; reflexivity.
Qed.

(** The node functions are functions of the state and of the world
    outside: with another reading of the clock, [escalate_to_human]
    issues another ticket. *)
Lemma ticket_depends_on_clock :
  (invoke "20261104120000" test_case_1).2 ≠ (invoke "20261104120001" test_case_1).2.
Proof.
  intros H.
  apply (f_equal (λ r : option (pyres dict),
                    match r with Some (Ok d) => d !! "ticket_id" | _ => None end)) in H.
  vm_compute in H. discriminate H.
Qed.

Lemma run_deterministic_witness :
  deterministic_workflow (lift workflow) ∧
  Exec update ∅ (lift workflow) (r_entry (lift workflow)) "20261104120000" test_case_1
    (invoke "20261104120000" test_case_1).1
    (default (Err (UnknownNode EmptyString)) (invoke "20261104120000" test_case_1).2) ∧
  default (Err (UnknownNode EmptyString)) (invoke "20261104120000" test_case_1).2
  = default (Err (UnknownNode EmptyString)) (invoke "20261104120000" test_case_1).2 ∧
  (invoke "20261104120000" test_case_1).1 = (invoke "20261104120000" test_case_1).1.
Proof.
  assert (Exec update ∅ (lift workflow) (r_entry (lift workflow)) "20261104120000"
            test_case_1 (invoke "20261104120000" test_case_1).1
            (default (Err (UnknownNode EmptyString)) (invoke "20261104120000" test_case_1).2))
    as Hexec.
  { apply (EngineFacts.run_from_Exec update ∅ 6). vm_compute. reflexivity. }
  split; [apply EngineFacts.lift_deterministic |]. split; [exact Hexec |].
  exact (EngineFacts.run_deterministic update ∅ (lift workflow) "20261104120000"
           test_case_1 _ _ _ _ (EngineFacts.lift_deterministic workflow) Hexec Hexec).
Defined.

End SupportFacts.

(** ** The retrieval-routing workflow *)

Module MediumFacts.

Import Engine Py PyFacts Medium.

Lemma update_self (state : dict) : update state state = state.
Proof.
  apply map_eq. intros k. unfold update. rewrite lookup_union.
  by destruct (state !! k).
Qed.

Lemma update_insert (state m : dict) (k : string) (v : value) :
  update state (<[k:=v]> m) = <[k:=v]> (update state m).
Proof. unfold update. by rewrite insert_union_l. Qed.

(** A node of this workflow returns the dictionary it was given, with
    its writes in it: merging leaves exactly that dictionary. *)
Lemma update_written1 (state : dict) (k : string) (v : value) :
  update state (<[k:=v]> state) = <[k:=v]> state.
Proof. by rewrite update_insert, update_self. Qed.

Lemma update_written2 (state : dict) (k1 k2 : string) (v1 v2 : value) :
  update state (<[k2:=v2]> (<[k1:=v1]> state)) = <[k2:=v2]> (<[k1:=v1]> state).
Proof. by rewrite !update_insert, update_self. Qed.

(** *** The routing functions *)

(** [relevance_decision] adds one to the counter it reads, and answers
    ["Yes"] as soon as the new count is three or more. *)
Lemma relevance_decision_counter (state : dict) (c : Z) :
  get_default state "iteration_count" (VInt 0) = VInt c →
  ((3 ≤ c + 1)%Z →
   relevance_decision state
   = Ok (VStr "Yes",
         <["is_relevant" := VStr "Yes"]> (<["iteration_count" := VInt (c + 1)]> state))) ∧
  ((c + 1 < 3)%Z →
   ∀ verdict, state !! "is_relevant" = Some verdict →
     relevance_decision state
     = Ok (verdict, <["iteration_count" := VInt (c + 1)]> state)).
Proof.
  intros Hc. unfold relevance_decision. rewrite Hc.
  unfold add_one, mbind, result_bind. split.
  - intros H. apply Z.leb_le in H. rewrite H.
    unfold getitem. by rewrite lookup_insert_eq.
  - intros H verdict Hv. apply Z.leb_gt in H. rewrite H.
    unfold getitem. rewrite lookup_insert_ne by done. by rewrite Hv.
Qed.

Lemma relevance_decision_Ok (state state' : dict) (c : Z) (label : value) :
  get_default state "iteration_count" (VInt 0) = VInt c →
  relevance_decision state = Ok (label, state') →
  get_default state' "iteration_count" (VInt 0) = VInt (c + 1) ∧
  ((3 ≤ c + 1)%Z → label = VStr "Yes").
Proof.
  intros Hc H. destruct (relevance_decision_counter state c Hc) as [Hyes Hlow].
  destruct (Z.le_gt_cases 3 (c + 1)) as [Hle | Hlt].
  - rewrite (Hyes Hle) in H. injection H as <- <-. split; [| done].
    unfold get_default. rewrite lookup_insert_ne by done. by rewrite lookup_insert_eq.
  - split; [| lia].
    unfold relevance_decision in H. rewrite Hc in H.
    unfold add_one, mbind, result_bind in H.
    apply Z.leb_gt in Hlt. rewrite Hlt in H.
    destruct (getitem _ "is_relevant"); [| discriminate].
    injection H as <- <-. unfold get_default. by rewrite lookup_insert_eq.
Qed.

(** *** The node functions *)

Section Nodes.
Variable svc : Services.

Lemma router_Ok (n n' : nat) (state state' : dict) :
router svc n state = Ok (n', state') →
n' = S n ∧ ∃ decision, state' = <["source" := VStr decision]> state.
Proof.
unfold router. destruct (getitem state "query"); [| discriminate].
unfold mbind, result_bind. intros H. injection H as <- <-. eauto.
Qed.

Lemma retrieve_context_q_n_a_Ok (n n' : nat) (state state' : dict) :
retrieve_context_q_n_a svc n state = Ok (n', state') →
n' = S n ∧
∃ context, state' = <["source" := VStr "Medical Q&A Collection"]>
                      (<["context" := VStr context]> state).
Proof.
unfold retrieve_context_q_n_a. destruct (getitem state "query"); [| discriminate].
unfold mbind, result_bind. intros H. injection H as <- <-. eauto.
Qed.

Lemma retrieve_context_medical_device_Ok (n n' : nat) (state state' : dict) :
retrieve_context_medical_device svc n state = Ok (n', state') →
n' = S n ∧
∃ context, state' = <["source" := VStr "Medical Device Manual"]>
                      (<["context" := VStr context]> state).
Proof.
unfold retrieve_context_medical_device.
destruct (getitem state "query"); [| discriminate].
unfold mbind, result_bind. intros H. injection H as <- <-. eauto.
Qed.

Lemma web_search_Ok (n n' : nat) (state state' : dict) :
web_search svc n state = Ok (n', state') →
n' = S n ∧
∃ context, state' = <["source" := VStr "Web Search"]>
                      (<["context" := VStr context]> state).
Proof.
unfold web_search. destruct (getitem state "query"); [| discriminate].
unfold mbind, result_bind. intros H. injection H as <- <-. eauto.
Qed.

Lemma build_prompt_Ok (state state' : dict) :
build_prompt state = Ok state' →
∃ prompt, state' = <["prompt" := VStr prompt]> state.
Proof.
unfold build_prompt. destruct (getitem state "query"); [| discriminate].
unfold mbind at 1, result_bind at 1.
destruct (getitem state "context"); [| discriminate].
unfold mbind, result_bind. intros H. injection H as <-. eauto.
Qed.

Lemma call_llm_Ok (n n' : nat) (state state' : dict) :
call_llm svc n state = Ok (n', state') →
n' = S n ∧ ∃ answer, state' = <["response" := VStr answer]> state.
Proof.
unfold call_llm. destruct (getitem state "prompt"); [| discriminate].
unfold mbind, result_bind. intros H. injection H as <- <-. eauto.
Qed.

Lemma check_context_relevance_Ok (n n' : nat) (state state' : dict) :
check_context_relevance svc n state = Ok (n', state') →
n' = S n ∧ ∃ verdict, state' = <["is_relevant" := VStr verdict]> state.
Proof.
unfold check_context_relevance. destruct (getitem state "query"); [| discriminate].
unfold mbind at 1, result_bind at 1.
destruct (getitem state "context"); [| discriminate].
unfold mbind, result_bind. intros H. injection H as <- <-. eauto.
Qed.

Lemma medium_nodes_inv (cur : string) (f : @NodeFn nat dict dict value exn) :
lookup_node ∅ (workflow svc) cur = Some f →
(cur = "Router" ∧ f = router svc) ∨
(cur = "Retrieve_QnA" ∧ f = retrieve_context_q_n_a svc) ∨
(cur = "Retrieve_Device" ∧ f = retrieve_context_medical_device svc) ∨
(cur = "Web_Search" ∧ f = web_search svc) ∨
(cur = "Relevance_Checker" ∧ f = check_context_relevance svc) ∨
(cur = "Augment" ∧ f = pure_node build_prompt) ∨
(cur = "Generate" ∧ f = call_llm svc) ∨
(cur = END ∧ f = λ w _, Ok (w, ∅)).
Proof.
unfold lookup_node, workflow, is_terminal. simpl nodes. simpl terminals.
intros H.
repeat (rewrite lookup_insert in H;
        destruct (decide _) as [<- | _]; [injection H as <-; tauto |]).
rewrite lookup_empty in H.
destruct (bool_decide _) eqn:E; [| discriminate].
apply bool_decide_eq_true in E. apply list_elem_of_singleton in E.
injection H as <-. tauto.
Qed.


Lemma resolveNext_static (from target : string) (st : dict) (next : string) :
edges (workflow svc) !! from = Some (Static target) →
resolveNext (workflow svc) from st = Ok next →
next = target.
Proof. unfold resolveNext. intros ->. by intros [= <-]. Qed.

Lemma assoc_route (label : value) (next : string) :
assoc [ (VStr "Retrieve_QnA", "Retrieve_QnA");
        (VStr "Retrieve_Device", "Retrieve_Device");
        (VStr "Web_Search", "Web_Search") ] label = Some next →
next = "Retrieve_QnA" ∨ next = "Retrieve_Device" ∨ next = "Web_Search".
Proof.
cbn [assoc]. repeat (destruct (decide _); [intros [= <-]; auto |]). discriminate.
Qed.

Lemma assoc_relevance (label : value) (next : string) :
assoc [ (VStr "Yes", "Augment"); (VStr "No", "Web_Search") ] label = Some next →
(label = VStr "Yes" ∧ next = "Augment") ∨ (label = VStr "No" ∧ next = "Web_Search").
Proof.
cbn [assoc]. repeat (destruct (decide _) as [<- |]; [intros [= <-]; auto |]).
discriminate.
Qed.

Lemma resolveNext_Router (st : dict) (next : string) :
resolveNext (workflow svc) "Router" st = Ok next →
next = "Retrieve_QnA" ∨ next = "Retrieve_Device" ∨ next = "Web_Search".
Proof.
unfold resolveNext.
change (edges (workflow svc) !! "Router")
  with (Some (Conditional route_decision
                [ (VStr "Retrieve_QnA", "Retrieve_QnA");
                  (VStr "Retrieve_Device", "Retrieve_Device");
                  (VStr "Web_Search", "Web_Search") ])).
cbv beta iota. destruct (route_decision st) as [label |]; [| discriminate].
destruct (assoc _ label) as [n |] eqn:E; [| discriminate].
intros [= <-]. by apply (assoc_route label).
Qed.

(** The edge after the relevance check takes the label of
  [relevance_decision]; the dictionary the function has written into
  goes no further. *)
Lemma resolveNext_Relevance_Checker (st : dict) (next : string) :
resolveNext (workflow svc) "Relevance_Checker" st = Ok next →
∃ label written, relevance_decision st = Ok (label, written) ∧
                 ((label = VStr "Yes" ∧ next = "Augment") ∨
                  (label = VStr "No" ∧ next = "Web_Search")).
Proof.
unfold resolveNext.
change (edges (workflow svc) !! "Relevance_Checker")
  with (Some (Conditional (label_of relevance_decision)
                [ (VStr "Yes", "Augment"); (VStr "No", "Web_Search") ])).
cbv beta iota. unfold label_of.
destruct (relevance_decision st) as [[label st1] |]; [| discriminate].
destruct (assoc _ label) as [n |] eqn:E; [| discriminate].
intros [= <-]. exists label, st1. split; [done |]. by apply assoc_relevance.
Qed.

(** Every turn of the loop that goes on to another node follows one of
  the edges of the script, and no turn changes the counter in the
  state. *)
Lemma medium_step_Next (cur : string) (n : nat) (st : dict) next n' st' :
step update ∅ (workflow svc) cur n st = Next next n' st' →
st' !! "iteration_count" = st !! "iteration_count" ∧
((cur = "Router" ∧
  (next = "Retrieve_QnA" ∨ next = "Retrieve_Device" ∨ next = "Web_Search")) ∨
 ((cur = "Retrieve_QnA" ∨ cur = "Retrieve_Device" ∨ cur = "Web_Search") ∧
  next = "Relevance_Checker") ∨
 (cur = "Relevance_Checker" ∧
  ∃ label written,
    relevance_decision st' = Ok (label, written) ∧
    ((label = VStr "Yes" ∧ next = "Augment") ∨
     (label = VStr "No" ∧ next = "Web_Search"))) ∨
 (cur = "Augment" ∧ next = "Generate") ∨
 (cur = "Generate" ∧ next = END)).
Proof.
intros H. apply EngineFacts.step_Next_inv in H as (f & u & Hl & Hf & Ht & Hr & ->).
apply medium_nodes_inv in Hl
  as [[-> ->] | [[-> ->] | [[-> ->] | [[-> ->] | [[-> ->] | [[-> ->] | [[-> ->] | [-> ->]]]]]]]].
- apply router_Ok in Hf as (-> & d & ->). rewrite update_written1 in *.
  apply resolveNext_Router in Hr.
  split; [by rewrite lookup_insert_ne by done |]. left. done.
- apply retrieve_context_q_n_a_Ok in Hf as (-> & c & ->).
  rewrite update_written2 in *.
  apply (resolveNext_static "Retrieve_QnA" "Relevance_Checker" _ _ eq_refl) in Hr as ->.
  split; [by rewrite !lookup_insert_ne by done |]. right; left. tauto.
- apply retrieve_context_medical_device_Ok in Hf as (-> & c & ->).
  rewrite update_written2 in *.
  apply (resolveNext_static "Retrieve_Device" "Relevance_Checker" _ _ eq_refl) in Hr as ->.
  split; [by rewrite !lookup_insert_ne by done |]. right; left. tauto.
- apply web_search_Ok in Hf as (-> & c & ->).
  rewrite update_written2 in *.
  apply (resolveNext_static "Web_Search" "Relevance_Checker" _ _ eq_refl) in Hr as ->.
  split; [by rewrite !lookup_insert_ne by done |]. right; left. tauto.
- apply check_context_relevance_Ok in Hf as (-> & v & ->).
  rewrite update_written1 in *.
  apply resolveNext_Relevance_Checker in Hr as (label & written & Hdec & Hcase).
  split; [by rewrite lookup_insert_ne by done |].
  do 2 right; left. split; [done |]. by exists label, written.
- unfold pure_node in Hf. destruct (build_prompt st) as [st1 |] eqn:E; [| discriminate].
  injection Hf as <- <-. apply build_prompt_Ok in E as [p ->].
  rewrite update_written1 in *.
  apply (resolveNext_static "Augment" "Generate" _ _ eq_refl) in Hr as ->.
  split; [by rewrite lookup_insert_ne by done |]. do 3 right; left. done.
- apply call_llm_Ok in Hf as (-> & a & ->).
  rewrite update_written1 in *.
  apply (resolveNext_static "Generate" END _ _ eq_refl) in Hr as ->.
  split; [by rewrite lookup_insert_ne by done |]. do 4 right. done.
- vm_compute in Ht. discriminate Ht.
Qed.

End Nodes.

(** C8: when a conditional routing function returns a label that the edge
    table maps to no node, [resolveNext] fails with [UnmappedLabel] and
    the invocation ends there with that failure, returning no state; in
    particular, when [route_decision] returns, on the state the [Router]
    node leaves, anything else than ["Retrieve_QnA"], ["Retrieve_Device"]
    or ["Web_Search"], the invocation of the retrieval workflow fails
    with [UnmappedLabel] after the one visit of [Router]. *)
Theorem unmapped_label_fails_invocation :
  (∀ (World St Upd Label Exn : Type) (Heq : EqDecision Label)
     (merge : St → Upd → St) (no_update : Upd)
     (W : @Workflow World St Upd Label Exn) (cur : string) (w w' : World)
     (st : St) (u : Upd) (f : @NodeFn World St Upd Label Exn)
     (routingFn : @RoutingFn St Label Exn) (table : list (Label * string))
     (label : Label),
     nodes W !! cur = Some f →
     f w st = Ok (w', u) →
     is_terminal W cur = false →
     edges W !! cur = Some (Conditional routingFn table) →
     routingFn (merge st u) = Ok label →
     assoc table label = None →
     resolveNext W cur (merge st u) = Err (UnmappedLabel label) ∧
     ∀ fuel, run_from merge no_update (S fuel) W cur w st
             = ([cur], Some (Err (UnmappedLabel label)))) ∧
  (∀ (svc : Services) (state state' : dict) (n' : nat) (label : value),
     router svc 0 state = Ok (n', state') →
     route_decision (update state state') = Ok label →
     label ≠ VStr "Retrieve_QnA" →
     label ≠ VStr "Retrieve_Device" →
     label ≠ VStr "Web_Search" →
     (∃ decision, label = VStr decision) ∧
     ∀ fuel, invoke svc (S fuel) state
             = (["Router"], Some (Err (UnmappedLabel label)))).
Proof.
  split.
  - intros World St Upd Label Exn Heq merge no_update W cur w w' st u f
      routingFn table label Hn Hf Ht He Hr Ha.
    destruct (EngineFacts.unmapped_label_fails merge no_update W cur w st f w' u
                routingFn table label Hn Hf Ht He Hr Ha) as (H1 & _ & H2).
    by split.
  - intros svc state state' n' label Hrouter Hroute Hq Hd Hw. split.
    + apply router_Ok in Hrouter as (_ & d & ->).
      rewrite update_written1 in Hroute. unfold route_decision in Hroute.
      apply getitem_Ok in Hroute. rewrite lookup_insert_eq in Hroute.
      injection Hroute as <-. by exists d.
    + intros fuel. unfold invoke, run.
      apply (EngineFacts.unmapped_label_fails update ∅ (workflow svc) "Router" 0%nat
               state (router svc) n' state' route_decision
               [ (VStr "Retrieve_QnA", "Retrieve_QnA");
                 (VStr "Retrieve_Device", "Retrieve_Device");
                 (VStr "Web_Search", "Web_Search") ] label);
        try reflexivity; try done.
      cbn [assoc]. repeat (destruct (decide _); [congruence |]). done.
Qed.

Lemma unmapped_label_fails_invocation_witness :
  invoke (example_services "I think Web_Search" "No") 10
    {[ "query" := VStr "What is aspirin?" ]}
  = (["Router"], Some (Err (UnmappedLabel (VStr "I think Web_Search")))).
Proof.
  apply (proj2 unmapped_label_fails_invocation
           (example_services "I think Web_Search" "No")
           {[ "query" := VStr "What is aspirin?" ]}
           (<["source" := VStr "I think Web_Search"]>
              {[ "query" := VStr "What is aspirin?" ]})
           1%nat (VStr "I think Web_Search")); try done.
Defined.

End MediumFacts.

(** * Whole invocations *)

Module EngineRuns.

Import Engine.

Section Final.
Context {World St Upd Label Exn : Type} `{!EqDecision Label}.
Variable merge : St → Upd → St.
Variable no_update : Upd.

(** An invocation that returns a state has reached a configuration whose
    turn finished with that state; it is the last node visited. *)
Lemma run_from_final (W : @Workflow World St Upd Label Exn) (w0 : World) (s0 : St)
    (fuel : nat) (cur : string) (w : World) (st : St) (visits : list string) (final : St) :
  reaches merge no_update W w0 s0 cur w st →
  run_from merge no_update fuel W cur w st = (visits, Some (Ok final)) →
  ∃ cur' w' st',
    reaches merge no_update W w0 s0 cur' w' st' ∧
    step merge no_update W cur' w' st' = Finished final ∧
    last visits = Some cur'.
Proof.
  revert cur w st visits. induction fuel as [| fuel IH];
    intros cur w st visits Hreach Hrun; [discriminate |].
  rewrite EngineFacts.run_from_S in Hrun.
  destruct (step merge no_update W cur w st) as [next w1 st1 | st1 | e] eqn:E.
  - destruct (run_from merge no_update fuel W next w1 st1) as [vs o] eqn:E'.
    simpl in Hrun. injection Hrun as <- ->.
    destruct (IH next w1 st1 vs (reaches_step _ _ _ _ _ _ _ _ _ _ _ Hreach E) E')
      as (cur' & w' & st' & Hr & Hs & Hl).
    exists cur', w', st'. split; [done |]. split; [done |].
    destruct vs; [discriminate |]. done.
  - injection Hrun as <- <-. by exists cur, w, st.
  - discriminate.
Qed.

End Final.

End EngineRuns.

Module SupportRuns.

Import Engine Py PyFacts Support SupportFacts.

(** Rewriting a lookup through the updates and dictionary displays of
    the node functions. *)
Lemma lookup_update (state u : dict) (k : string) :
  update state u !! k = match u !! k with Some v => Some v | None => state !! k end.
Proof. unfold update. rewrite lookup_union. by destruct (u !! k), (state !! k). Qed.

Ltac lookups :=
  repeat first
    [ rewrite lookup_update
    | rewrite lookup_insert_eq
    | rewrite lookup_insert_ne by done
    | rewrite lookup_singleton_eq
    | rewrite lookup_singleton_ne by done
    | rewrite lookup_empty ];
  cbv beta iota.

(** *** Going forward through one turn of the loop *)

Lemma support_step_static (cur next : string) (f : dict → pyres dict) (w : Clock) (st u : dict)
    (g : @NodeFn Clock dict dict value exn) :
  lookup_node ∅ workflow cur = Some (pure_node f) →
  is_terminal workflow cur = false →
  edges workflow !! cur = Some (Static next) →
  lookup_node ∅ workflow next = Some g →
  f st = Ok u →
  step update ∅ workflow cur w st = Next next w (update st u).
Proof.
  intros Hl Ht He Hn Hf. unfold step, resolveNext, pure_node in *.
  rewrite Hl, Hf, Ht, He. cbv beta iota.
  unfold lookup_node in Hn. unfold lookup_node. by rewrite Hn.
Qed.

Lemma support_step_END (w : Clock) (st : dict) :
  step update ∅ workflow END w st = Finished st.
Proof.
  unfold step.
  change (lookup_node ∅ workflow END)
    with (Some (λ (w : Clock) (_ : dict), Ok (E:=error value exn) (w, (∅ : dict)))).
  cbv beta iota. change (is_terminal workflow END) with true. cbv iota.
  by rewrite update_empty.
Qed.

Lemma support_run_from_END (fuel : nat) (w : Clock) (st : dict) :
  run_from update ∅ (S fuel) workflow END w st = ([END], Some (Ok st)).
Proof. by rewrite EngineFacts.run_from_S, support_step_END. Qed.

(** *** The node functions on a state that holds what they read *)

Lemma analyze_sentiment_message (st : dict) (m : string) :
  st !! "message" = Some (VStr m) →
  analyze_sentiment st
  = Ok {[ "sentiment" :=
            VStr (if any_in urgent_keywords (lower m) then "urgent"
                  else if any_in negative_keywords (lower m) then "negative"
                  else if any_in ["thank"; "great"; "love"; "awesome"] (lower m)
                       then "positive"
                  else "neutral") ]}.
Proof. intros H. unfold analyze_sentiment. by rewrite (getitem_Some _ _ _ H). Qed.

Lemma categorize_issue_message (st : dict) (m : string) :
  st !! "message" = Some (VStr m) →
  categorize_issue st
  = Ok {[ "category" :=
            VStr (if any_in ["bill"; "charge"; "payment"; "refund"; "invoice"] (lower m)
                  then "billing"
                  else if any_in ["bug"; "error"; "crash"; "not working"; "broken"] (lower m)
                       then "technical"
                  else if any_in ["login"; "password"; "access"; "account"; "reset"] (lower m)
                       then "account"
                  else "product") ]}.
Proof. intros H. unfold categorize_issue. by rewrite (getitem_Some _ _ _ H). Qed.

Lemma assign_priority_classified (st : dict) (s c : string) :
  st !! "sentiment" = Some (VStr s) →
  st !! "category" = Some (VStr c) →
  assign_priority st
  = Ok {[ "priority" :=
            VStr (if String.eqb s "urgent"
                     || (String.eqb c "billing" && String.eqb s "negative")
                  then "critical"
                  else if String.eqb s "negative" || String.eqb c "technical" then "high"
                  else if (String.eqb c "technical" || (String.eqb c "account" || false))
                          && String.eqb s "neutral"
                       then "medium"
                  else "low") ]}.
Proof.
  intros Hs Hc. unfold assign_priority.
  by rewrite (getitem_Some _ _ _ Hs), (getitem_Some _ _ _ Hc).
Qed.

Lemma send_automated_response_Some (st : dict) (category : value) :
  st !! "category" = Some category →
  send_automated_response st
  = Ok {[ "response" := VStr ("Automated response for " ++ str category ++ " query");
          "escalate" := VBool false ]}.
Proof. intros H. unfold send_automated_response. by rewrite (getitem_Some _ _ _ H). Qed.

Lemma check_knowledge_base_form (st : dict) (priority category : value) :
  st !! "priority" = Some priority →
  st !! "category" = Some category →
  check_knowledge_base st
  = if in_strs priority ["low"; "medium"] && in_strs category ["account"; "product"]
    then Ok {[ "response" := VStr ("Auto-resolved " ++ str category
                                   ++ " issue from knowledge base");
               "requires_human" := VBool false ]}
    else Ok {[ "requires_human" := VBool true ]}.
Proof.
  intros Hp Hc. unfold check_knowledge_base.
  by rewrite (getitem_Some _ _ _ Hc), (getitem_Some _ _ _ Hp).
Qed.

Lemma support_step_forward (cur next : string) (f g : @NodeFn Clock dict dict value exn)
    (w w' : Clock) (st u : dict) :
  lookup_node ∅ workflow cur = Some f →
  is_terminal workflow cur = false →
  lookup_node ∅ workflow next = Some g →
  f w st = Ok (w', u) →
  resolveNext workflow cur (update st u) = Ok next →
  step update ∅ workflow cur w st = Next next w' (update st u).
Proof.
  intros Hl Ht Hn Hf Hr. unfold step. rewrite Hl, Hf, Ht. cbv beta iota.
  rewrite Hr. cbv beta iota. by rewrite Hn.
Qed.

Lemma support_run_from_Next (fuel : nat) (cur next : string) (w w' : Clock) (st st' : dict)
    (visits : list string) (r : option (pyres dict)) :
  step update ∅ workflow cur w st = Next next w' st' →
  run_from update ∅ fuel workflow next w' st' = (visits, r) →
  run_from update ∅ (S fuel) workflow cur w st = (cur :: visits, r).
Proof. intros Hs Hr. by rewrite EngineFacts.run_from_S, Hs, Hr. Qed.

(** The whole invocation, from what the three classifiers say about the
    message. *)
Lemma invoke_summary (now : Clock) (s0 : dict) (m s c p : string) :
  s0 !! "message" = Some (VStr m) →
  analyze_sentiment s0 = Ok {[ "sentiment" := VStr s ]} →
  categorize_issue s0 = Ok {[ "category" := VStr c ]} →
  assign_priority (classified s c) = Ok {[ "priority" := VStr p ]} →
  ∃ final,
    invoke now s0
    = (["analyze_sentiment"; "categorize"; "assign_priority"; "check_kb";
        (if in_strs (VStr p) ["low"; "medium"] && in_strs (VStr c) ["account"; "product"]
         then "automated"
         else if in_strs (VStr p) ["critical"; "high"] then "escalate"
         else "ai_response");
        END],
       Some (Ok final)) ∧
    final !! "sentiment" = Some (VStr s) ∧
    final !! "category" = Some (VStr c) ∧
    final !! "priority" = Some (VStr p) ∧
    final !! "requires_human"
    = Some (VBool (negb (in_strs (VStr p) ["low"; "medium"]
                         && in_strs (VStr c) ["account"; "product"]))) ∧
    final !! "escalate"
    = Some (VBool (negb (in_strs (VStr p) ["low"; "medium"]
                         && in_strs (VStr c) ["account"; "product"])
                   && in_strs (VStr p) ["critical"; "high"])) ∧
    final !! "response"
    = Some (VStr (if in_strs (VStr p) ["low"; "medium"]
                     && in_strs (VStr c) ["account"; "product"]
                  then "Automated response for " ++ c ++ " query"
                  else if in_strs (VStr p) ["critical"; "high"]
                       then "Escalated to human agent - Ticket: " ++ "TKT-" ++ now
                  else "AI-generated response for " ++ c
                       ++ " issue (Priority: " ++ p ++ ")")) ∧
    final !! "ticket_id"
    = (if negb (in_strs (VStr p) ["low"; "medium"]
                && in_strs (VStr c) ["account"; "product"])
          && in_strs (VStr p) ["critical"; "high"]
       then Some (VStr ("TKT-" ++ now))
       else s0 !! "ticket_id") ∧
    final !! "user_id" = s0 !! "user_id" ∧
    final !! "message" = s0 !! "message" ∧
    final !! "context" = s0 !! "context".
Proof.
  intros Hm Hs Hc Hp.
  set (st1 := update s0 {[ "sentiment" := VStr s ]}).
  set (st2 := update st1 {[ "category" := VStr c ]}).
  set (st3 := update st2 {[ "priority" := VStr p ]}).
  assert (st1 !! "message" = Some (VStr m)) as Hm1 by (subst st1; by lookups).
  assert (categorize_issue st1 = Ok {[ "category" := VStr c ]}) as Hc1.
  { by rewrite (categorize_issue_message st1 m Hm1), <- (categorize_issue_message s0 m Hm). }
  assert (assign_priority st2 = Ok {[ "priority" := VStr p ]}) as Hp2.
  { rewrite (assign_priority_classified st2 s c);
      [| subst st2 st1; by lookups | subst st2 st1; by lookups].
    rewrite <- (assign_priority_classified (classified s c) s c); [done | done | done]. }
  assert (st3 !! "priority" = Some (VStr p)) as Hp3 by (subst st3; by lookups).
  assert (st3 !! "category" = Some (VStr c)) as Hc3 by (subst st3 st2; by lookups).
  pose proof (check_knowledge_base_form st3 _ _ Hp3 Hc3) as Hkb.
  pose proof (support_step_static "analyze_sentiment" "categorize" analyze_sentiment now s0 _ _
                eq_refl eq_refl eq_refl eq_refl Hs) as S1.
  pose proof (support_step_static "categorize" "assign_priority" categorize_issue now st1 _ _
                eq_refl eq_refl eq_refl eq_refl Hc1) as S2.
  pose proof (support_step_static "assign_priority" "check_kb" assign_priority now st2 _ _
                eq_refl eq_refl eq_refl eq_refl Hp2) as S3.
  fold st1 in S1. fold st2 in S2. fold st3 in S3.
  unfold invoke, run. change (entry workflow) with "analyze_sentiment".
  destruct (in_strs (VStr p) ["low"; "medium"] && in_strs (VStr c) ["account"; "product"])
    eqn:Eauto.
  - (* automated *)
    set (u4 := {[ "response" := VStr ("Auto-resolved " ++ str (VStr c)
                                      ++ " issue from knowledge base");
                  "requires_human" := VBool false ]} : dict) in Hkb.
    set (st4 := update st3 u4).
    assert (st4 !! "requires_human" = Some (VBool false)) as Hh
      by (subst st4 u4; by lookups).
    assert (st4 !! "priority" = Some (VStr p)) as Hp4
      by (subst st4 u4 st3; by lookups).
    assert (st4 !! "category" = Some (VStr c)) as Hc4
      by (subst st4 u4 st3 st2; by lookups).
    pose proof (support_step_forward "check_kb" "automated" (pure_node check_knowledge_base)
                  (pure_node send_automated_response) now now st3 u4
                  eq_refl eq_refl eq_refl) as S4.
    unfold pure_node in S4 at 1. rewrite Hkb in S4.
    specialize (S4 eq_refl (resolveNext_check_kb st4 false (VStr p) Hh Hp4)).
    pose proof (support_step_static "automated" END send_automated_response now st4 _ _
                  eq_refl eq_refl eq_refl eq_refl
                  (send_automated_response_Some st4 _ Hc4)) as S5.
    eexists. split.
    { apply (support_run_from_Next _ _ _ _ _ _ _ _ _ S1).
      apply (support_run_from_Next _ _ _ _ _ _ _ _ _ S2).
      apply (support_run_from_Next _ _ _ _ _ _ _ _ _ S3).
      apply (support_run_from_Next _ _ _ _ _ _ _ _ _ S4).
      apply (support_run_from_Next _ _ _ _ _ _ _ _ _ S5).
      apply support_run_from_END. }
    subst st4 u4 st3 st2 st1. repeat split; by lookups.
  - destruct (in_strs (VStr p) ["critical"; "high"]) eqn:Eesc.
    + (* escalate *)
      set (u4 := {[ "requires_human" := VBool true ]} : dict) in Hkb.
      set (st4 := update st3 u4).
      assert (st4 !! "requires_human" = Some (VBool true)) as Hh
        by (subst st4 u4; by lookups).
      assert (st4 !! "priority" = Some (VStr p)) as Hp4
        by (subst st4 u4 st3; by lookups).
      pose proof (support_step_forward "check_kb" "escalate" (pure_node check_knowledge_base)
                    escalate_to_human now now st3 u4
                    eq_refl eq_refl eq_refl) as S4.
      unfold pure_node in S4 at 1. rewrite Hkb in S4.
      pose proof (resolveNext_check_kb st4 true (VStr p) Hh Hp4) as Hr.
      rewrite Eesc in Hr. specialize (S4 eq_refl Hr).
      pose proof (support_step_forward "escalate" END escalate_to_human
                    (λ w _, Ok (w, ∅)) now now st4 _
                    eq_refl eq_refl eq_refl eq_refl eq_refl) as S5.
      eexists. split.
      { apply (support_run_from_Next _ _ _ _ _ _ _ _ _ S1).
        apply (support_run_from_Next _ _ _ _ _ _ _ _ _ S2).
        apply (support_run_from_Next _ _ _ _ _ _ _ _ _ S3).
        apply (support_run_from_Next _ _ _ _ _ _ _ _ _ S4).
        apply (support_run_from_Next _ _ _ _ _ _ _ _ _ S5).
        apply support_run_from_END. }
      subst st4 u4 st3 st2 st1. repeat split; by lookups.
    + (* ai_response *)
      set (u4 := {[ "requires_human" := VBool true ]} : dict) in Hkb.
      set (st4 := update st3 u4).
      assert (st4 !! "requires_human" = Some (VBool true)) as Hh
        by (subst st4 u4; by lookups).
      assert (st4 !! "priority" = Some (VStr p)) as Hp4
        by (subst st4 u4 st3; by lookups).
      assert (st4 !! "category" = Some (VStr c)) as Hc4
        by (subst st4 u4 st3 st2; by lookups).
      assert (eq_str (VStr p) "critical" = false) as Hcrit.
      { unfold in_strs in Eesc. simpl in Eesc. simpl.
        by destruct (String.eqb p "critical"). }
      pose proof (support_step_forward "check_kb" "ai_response" (pure_node check_knowledge_base)
                    (pure_node generate_ai_response) now now st3 u4
                    eq_refl eq_refl eq_refl) as S4.
      unfold pure_node in S4 at 1. rewrite Hkb in S4.
      pose proof (resolveNext_check_kb st4 true (VStr p) Hh Hp4) as Hr.
      rewrite Eesc in Hr. specialize (S4 eq_refl Hr).
      pose proof (generate_ai_response_Some st4 _ _ Hc4 Hp4) as Hgen.
      rewrite Hcrit in Hgen.
      set (u5 := {[ "response" := VStr ("AI-generated response for " ++ str (VStr c)
                                        ++ " issue (Priority: " ++ str (VStr p) ++ ")");
                    "escalate" := VBool false ]} : dict) in Hgen.
      pose proof (support_step_forward "ai_response" END (pure_node generate_ai_response)
                    (λ w _, Ok (w, ∅)) now now st4 u5
                    eq_refl eq_refl eq_refl) as S5.
      unfold pure_node in S5 at 1. rewrite Hgen in S5.
      assert (truthy (get (update st4 u5) "escalate") = false) as Hesc.
      { unfold get. subst u5. by lookups. }
      pose proof (resolveNext_ai_response (update st4 u5)) as Hr5.
      rewrite Hesc in Hr5. specialize (S5 eq_refl Hr5).
      eexists. split.
      { apply (support_run_from_Next _ _ _ _ _ _ _ _ _ S1).
        apply (support_run_from_Next _ _ _ _ _ _ _ _ _ S2).
        apply (support_run_from_Next _ _ _ _ _ _ _ _ _ S3).
        apply (support_run_from_Next _ _ _ _ _ _ _ _ _ S4).
        apply (support_run_from_Next _ _ _ _ _ _ _ _ _ S5).
        apply support_run_from_END. }
      subst u5 st4 u4 st3 st2 st1. repeat split; by lookups.
Qed.

(** What the three classifiers say about a message. *)
Lemma classifiers (s0 : dict) (m : string) :
  s0 !! "message" = Some (VStr m) →
  ∃ s c p,
    analyze_sentiment s0 = Ok {[ "sentiment" := VStr s ]} ∧
    categorize_issue s0 = Ok {[ "category" := VStr c ]} ∧
    assign_priority (classified s c) = Ok {[ "priority" := VStr p ]} ∧
    In s ["urgent"; "negative"; "positive"; "neutral"] ∧
    In c ["billing"; "technical"; "account"; "product"] ∧
    s = (if any_in urgent_keywords (lower m) then "urgent"
         else if any_in negative_keywords (lower m) then "negative"
         else if any_in ["thank"; "great"; "love"; "awesome"] (lower m) then "positive"
         else "neutral") ∧
    c = (if any_in ["bill"; "charge"; "payment"; "refund"; "invoice"] (lower m)
         then "billing"
         else if any_in ["bug"; "error"; "crash"; "not working"; "broken"] (lower m)
              then "technical"
         else if any_in ["login"; "password"; "access"; "account"; "reset"] (lower m)
              then "account"
         else "product") ∧
    p = (if String.eqb s "urgent" || (String.eqb c "billing" && String.eqb s "negative")
         then "critical"
         else if String.eqb s "negative" || String.eqb c "technical" then "high"
         else if (String.eqb c "technical" || (String.eqb c "account" || false))
                 && String.eqb s "neutral"
              then "medium"
         else "low").
Proof.
  intros Hm. eexists _, _, _.
  split; [apply (analyze_sentiment_message s0 m Hm) |].
  split; [apply (categorize_issue_message s0 m Hm) |].
  split; [apply assign_priority_classified; reflexivity |].
  split; [repeat case_match; simpl; tauto |].
  split; [repeat case_match; simpl; tauto |]. done.
Qed.

(** The decision table on the four sentiments and the four categories. *)
Lemma priority_table (s c p : string) :
  In s ["urgent"; "negative"; "positive"; "neutral"] →
  In c ["billing"; "technical"; "account"; "product"] →
  p = (if String.eqb s "urgent" || (String.eqb c "billing" && String.eqb s "negative")
       then "critical"
       else if String.eqb s "negative" || String.eqb c "technical" then "high"
       else if (String.eqb c "technical" || (String.eqb c "account" || false))
               && String.eqb s "neutral"
            then "medium"
       else "low") →
  (in_strs (VStr p) ["critical"; "high"] = true
   ↔ s = "urgent" ∨ s = "negative" ∨ c = "technical") ∧
  (in_strs (VStr p) ["low"; "medium"] = negb (in_strs (VStr p) ["critical"; "high"])) ∧
  (in_strs (VStr p) ["critical"; "high"] = false →
   in_strs (VStr c) ["account"; "product"] = false →
   c = "billing" ∧ p = "low") ∧
  (p = "medium" ↔ c = "account" ∧ s = "neutral").
Proof.
  intros Hs Hc ->. simpl in Hs, Hc.
  destruct Hs as [<- | [<- | [<- | [<- | []]]]];
    destruct Hc as [<- | [<- | [<- | [<- | []]]]];
    vm_compute; repeat split; try tauto; try discriminate;
    try (intros [? | [? | ?]]; discriminate); try (intros [? ?]; discriminate).
Qed.

(** An invocation on a text message never fails and never runs out of
    the six visits: it returns a state, after the four classification
    nodes, one of the three resolution nodes and the terminal marker. *)
Theorem invoke_returns_state (now : Clock) (s0 : dict) (m : string) :
  s0 !! "message" = Some (VStr m) →
  ∃ branch final,
    invoke now s0
    = (["analyze_sentiment"; "categorize"; "assign_priority"; "check_kb"; branch; END],
       Some (Ok final)) ∧
    (branch = "automated" ∨ branch = "escalate" ∨ branch = "ai_response") ∧
    is_Some (final !! "sentiment") ∧ is_Some (final !! "category") ∧
    is_Some (final !! "priority") ∧ is_Some (final !! "requires_human") ∧
    is_Some (final !! "escalate") ∧ is_Some (final !! "response").
Proof.
  intros Hm. destruct (classifiers s0 m Hm) as (s & c & p & Hs & Hc & Hp & _).
  destruct (invoke_summary now s0 m s c p Hm Hs Hc Hp)
    as (final & Hrun & H1 & H2 & H3 & H4 & H5 & H6 & _).
  eexists _, final. split; [exact Hrun |].
  split; [repeat case_match; tauto |].
  rewrite H1, H2, H3, H4, H5, H6. repeat split; eauto.
Qed.

Lemma invoke_returns_state_witness :
  ∃ branch final,
    invoke "20261104120000" test_case_3
    = (["analyze_sentiment"; "categorize"; "assign_priority"; "check_kb"; branch; END],
       Some (Ok final)) ∧
    (branch = "automated" ∨ branch = "escalate" ∨ branch = "ai_response") ∧
    is_Some (final !! "sentiment") ∧ is_Some (final !! "category") ∧
    is_Some (final !! "priority") ∧ is_Some (final !! "requires_human") ∧
    is_Some (final !! "escalate") ∧ is_Some (final !! "response").
Proof.
  apply (invoke_returns_state "20261104120000" test_case_3
           "I'm very frustrated with the billing charges, this is terrible!").
  reflexivity.
Defined.

Lemma in_strs_VStr_2 (p a b : string) :
  in_strs (VStr p) [a; b] = true ↔ p = a ∨ p = b.
Proof. rewrite in_strs_2. split; intros [H | H]; (left + right); congruence. Qed.

Lemma In_path (name branch : string) :
  name ≠ "analyze_sentiment" → name ≠ "categorize" → name ≠ "assign_priority" →
  name ≠ "check_kb" → name ≠ END →
  In name ["analyze_sentiment"; "categorize"; "assign_priority"; "check_kb"; branch; END]
  ↔ branch = name.
Proof. intros. simpl. split; [intros [|[|[|[|[|[|[]]]]]]]; congruence | tauto]. Qed.

(** A request is escalated to a human exactly when its sentiment is
    urgent or negative or its category is technical, that is, when its
    priority is critical or high; exactly then the final state has the
    [escalate] flag set and holds the ticket issued from the clock. *)
Theorem escalated_iff (now : Clock) (s0 : dict) (m : string) :
  s0 !! "message" = Some (VStr m) →
  s0 !! "ticket_id" = None →
  ∃ s c p visits final,
    invoke now s0 = (visits, Some (Ok final)) ∧
    final !! "sentiment" = Some (VStr s) ∧
    final !! "category" = Some (VStr c) ∧
    final !! "priority" = Some (VStr p) ∧
    (In "escalate" visits ↔ s = "urgent" ∨ s = "negative" ∨ c = "technical") ∧
    (In "escalate" visits ↔ p = "critical" ∨ p = "high") ∧
    (In "escalate" visits ↔ final !! "escalate" = Some (VBool true)) ∧
    (In "escalate" visits ↔ final !! "ticket_id" = Some (VStr ("TKT-" ++ now))) ∧
    (¬ In "escalate" visits ↔ final !! "ticket_id" = None).
Proof.
  intros Hm Ht.
  destruct (classifiers s0 m Hm) as (s & c & p & Hs & Hc & Hp & Hins & Hinc & _ & _ & Hpe).
  destruct (invoke_summary now s0 m s c p Hm Hs Hc Hp)
    as (final & Hrun & H1 & H2 & H3 & H4 & H5 & H6 & H7 & _).
  destruct (priority_table s c p Hins Hinc Hpe) as (Hesc & Hlow & _ & _).
  exists s, c, p. eexists _, final. split; [exact Hrun |].
  split; [done |]. split; [done |]. split; [done |].
  rewrite In_path by done. rewrite H5, H7, Ht, Hlow.
  rewrite <- Hesc, <- (in_strs_VStr_2 p "critical" "high"). clear.
  destruct (in_strs (VStr p) ["critical"; "high"]);
    destruct (in_strs (VStr c) ["account"; "product"]); cbn [negb andb];
    repeat split; intros; try done; try discriminate; try tauto.
Qed.

Lemma escalated_iff_witness :
  ∃ s c p visits final,
    invoke "20261104120000" test_case_1 = (visits, Some (Ok final)) ∧
    final !! "sentiment" = Some (VStr s) ∧
    final !! "category" = Some (VStr c) ∧
    final !! "priority" = Some (VStr p) ∧
    (In "escalate" visits ↔ s = "urgent" ∨ s = "negative" ∨ c = "technical") ∧
    (In "escalate" visits ↔ p = "critical" ∨ p = "high") ∧
    (In "escalate" visits ↔ final !! "escalate" = Some (VBool true)) ∧
    (In "escalate" visits
     ↔ final !! "ticket_id" = Some (VStr ("TKT-" ++ "20261104120000"))) ∧
    (¬ In "escalate" visits ↔ final !! "ticket_id" = None).
Proof.
  apply (escalated_iff "20261104120000" test_case_1
           "URGENT: Cannot access my account, need help immediately!");
    reflexivity.
Defined.

(** The AI response is generated exactly for billing requests of neutral
    or positive sentiment, whose priority is low; a medium priority is
    always an account request and is always answered automatically. *)
Theorem ai_response_iff (now : Clock) (s0 : dict) (m : string) :
  s0 !! "message" = Some (VStr m) →
  ∃ s c p visits final,
    invoke now s0 = (visits, Some (Ok final)) ∧
    final !! "sentiment" = Some (VStr s) ∧
    final !! "category" = Some (VStr c) ∧
    final !! "priority" = Some (VStr p) ∧
    (In "ai_response" visits ↔ c = "billing" ∧ (s = "neutral" ∨ s = "positive")) ∧
    (In "ai_response" visits →
     p = "low" ∧
     final !! "response"
     = Some (VStr "AI-generated response for billing issue (Priority: low)")) ∧
    (In "automated" visits
     ↔ (c = "account" ∨ c = "product") ∧ (s = "neutral" ∨ s = "positive")) ∧
    (p = "medium" → c = "account" ∧ In "automated" visits).
Proof.
  intros Hm.
  destruct (classifiers s0 m Hm) as (s & c & p & Hs & Hc & Hp & Hins & Hinc & _ & _ & Hpe).
  destruct (invoke_summary now s0 m s c p Hm Hs Hc Hp)
    as (final & Hrun & H1 & H2 & H3 & _ & _ & H6 & _).
  exists s, c, p. eexists _, final. split; [exact Hrun |].
  split; [done |]. split; [done |]. split; [done |].
  rewrite !In_path by done. rewrite H6. clear Hrun H1 H2 H3 H6 Hs Hc Hp Hm.
  subst p. simpl in Hins, Hinc.
  destruct Hins as [<- | [<- | [<- | [<- | []]]]];
    destruct Hinc as [<- | [<- | [<- | [<- | []]]]];
    vm_compute; repeat split; intros; try done; try discriminate; try tauto;
    repeat match goal with
           | H : _ ∧ _ |- _ => destruct H
           | H : _ ∨ _ |- _ => destruct H
           end; try discriminate; try tauto.
Qed.

Lemma ai_response_iff_witness :
  ∃ s c p visits final,
    invoke "20261104120000" (test_case "U001" "I have a question about my bill")
    = (visits, Some (Ok final)) ∧
    final !! "sentiment" = Some (VStr s) ∧
    final !! "category" = Some (VStr c) ∧
    final !! "priority" = Some (VStr p) ∧
    (In "ai_response" visits ↔ c = "billing" ∧ (s = "neutral" ∨ s = "positive")) ∧
    (In "ai_response" visits →
     p = "low" ∧
     final !! "response"
     = Some (VStr "AI-generated response for billing issue (Priority: low)")) ∧
    (In "automated" visits
     ↔ (c = "account" ∨ c = "product") ∧ (s = "neutral" ∨ s = "positive")) ∧
    (p = "medium" → c = "account" ∧ In "automated" visits).
Proof.
  apply (ai_response_iff "20261104120000"
           (test_case "U001" "I have a question about my bill")
           "I have a question about my bill").
  reflexivity.
Defined.

(** The answer [check_knowledge_base] writes when it auto-resolves never
    reaches the caller: the final response is the automated one, the
    escalation notice or the AI one. *)
Theorem knowledge_base_response_overwritten (now : Clock) (s0 : dict) (m : string) :
  s0 !! "message" = Some (VStr m) →
  ∃ visits final text,
    invoke now s0 = (visits, Some (Ok final)) ∧
    final !! "response" = Some (VStr text) ∧
    String.prefix "Auto-resolved" text = false ∧
    (In "automated" visits → String.prefix "Automated response for " text = true) ∧
    (In "escalate" visits → text = "Escalated to human agent - Ticket: TKT-" ++ now) ∧
    (In "ai_response" visits → String.prefix "AI-generated response for " text = true).
Proof.
  intros Hm. destruct (classifiers s0 m Hm) as (s & c & p & Hs & Hc & Hp & _).
  destruct (invoke_summary now s0 m s c p Hm Hs Hc Hp)
    as (final & Hrun & _ & _ & _ & _ & _ & H6 & _).
  eexists _, final, _. split; [exact Hrun |]. split; [exact H6 |].
  rewrite !In_path by done.
  destruct (in_strs (VStr p) ["low"; "medium"] && in_strs (VStr c) ["account"; "product"]);
    [| destruct (in_strs (VStr p) ["critical"; "high"])];
    repeat split; intros; try discriminate; first [reflexivity | apply prefix_app].
Qed.

Lemma knowledge_base_response_overwritten_witness :
  ∃ visits final text,
    invoke "20261104120000" test_case_2 = (visits, Some (Ok final)) ∧
    final !! "response" = Some (VStr text) ∧
    String.prefix "Auto-resolved" text = false ∧
    (In "automated" visits → String.prefix "Automated response for " text = true) ∧
    (In "escalate" visits
     → text = "Escalated to human agent - Ticket: TKT-" ++ "20261104120000") ∧
    (In "ai_response" visits → String.prefix "AI-generated response for " text = true).
Proof.
  apply (knowledge_base_response_overwritten "20261104120000" test_case_2
           "How do I reset my password?").
  reflexivity.
Defined.

(** A message with one of the urgent or negative keywords is always
    escalated: its priority is critical or high (critical for an urgent
    keyword), a human is required and a ticket is issued. *)
Theorem urgent_or_negative_keyword_escalates (now : Clock) (s0 : dict) (m : string) :
  s0 !! "message" = Some (VStr m) →
  any_in urgent_keywords (lower m) || any_in negative_keywords (lower m) = true →
  ∃ p final,
    invoke now s0
    = (["analyze_sentiment"; "categorize"; "assign_priority"; "check_kb"; "escalate"; END],
       Some (Ok final)) ∧
    final !! "priority" = Some (VStr p) ∧
    (p = "critical" ∨ p = "high") ∧
    (any_in urgent_keywords (lower m) = true → p = "critical") ∧
    final !! "requires_human" = Some (VBool true) ∧
    final !! "escalate" = Some (VBool true) ∧
    final !! "ticket_id" = Some (VStr ("TKT-" ++ now)).
Proof.
  intros Hm Hkw.
  destruct (classifiers s0 m Hm) as (s & c & p & Hs & Hc & Hp & _ & Hinc & Hse & _ & Hpe).
  destruct (invoke_summary now s0 m s c p Hm Hs Hc Hp)
    as (final & Hrun & _ & _ & H3 & H4 & H5 & _ & H7 & _).
  assert ((s = "urgent" ∧ p = "critical") ∨
          (any_in urgent_keywords (lower m) = false ∧ s = "negative" ∧
           (p = "critical" ∨ p = "high"))) as Hcases.
  { clear Hrun H3 H4 H5 H7 Hs Hc Hp. subst p. simpl in Hinc.
    destruct (any_in urgent_keywords (lower m)).
    - left. by subst s.
    - right. rewrite orb_false_l in Hkw. rewrite Hkw in Hse. subst s.
      destruct Hinc as [<- | [<- | [<- | [<- | []]]]]; vm_compute; tauto. }
  assert (in_strs (VStr p) ["low"; "medium"] = false ∧
          in_strs (VStr p) ["critical"; "high"] = true) as [Hlow Hhigh].
  { destruct Hcases as [[_ ->] | (_ & _ & [-> | ->])]; by vm_compute. }
  rewrite Hlow, Hhigh in *. cbn [andb negb] in *.
  exists p, final. repeat split; try done.
  - destruct Hcases as [[_ ->] | (_ & _ & H)]; tauto.
  - intros Hu. destruct Hcases as [[_ ->] | (Hn & _)]; [done | congruence].
Qed.

Lemma urgent_or_negative_keyword_escalates_witness :
  ∃ p final,
    invoke "20261104120000" (test_case "U002" "The export is NOT WORKING since Monday")
    = (["analyze_sentiment"; "categorize"; "assign_priority"; "check_kb"; "escalate"; END],
       Some (Ok final)) ∧
    final !! "priority" = Some (VStr p) ∧
    (p = "critical" ∨ p = "high") ∧
    (any_in urgent_keywords (lower "The export is NOT WORKING since Monday") = true →
     p = "critical") ∧
    final !! "requires_human" = Some (VBool true) ∧
    final !! "escalate" = Some (VBool true) ∧
    final !! "ticket_id" = Some (VStr ("TKT-" ++ "20261104120000")).
Proof.
  apply (urgent_or_negative_keyword_escalates "20261104120000"
           (test_case "U002" "The export is NOT WORKING since Monday")
           "The export is NOT WORKING since Monday"); reflexivity.
Defined.

(** The outcome of an invocation depends only on the lower-cased text of
    the message: two initial states whose messages agree up to letter
    case, whatever else they hold, visit the same nodes and end with the
    same sentiment, category, priority, flags and response. *)
Theorem outcome_depends_on_lowered_message (now : Clock) (s0 s0' : dict) (m m' : string) :
  s0 !! "message" = Some (VStr m) →
  s0' !! "message" = Some (VStr m') →
  lower m = lower m' →
  ∃ visits final final',
    invoke now s0 = (visits, Some (Ok final)) ∧
    invoke now s0' = (visits, Some (Ok final')) ∧
    ∀ k, In k ["sentiment"; "category"; "priority"; "requires_human"; "escalate";
               "response"] →
         final !! k = final' !! k.
Proof.
  intros Hm Hm' Hlow.
  destruct (classifiers s0 m Hm) as (s & c & p & Hs & Hc & Hp & _ & _ & Hse & Hce & Hpe).
  destruct (classifiers s0' m' Hm')
    as (s' & c' & p' & Hs' & Hc' & Hp' & _ & _ & Hse' & Hce' & Hpe').
  rewrite <- Hlow in Hse', Hce'.
  assert (s' = s) as -> by congruence. assert (c' = c) as -> by congruence.
  assert (p' = p) as -> by congruence.
  destruct (invoke_summary now s0 m s c p Hm Hs Hc Hp)
    as (final & Hrun & H1 & H2 & H3 & H4 & H5 & H6 & _).
  destruct (invoke_summary now s0' m' s c p Hm' Hs' Hc' Hp')
    as (final' & Hrun' & H1' & H2' & H3' & H4' & H5' & H6' & _).
  eexists _, final, final'. split; [exact Hrun |]. split; [exact Hrun' |].
  intros k Hk. simpl in Hk.
  destruct Hk as [<- | [<- | [<- | [<- | [<- | [<- | []]]]]]]; congruence.
Qed.

Lemma outcome_depends_on_lowered_message_witness :
  ∃ visits final final',
    invoke "20261104120000" test_case_1 = (visits, Some (Ok final)) ∧
    invoke "20261104120000"
      {[ "message" := VStr "urgent: cannot access my account, need help immediately!";
         "priority" := VStr "low"; "escalate" := VBool false ]}
    = (visits, Some (Ok final')) ∧
    ∀ k, In k ["sentiment"; "category"; "priority"; "requires_human"; "escalate";
               "response"] →
         final !! k = final' !! k.
Proof.
  apply (outcome_depends_on_lowered_message "20261104120000" test_case_1 _
           "URGENT: Cannot access my account, need help immediately!"
           "urgent: cannot access my account, need help immediately!"); reflexivity.
Defined.

(** Without a text message the invocation fails at its first node and
    returns no state: with [KeyError] when the key [message] is absent,
    with [AttributeError] when its value is not a string. *)
Theorem invoke_without_text_message (now : Clock) (s0 : dict) :
  (s0 !! "message" = None →
   invoke now s0 = (["analyze_sentiment"], Some (Err (Raised (KeyError "message"))))) ∧
  (∀ v, s0 !! "message" = Some v → (∀ m, v ≠ VStr m) →
        invoke now s0 = (["analyze_sentiment"], Some (Err (Raised AttributeError)))).
Proof.
  split.
  - intros H. unfold invoke, run. rewrite EngineFacts.run_from_S.
    change (entry workflow) with "analyze_sentiment". unfold step.
    change (lookup_node ∅ workflow "analyze_sentiment")
      with (Some (pure_node (World:=Clock) (Label:=value) analyze_sentiment)).
    unfold pure_node, analyze_sentiment, getitem. by rewrite H.
  - intros v H Hv. unfold invoke, run. rewrite EngineFacts.run_from_S.
    change (entry workflow) with "analyze_sentiment". unfold step.
    change (lookup_node ∅ workflow "analyze_sentiment")
      with (Some (pure_node (World:=Clock) (Label:=value) analyze_sentiment)).
    unfold pure_node, analyze_sentiment, getitem. rewrite H.
    destruct v; try done. by destruct (Hv s).
Qed.

Lemma invoke_without_text_message_witness :
  invoke "20261104120000" {[ "user_id" := VStr "U123" ]}
  = (["analyze_sentiment"], Some (Err (Raised (KeyError "message")))) ∧
  invoke "20261104120000" {[ "user_id" := VStr "U123"; "message" := VNone ]}
  = (["analyze_sentiment"], Some (Err (Raised AttributeError))).
Proof.
  split.
  - apply (proj1 (invoke_without_text_message "20261104120000"
                    {[ "user_id" := VStr "U123" ]})). reflexivity.
  - apply (proj2 (invoke_without_text_message "20261104120000"
                    {[ "user_id" := VStr "U123"; "message" := VNone ]}) VNone);
      [reflexivity | discriminate].
Defined.

End SupportRuns.

Module MediumRuns.

Import Engine Py PyFacts Medium MediumFacts.

(** Goals that name a node the step cannot have reached, and lookups
    through the writes of the nodes. *)
Ltac other_node :=
  let H := fresh in
  intros H; decompose [or] H;
  match goal with E : _ = _ |- _ => discriminate E end.

Ltac through_inserts :=
  repeat first [ rewrite lookup_insert_eq | rewrite lookup_insert_ne by done ].

Section Services.
Variable svc : Services.

(** *** Going forward through one turn of the loop *)

Lemma medium_step_forward (cur next : string) (f g : @NodeFn nat dict dict value exn)
    (n n' : nat) (st u : dict) :
  lookup_node ∅ (workflow svc) cur = Some f →
  is_terminal (workflow svc) cur = false →
  lookup_node ∅ (workflow svc) next = Some g →
  f n st = Ok (n', u) →
  resolveNext (workflow svc) cur (update st u) = Ok next →
  step update ∅ (workflow svc) cur n st = Next next n' (update st u).
Proof.
  intros Hl Ht Hn Hf Hr. unfold step. rewrite Hl, Hf, Ht. cbv beta iota.
  rewrite Hr. cbv beta iota. by rewrite Hn.
Qed.

(** The same for a node that returns the dictionary it was given with
    its writes in it. *)
Lemma medium_step_written (cur next : string) (f g : @NodeFn nat dict dict value exn)
    (n n' : nat) (st st' : dict) :
  lookup_node ∅ (workflow svc) cur = Some f →
  is_terminal (workflow svc) cur = false →
  lookup_node ∅ (workflow svc) next = Some g →
  f n st = Ok (n', st') →
  update st st' = st' →
  resolveNext (workflow svc) cur st' = Ok next →
  step update ∅ (workflow svc) cur n st = Next next n' st'.
Proof.
  intros Hl Ht Hn Hf Hu Hr. rewrite <- Hu in Hr.
  by rewrite (medium_step_forward cur next f g n n' st st' Hl Ht Hn Hf Hr), Hu.
Qed.

Lemma medium_step_END (n : nat) (st : dict) :
  step update ∅ (workflow svc) END n st = Finished st.
Proof.
  unfold step.
  change (lookup_node ∅ (workflow svc) END)
    with (Some (λ (w : nat) (_ : dict), Ok (E:=error value exn) (w, (∅ : dict)))).
  cbv beta iota. change (is_terminal (workflow svc) END) with true. cbv iota.
  by rewrite update_empty.
Qed.

Lemma medium_run_from_END (fuel n : nat) (st : dict) :
  run_from update ∅ (S fuel) (workflow svc) END n st = ([END], Some (Ok st)).
Proof. by rewrite EngineFacts.run_from_S, medium_step_END. Qed.

Lemma medium_run_from_Next (fuel : nat) (cur next : string) (n n' : nat) (st st' : dict)
    (visits : list string) (r : option (pyres dict)) :
  step update ∅ (workflow svc) cur n st = Next next n' st' →
  run_from update ∅ fuel (workflow svc) next n' st' = (visits, r) →
  run_from update ∅ (S fuel) (workflow svc) cur n st = (cur :: visits, r).
Proof. intros Hs Hr. by rewrite EngineFacts.run_from_S, Hs, Hr. Qed.

Lemma medium_run_from_Failed (fuel : nat) (cur : string) (n : nat) (st : dict)
    (e : error value exn) :
  step update ∅ (workflow svc) cur n st = Failed e →
  run_from update ∅ (S fuel) (workflow svc) cur n st = ([cur], Some (Err e)).
Proof. intros Hs. by rewrite EngineFacts.run_from_S, Hs. Qed.

(** Without a query the invocation fails at the [Router] node with
    [KeyError], whatever the services would answer, and returns no
    state. *)
Theorem invoke_without_query (state : dict) (fuel : nat) :
  state !! "query" = None →
  invoke svc (S fuel) state = (["Router"], Some (Err (Raised (KeyError "query")))).
Proof.
  intros H. unfold invoke, run. apply medium_run_from_Failed.
  change (entry (workflow svc)) with "Router". unfold step.
  change (lookup_node ∅ (workflow svc) "Router") with (Some (router svc)).
  cbv beta iota. unfold router, getitem. by rewrite H.
Qed.


(** *** Reading a turn of the loop backwards, with the state it leaves *)

(** The label of [relevance_decision] is the verdict the state holds,
    unless the counter the state holds is an integer from two on: then
    the label is ["Yes"] whatever the verdict. *)
Lemma relevance_decision_label (st written : dict) (label : value) :
  relevance_decision st = Ok (label, written) →
  st !! "is_relevant" = Some label ∨
  (label = VStr "Yes" ∧ ∃ c, st !! "iteration_count" = Some (VInt c) ∧ (2 ≤ c)%Z).
Proof.
  unfold relevance_decision, get_default.
  destruct (st !! "iteration_count") as [[| b | z | s | l] |] eqn:E;
    cbn [default from_option id add_one]; try discriminate;
    unfold mbind, result_bind.
  - assert ((3 <=? (if b then 2 else 1))%Z = false) as -> by (by destruct b).
    unfold getitem. rewrite lookup_insert_ne by done.
    destruct (st !! "is_relevant"); [| discriminate]. intros [= <- _]. by left.
  - destruct (3 <=? z + 1)%Z eqn:Ez.
    + unfold getitem. rewrite lookup_insert_eq. intros [= <- _].
      right. split; [done |]. exists z. apply Z.leb_le in Ez. split; [done | lia].
    + unfold getitem. rewrite lookup_insert_ne by done.
      destruct (st !! "is_relevant"); [| discriminate]. intros [= <- _]. by left.
  - change (3 <=? 0 + 1)%Z with false. cbv iota.
    unfold getitem. rewrite lookup_insert_ne by done.
    destruct (st !! "is_relevant"); [| discriminate]. intros [= <- _]. by left.
Qed.

Lemma medium_step_shape (cur : string) (n : nat) (st : dict) next n' st' :
  step update ∅ (workflow svc) cur n st = Next next n' st' →
  (cur = "Router" ∧ st' = <["source" := VStr next]> st ∧
   (next = "Retrieve_QnA" ∨ next = "Retrieve_Device" ∨ next = "Web_Search")) ∨
  (cur = "Retrieve_QnA" ∧ next = "Relevance_Checker" ∧
   ∃ c, st' = <["source" := VStr "Medical Q&A Collection"]> (<["context" := VStr c]> st)) ∨
  (cur = "Retrieve_Device" ∧ next = "Relevance_Checker" ∧
   ∃ c, st' = <["source" := VStr "Medical Device Manual"]> (<["context" := VStr c]> st)) ∨
  (cur = "Web_Search" ∧ next = "Relevance_Checker" ∧
   ∃ c, st' = <["source" := VStr "Web Search"]> (<["context" := VStr c]> st)) ∨
  (cur = "Relevance_Checker" ∧
   ∃ v label written,
     st' = <["is_relevant" := VStr v]> st ∧
     relevance_decision st' = Ok (label, written) ∧
     ((label = VStr "Yes" ∧ next = "Augment") ∨
      (label = VStr "No" ∧ next = "Web_Search"))) ∨
  (cur = "Augment" ∧ next = "Generate" ∧ ∃ p, st' = <["prompt" := VStr p]> st) ∨
  (cur = "Generate" ∧ next = END ∧ ∃ a, st' = <["response" := VStr a]> st).
Proof.
  intros H. apply EngineFacts.step_Next_inv in H as (f & u & Hl & Hf & Ht & Hr & ->).
  apply medium_nodes_inv in Hl
    as [[-> ->] | [[-> ->] | [[-> ->] | [[-> ->] | [[-> ->] | [[-> ->] | [[-> ->] | [-> ->]]]]]]]].
  - apply router_Ok in Hf as (-> & d & ->). rewrite update_written1 in *.
    unfold resolveNext in Hr.
    change (edges (workflow svc) !! "Router")
      with (Some (Conditional route_decision
                    [ (VStr "Retrieve_QnA", "Retrieve_QnA");
                      (VStr "Retrieve_Device", "Retrieve_Device");
                      (VStr "Web_Search", "Web_Search") ])) in Hr.
    unfold route_decision, getitem in Hr.
    rewrite lookup_insert_eq in Hr. cbn [assoc] in Hr.
    repeat (destruct (decide _) as [Heq |] in Hr;
            [injection Heq as <-; injection Hr as <-; left; tauto |]).
    discriminate Hr.
  - apply retrieve_context_q_n_a_Ok in Hf as (-> & c & ->).
    rewrite update_written2 in *.
    apply (resolveNext_static svc "Retrieve_QnA" "Relevance_Checker" _ _ eq_refl) in Hr
      as ->.
    right; left. eauto.
  - apply retrieve_context_medical_device_Ok in Hf as (-> & c & ->).
    rewrite update_written2 in *.
    apply (resolveNext_static svc "Retrieve_Device" "Relevance_Checker" _ _ eq_refl) in Hr
      as ->.
    do 2 right; left. eauto.
  - apply web_search_Ok in Hf as (-> & c & ->).
    rewrite update_written2 in *.
    apply (resolveNext_static svc "Web_Search" "Relevance_Checker" _ _ eq_refl) in Hr
      as ->.
    do 3 right; left. eauto.
  - apply check_context_relevance_Ok in Hf as (-> & v & ->).
    rewrite update_written1 in *.
    apply resolveNext_Relevance_Checker in Hr as (label & written & Hdec & Hcase).
    do 4 right; left. split; [done |]. by exists v, label, written.
  - unfold pure_node in Hf. destruct (build_prompt st) as [st1 |] eqn:E; [| discriminate].
    injection Hf as <- <-. apply build_prompt_Ok in E as [p ->].
    rewrite update_written1 in *.
    apply (resolveNext_static svc "Augment" "Generate" _ _ eq_refl) in Hr as ->.
    do 5 right; left. eauto.
  - apply call_llm_Ok in Hf as (-> & a & ->).
    rewrite update_written1 in *.
    apply (resolveNext_static svc "Generate" END _ _ eq_refl) in Hr as ->.
    do 6 right. eauto.
  - vm_compute in Ht. discriminate Ht.
Qed.

Lemma medium_step_Finished (cur : string) (n : nat) (st st' : dict) :
  step update ∅ (workflow svc) cur n st = Finished st' → cur = END ∧ st' = st.
Proof.
  intros H. apply EngineFacts.step_Finished_inv in H as (f & w' & u & Hl & Hf & Ht & ->).
  apply medium_nodes_inv in Hl
    as [[-> ->] | [[-> ->] | [[-> ->] | [[-> ->] | [[-> ->] | [[-> ->] | [[-> ->] | [-> ->]]]]]]]];
    try (vm_compute in Ht; discriminate Ht).
  injection Hf as <- <-. by rewrite update_empty.
Qed.


(** *** What a successful invocation leaves behind *)

Lemma medium_invariant (state : dict) (cur : string) (n : nat) (st : dict) :
  reaches update ∅ (workflow svc) 0%nat state cur n st →
  st !! "query" = state !! "query" ∧
  st !! "iteration_count" = state !! "iteration_count" ∧
  (cur = "Relevance_Checker" ∨ cur = "Augment" ∨ cur = "Generate" ∨ cur = END →
   (∃ c, st !! "context" = Some (VStr c)) ∧
   (st !! "source" = Some (VStr "Medical Q&A Collection") ∨
    st !! "source" = Some (VStr "Medical Device Manual") ∨
    st !! "source" = Some (VStr "Web Search"))) ∧
  (cur = "Augment" ∨ cur = "Generate" ∨ cur = END →
   ∃ v, st !! "is_relevant" = Some (VStr v) ∧
        (v = "Yes" ∨ ∃ c, state !! "iteration_count" = Some (VInt c) ∧ (2 ≤ c)%Z)) ∧
  (cur = "Generate" ∨ cur = END → ∃ p, st !! "prompt" = Some (VStr p)) ∧
  (cur = END → ∃ a, st !! "response" = Some (VStr a)).
Proof.
  induction 1 as [| cur n st next n' st' Hreach (IHq & IHi & IHc & IHr & IHp & IHa) Hstep].
  - split; [done |]. split; [done |]. change (entry (workflow svc)) with "Router".
    split; [other_node |]. split; [other_node |]. split; other_node.
  - destruct (medium_step_shape _ _ _ _ _ _ Hstep)
      as [(-> & -> & Hn) | [(-> & -> & c & ->) | [(-> & -> & c & ->) | [(-> & -> & c & ->)
         | [(-> & v & label & written & -> & Hdec & Hcase)
         | [(-> & -> & p & ->) | (-> & -> & a & ->)]]]]]].
    + split; [by rewrite lookup_insert_ne |]. split; [by rewrite lookup_insert_ne |].
      destruct Hn as [-> | [-> | ->]];
        (split; [other_node |]; split; [other_node |]; split; other_node).
    + split; [by rewrite !lookup_insert_ne |]. split; [by rewrite !lookup_insert_ne |].
      split; [intros _; split; [exists c; by rewrite lookup_insert_ne, lookup_insert_eq
                               | left; apply lookup_insert_eq] |].
      split; [other_node |]. split; other_node.
    + split; [by rewrite !lookup_insert_ne |]. split; [by rewrite !lookup_insert_ne |].
      split; [intros _; split; [exists c; by rewrite lookup_insert_ne, lookup_insert_eq
                               | right; left; apply lookup_insert_eq] |].
      split; [other_node |]. split; other_node.
    + split; [by rewrite !lookup_insert_ne |]. split; [by rewrite !lookup_insert_ne |].
      split; [intros _; split; [exists c; by rewrite lookup_insert_ne, lookup_insert_eq
                               | right; right; apply lookup_insert_eq] |].
      split; [other_node |]. split; other_node.
    + destruct (IHc (or_introl eq_refl)) as [[c Hctx] Hsrc].
      split; [by rewrite lookup_insert_ne |]. split; [by rewrite lookup_insert_ne |].
      destruct Hcase as [[-> ->] | [-> ->]].
      * split; [intros _; split; [exists c; by rewrite lookup_insert_ne
                                 | by rewrite !lookup_insert_ne] |].
        split; [| split; other_node].
        intros _. exists v. split; [apply lookup_insert_eq |].
        destruct (relevance_decision_label _ _ _ Hdec) as [Hv | (_ & k & Hk & Hk2)].
        -- rewrite lookup_insert_eq in Hv. injection Hv as ->. by left.
        -- right. exists k. rewrite lookup_insert_ne in Hk by done.
           by rewrite <- IHi, Hk.
      * split; [other_node |]. split; [other_node |]. split; other_node.
    + destruct (IHc (or_intror (or_introl eq_refl))) as [[c Hctx] Hsrc].
      split; [by rewrite lookup_insert_ne |]. split; [by rewrite lookup_insert_ne |].
      split; [intros _; split; [exists c; by rewrite lookup_insert_ne
                               | by rewrite !lookup_insert_ne] |].
      split; [intros _; rewrite lookup_insert_ne by done; apply IHr; tauto |].
      split; [intros _; exists p; apply lookup_insert_eq |].
      other_node.
    + destruct (IHc (or_intror (or_intror (or_introl eq_refl)))) as [[c Hctx] Hsrc].
      destruct (IHp (or_introl eq_refl)) as [p Hp].
      split; [by rewrite lookup_insert_ne |]. split; [by rewrite lookup_insert_ne |].
      split; [intros _; split; [exists c; by rewrite lookup_insert_ne
                               | by rewrite !lookup_insert_ne] |].
      split; [intros _; rewrite lookup_insert_ne by done; apply IHr; tauto |].
      split; [intros _; exists p; by rewrite lookup_insert_ne |].
      intros _. exists a. apply lookup_insert_eq.
Qed.

(** The counter of the relevance checks is never stored: what
    [relevance_decision] writes into the dictionary it is handed does
    not come back, so the state an invocation returns holds the
    [iteration_count] the initial state held, and none when that held
    none. *)
Theorem counter_is_never_stored (state : dict) (fuel : nat)
    (visits : list string) (final : dict) :
  invoke svc fuel state = (visits, Some (Ok final)) →
  final !! "iteration_count" = state !! "iteration_count".
Proof.
  intros Hrun. unfold invoke, run in Hrun.
  destruct (EngineRuns.run_from_final update ∅ (workflow svc) 0%nat state _ _ _ _ _ _
              (reaches_entry _ _ _ _ _) Hrun) as (cur & n & st & Hreach & Hstep & _).
  apply medium_step_Finished in Hstep as [-> ->].
  by destruct (medium_invariant _ _ _ _ Hreach) as (_ & Hi & _).
Qed.

(** When an invocation returns a state, the run has ended at the
    terminal marker with the query it was given, the name of the
    retriever that produced the context in [source] (never the routing
    label the router wrote there), a context, a prompt and a response.
    [is_relevant] holds the last verdict of the language model: it is
    ["Yes"], unless the initial state held an integer counter from two
    on, which makes the routing function accept whatever the verdict. *)
Theorem successful_invocation_state (state : dict) (fuel : nat)
    (visits : list string) (final : dict) :
  invoke svc fuel state = (visits, Some (Ok final)) →
  last visits = Some END ∧
  final !! "query" = state !! "query" ∧
  (∃ v, final !! "is_relevant" = Some (VStr v) ∧
        (v = "Yes" ∨ ∃ c, state !! "iteration_count" = Some (VInt c) ∧ (2 ≤ c)%Z)) ∧
  (final !! "source" = Some (VStr "Medical Q&A Collection") ∨
   final !! "source" = Some (VStr "Medical Device Manual") ∨
   final !! "source" = Some (VStr "Web Search")) ∧
  (∃ c, final !! "context" = Some (VStr c)) ∧
  (∃ p, final !! "prompt" = Some (VStr p)) ∧
  (∃ a, final !! "response" = Some (VStr a)).
Proof.
  intros Hrun. unfold invoke, run in Hrun.
  destruct (EngineRuns.run_from_final update ∅ (workflow svc) 0%nat state _ _ _ _ _ _
              (reaches_entry _ _ _ _ _) Hrun) as (cur & n & st & Hreach & Hstep & Hlast).
  apply medium_step_Finished in Hstep as [-> ->].
  destruct (medium_invariant _ _ _ _ Hreach) as (Hq & _ & Hc & Hr & Hp & Ha).
  destruct (Hc ltac:(tauto)) as [Hctx Hsrc].
  split; [done |]. split; [done |]. split; [apply Hr; tauto |].
  split; [done |]. split; [done |]. split; [apply Hp; tauto | by apply Ha].
Qed.

(** *** Going forward through the nodes *)

Lemma step_Router (n : nat) (st : dict) (q : value) (route : string) :
  st !! "query" = Some q →
  (∀ prompt, strip (get_llm_response svc n prompt) = route) →
  route = "Retrieve_QnA" ∨ route = "Retrieve_Device" ∨ route = "Web_Search" →
  step update ∅ (workflow svc) "Router" n st
  = Next route (S n) (<["source" := VStr route]> st).
Proof.
  intros Hq Hllm Hroute.
  assert (router svc n st = Ok (S n, <["source" := VStr route]> st)) as Hf.
  { unfold router. rewrite (getitem_Some _ _ _ Hq). unfold mbind, result_bind.
    cbv zeta. by rewrite Hllm. }
  assert (resolveNext (workflow svc) "Router" (<["source" := VStr route]> st)
          = Ok route) as Hr.
  { unfold resolveNext.
    change (edges (workflow svc) !! "Router")
      with (Some (Conditional route_decision
                    [ (VStr "Retrieve_QnA", "Retrieve_QnA");
                      (VStr "Retrieve_Device", "Retrieve_Device");
                      (VStr "Web_Search", "Web_Search") ])).
    unfold route_decision, getitem. rewrite lookup_insert_eq.
    by destruct Hroute as [-> | [-> | ->]]. }
  pose proof (update_written1 st "source" (VStr route)) as Hu.
  destruct Hroute as [-> | [-> | ->]].
  - exact (medium_step_written "Router" "Retrieve_QnA" (router svc)
             (retrieve_context_q_n_a svc) n (S n) st _ eq_refl eq_refl eq_refl Hf Hu Hr).
  - exact (medium_step_written "Router" "Retrieve_Device" (router svc)
             (retrieve_context_medical_device svc) n (S n) st _
             eq_refl eq_refl eq_refl Hf Hu Hr).
  - exact (medium_step_written "Router" "Web_Search" (router svc)
             (web_search svc) n (S n) st _ eq_refl eq_refl eq_refl Hf Hu Hr).
Qed.

Lemma step_Web_Search (n : nat) (st : dict) (q : value) :
  st !! "query" = Some q →
  step update ∅ (workflow svc) "Web_Search" n st
  = Next "Relevance_Checker" (S n)
      (<["source" := VStr "Web Search"]> (<["context" := VStr (search_run svc n q)]> st)).
Proof.
  intros Hq.
  apply (medium_step_written "Web_Search" "Relevance_Checker" (web_search svc)
           (check_context_relevance svc) n (S n) st _ eq_refl eq_refl eq_refl);
    [| apply update_written2 | reflexivity].
  unfold web_search. by rewrite (getitem_Some _ _ _ Hq).
Qed.

(** Each of the three retrieval nodes stores the context it retrieved
    and its own name, and goes on to the relevance check. *)
Lemma step_retrieval (route : string) (n : nat) (st : dict) (q : value) :
  st !! "query" = Some q →
  route = "Retrieve_QnA" ∨ route = "Retrieve_Device" ∨ route = "Web_Search" →
  ∃ c name,
    step update ∅ (workflow svc) route n st
    = Next "Relevance_Checker" (S n) (<["source" := VStr name]> (<["context" := VStr c]> st)) ∧
    ((route = "Retrieve_QnA" ∧ c = join nl (collection1_query svc n q) ∧
      name = "Medical Q&A Collection") ∨
     (route = "Retrieve_Device" ∧ c = join nl (collection2_query svc n q) ∧
      name = "Medical Device Manual") ∨
     (route = "Web_Search" ∧ c = search_run svc n q ∧ name = "Web Search")).
Proof.
  intros Hq [-> | [-> | ->]].
  - eexists _, _. split; [| left; done].
    apply (medium_step_written "Retrieve_QnA" "Relevance_Checker"
             (retrieve_context_q_n_a svc) (check_context_relevance svc) n (S n) st _
             eq_refl eq_refl eq_refl); [| apply update_written2 | reflexivity].
    unfold retrieve_context_q_n_a. by rewrite (getitem_Some _ _ _ Hq).
  - eexists _, _. split; [| right; left; done].
    apply (medium_step_written "Retrieve_Device" "Relevance_Checker"
             (retrieve_context_medical_device svc) (check_context_relevance svc)
             n (S n) st _ eq_refl eq_refl eq_refl); [| apply update_written2 | reflexivity].
    unfold retrieve_context_medical_device. by rewrite (getitem_Some _ _ _ Hq).
  - eexists _, _. split; [apply (step_Web_Search n st q Hq) | right; right; done].
Qed.

(** With a query and a context in the state, the relevance node stores
    the stripped answer of the language model. *)
Lemma check_context_relevance_verdict (n : nat) (st : dict) (q c : value) :
  st !! "query" = Some q →
  st !! "context" = Some c →
  ∃ prompt,
    check_context_relevance svc n st
    = Ok (S n, <["is_relevant" := VStr (strip (get_llm_response svc n prompt))]> st).
Proof.
  intros Hq Hc. eexists. unfold check_context_relevance.
  rewrite (getitem_Some _ _ _ Hq), (getitem_Some _ _ _ Hc).
  unfold mbind, result_bind. cbv zeta. reflexivity.
Qed.

(** The relevance check, from the verdict the node stored and the
    counter the state holds: the state goes on with the verdict in it
    and the counter as it was. *)
Lemma step_Relevance_Checker_of (n : nat) (st : dict) (verdict : string) (k : Z) :
  check_context_relevance svc n st = Ok (S n, <["is_relevant" := VStr verdict]> st) →
  get_default st "iteration_count" (VInt 0) = VInt k →
  step update ∅ (workflow svc) "Relevance_Checker" n st
  = if (3 <=? k + 1)%Z || String.eqb verdict "Yes"
    then Next "Augment" (S n) (<["is_relevant" := VStr verdict]> st)
    else if String.eqb verdict "No"
         then Next "Web_Search" (S n) (<["is_relevant" := VStr verdict]> st)
    else Failed (UnmappedLabel (VStr verdict)).
Proof.
  intros Hf Hk.
  set (st1 := <["is_relevant" := VStr verdict]> st) in *.
  assert (get_default st1 "iteration_count" (VInt 0) = VInt k) as Hk1.
  { unfold get_default, st1. rewrite lookup_insert_ne by done. exact Hk. }
  destruct (relevance_decision_counter st1 k Hk1) as [Hforced Hfree].
  unfold step.
  change (lookup_node ∅ (workflow svc) "Relevance_Checker")
    with (Some (check_context_relevance svc)).
  cbv beta iota. rewrite Hf. cbv beta iota.
  change (is_terminal (workflow svc) "Relevance_Checker") with false. cbv iota.
  unfold st1 at 1 2. rewrite update_written1. fold st1. unfold resolveNext.
  change (edges (workflow svc) !! "Relevance_Checker")
    with (Some (Conditional (label_of relevance_decision)
                  [ (VStr "Yes", "Augment"); (VStr "No", "Web_Search") ])).
  cbv beta iota. unfold label_of.
  destruct (3 <=? k + 1)%Z eqn:E.
  - apply Z.leb_le in E. rewrite (Hforced E). reflexivity.
  - apply Z.leb_gt in E.
    rewrite (Hfree E (VStr verdict)) by apply lookup_insert_eq.
    cbv beta iota. cbn [assoc orb].
    destruct (String.eqb verdict "Yes") eqn:EY.
    + apply String.eqb_eq in EY. subst verdict. reflexivity.
    + apply String.eqb_neq in EY.
      destruct (decide (VStr "Yes" = VStr verdict)) as [[= Heq] |]; [congruence |].
      destruct (String.eqb verdict "No") eqn:EN.
      * apply String.eqb_eq in EN. subst verdict. reflexivity.
      * apply String.eqb_neq in EN.
        destruct (decide (VStr "No" = VStr verdict)) as [[= Heq] |]; [congruence |].
        reflexivity.
Qed.

(** The same, when the language model gives [verdict] at call [n]. *)
Lemma step_Relevance_Checker (n : nat) (st : dict) (q c : value) (verdict : string)
    (k : Z) :
  st !! "query" = Some q →
  st !! "context" = Some c →
  (∀ prompt, strip (get_llm_response svc n prompt) = verdict) →
  get_default st "iteration_count" (VInt 0) = VInt k →
  step update ∅ (workflow svc) "Relevance_Checker" n st
  = if (3 <=? k + 1)%Z || String.eqb verdict "Yes"
    then Next "Augment" (S n) (<["is_relevant" := VStr verdict]> st)
    else if String.eqb verdict "No"
         then Next "Web_Search" (S n) (<["is_relevant" := VStr verdict]> st)
    else Failed (UnmappedLabel (VStr verdict)).
Proof.
  intros Hq Hc Hllm Hk. apply step_Relevance_Checker_of; [| exact Hk].
  destruct (check_context_relevance_verdict n st q c Hq Hc) as [prompt Hf].
  by rewrite Hllm in Hf.
Qed.

Lemma step_Augment (n : nat) (st : dict) (q c : value) :
  st !! "query" = Some q →
  st !! "context" = Some c →
  ∃ p, step update ∅ (workflow svc) "Augment" n st
       = Next "Generate" n (<["prompt" := VStr p]> st).
Proof.
  intros Hq Hc. eexists.
  apply (medium_step_written "Augment" "Generate" (pure_node build_prompt) (call_llm svc)
           n n st _ eq_refl eq_refl eq_refl); [| apply update_written1 | reflexivity].
  unfold pure_node, build_prompt.
  rewrite (getitem_Some _ _ _ Hq), (getitem_Some _ _ _ Hc).
  unfold mbind, result_bind. cbv zeta. reflexivity.
Qed.

Lemma step_Generate (n : nat) (st : dict) (p : value) :
  st !! "prompt" = Some p →
  step update ∅ (workflow svc) "Generate" n st
  = Next END (S n) (<["response" := VStr (get_llm_response svc n p)]> st).
Proof.
  intros Hp.
  apply (medium_step_written "Generate" END (call_llm svc) (λ w _, Ok (w, ∅))
           n (S n) st _ eq_refl eq_refl eq_refl); [| apply update_written1 | reflexivity].
  unfold call_llm. by rewrite (getitem_Some _ _ _ Hp).
Qed.

(** From [Augment] on, the invocation ends in three visits. *)
Lemma run_from_Augment (fuel n : nat) (st : dict) (q c : value) :
  st !! "query" = Some q →
  st !! "context" = Some c →
  ∃ p, run_from update ∅ (S (S (S fuel))) (workflow svc) "Augment" n st
       = (["Augment"; "Generate"; END],
          Some (Ok (<["response" := VStr (get_llm_response svc n (VStr p))]>
                      (<["prompt" := VStr p]> st)))).
Proof.
  intros Hq Hc. destruct (step_Augment n st q c Hq Hc) as [p Hs]. exists p.
  apply (medium_run_from_Next _ _ _ _ _ _ _ _ _ Hs).
  apply (medium_run_from_Next _ _ _ _ _ _ _ _ _
           (step_Generate n _ (VStr p) (lookup_insert_eq _ _ _))).
  apply medium_run_from_END.
Qed.


(** *** Ways through the relevance check *)

(** A context accepted at the first check: one retrieval, one check, and
    the answer is generated from the context of the retriever the router
    chose, whose own name replaces the router's label in [source]. The
    state that comes back holds no counter. *)
Theorem accepted_at_first_check (state : dict) (q : value) (route : string) :
  state !! "query" = Some q →
  state !! "iteration_count" = None →
  route = "Retrieve_QnA" ∨ route = "Retrieve_Device" ∨ route = "Web_Search" →
  (∀ prompt, strip (get_llm_response svc 0 prompt) = route) →
  (∀ prompt, strip (get_llm_response svc 2 prompt) = "Yes") →
  ∃ final c name,
    invoke svc 6 state
    = (["Router"; route; "Relevance_Checker"; "Augment"; "Generate"; END],
       Some (Ok final)) ∧
    final !! "iteration_count" = None ∧
    final !! "is_relevant" = Some (VStr "Yes") ∧
    final !! "context" = Some (VStr c) ∧
    final !! "source" = Some (VStr name) ∧
    ((route = "Retrieve_QnA" ∧ c = join nl (collection1_query svc 1 q) ∧
      name = "Medical Q&A Collection") ∨
     (route = "Retrieve_Device" ∧ c = join nl (collection2_query svc 1 q) ∧
      name = "Medical Device Manual") ∨
     (route = "Web_Search" ∧ c = search_run svc 1 q ∧ name = "Web Search")).
Proof.
  intros Hq Hic Hroute Hllm0 Hllm2.
  pose proof (step_Router 0 state q route Hq Hllm0 Hroute) as S0.
  set (st1 := <["source" := VStr route]> state) in *.
  assert (st1 !! "query" = Some q) as Hq1 by (unfold st1; by through_inserts).
  destruct (step_retrieval route 1 st1 q Hq1 Hroute) as (c & name & S1 & Hname).
  set (st2 := <["source" := VStr name]> (<["context" := VStr c]> st1)) in *.
  assert (st2 !! "query" = Some q) as Hq2 by (unfold st2; by through_inserts).
  assert (st2 !! "context" = Some (VStr c)) as Hc2 by (unfold st2; by through_inserts).
  assert (get_default st2 "iteration_count" (VInt 0) = VInt 0) as Hk2.
  { unfold get_default, st2, st1. through_inserts. by rewrite Hic. }
  pose proof (step_Relevance_Checker 2 st2 q (VStr c) "Yes" 0 Hq2 Hc2 Hllm2 Hk2) as S2.
  change (step update ∅ (workflow svc) "Relevance_Checker" 2 st2
          = Next "Augment" 3 (<["is_relevant" := VStr "Yes"]> st2)) in S2.
  set (st3 := <["is_relevant" := VStr "Yes"]> st2) in *.
  assert (st3 !! "query" = Some q) as Hq3 by (unfold st3; by through_inserts).
  assert (st3 !! "context" = Some (VStr c)) as Hc3 by (unfold st3; by through_inserts).
  destruct (run_from_Augment 0 3 st3 q (VStr c) Hq3 Hc3) as [p Hrest].
  eexists _, c, name. split.
  { unfold invoke, run. change (entry (workflow svc)) with "Router".
    apply (medium_run_from_Next _ _ _ _ _ _ _ _ _ S0).
    apply (medium_run_from_Next _ _ _ _ _ _ _ _ _ S1).
    apply (medium_run_from_Next _ _ _ _ _ _ _ _ _ S2).
    exact Hrest. }
  unfold st3, st2, st1. by through_inserts.
Qed.

(** The override of [relevance_decision] works from the counter the
    caller supplies, and only on the label: when the initial state
    holds a counter of two or more, the first relevance check goes on
    to [Augment] whatever the language model says of the context (in
    ASCII text), and the state that comes back holds that verdict in
    [is_relevant], not the forced ["Yes"], and the counter as it was
    supplied. *)
Theorem initial_counter_forces_accept (state : dict) (q : value) (route verdict : string)
    (c : Z) :
  state !! "query" = Some q →
  state !! "iteration_count" = Some (VInt c) →
  (2 ≤ c)%Z →
  route = "Retrieve_QnA" ∨ route = "Retrieve_Device" ∨ route = "Web_Search" →
  (∀ prompt, strip (get_llm_response svc 0 prompt) = route) →
  (∀ prompt, ascii_text (get_llm_response svc 2 prompt) = true) →
  (∀ prompt, strip (get_llm_response svc 2 prompt) = verdict) →
  ∃ final,
    invoke svc 6 state
    = (["Router"; route; "Relevance_Checker"; "Augment"; "Generate"; END],
       Some (Ok final)) ∧
    final !! "is_relevant" = Some (VStr verdict) ∧
    final !! "iteration_count" = Some (VInt c).
Proof.
  intros Hq Hic Hc Hroute Hllm0 _ Hllm2.
  pose proof (step_Router 0 state q route Hq Hllm0 Hroute) as S0.
  set (st1 := <["source" := VStr route]> state) in *.
  assert (st1 !! "query" = Some q) as Hq1 by (unfold st1; by through_inserts).
  destruct (step_retrieval route 1 st1 q Hq1 Hroute) as (ctx & name & S1 & _).
  set (st2 := <["source" := VStr name]> (<["context" := VStr ctx]> st1)) in *.
  assert (st2 !! "query" = Some q) as Hq2 by (unfold st2; by through_inserts).
  assert (st2 !! "context" = Some (VStr ctx)) as Hc2 by (unfold st2; by through_inserts).
  assert (get_default st2 "iteration_count" (VInt 0) = VInt c) as Hk2.
  { unfold get_default, st2, st1. through_inserts. by rewrite Hic. }
  pose proof (step_Relevance_Checker 2 st2 q (VStr ctx) verdict c Hq2 Hc2 Hllm2 Hk2) as S2.
  assert ((3 <=? c + 1)%Z = true) as Hforced by (apply Z.leb_le; lia).
  rewrite Hforced in S2. cbn [orb] in S2.
  set (st3 := <["is_relevant" := VStr verdict]> st2) in *.
  assert (st3 !! "query" = Some q) as Hq3 by (unfold st3; by through_inserts).
  assert (st3 !! "context" = Some (VStr ctx)) as Hc3 by (unfold st3; by through_inserts).
  destruct (run_from_Augment 0 3 st3 q (VStr ctx) Hq3 Hc3) as [p Hrest].
  eexists. split.
  { unfold invoke, run. change (entry (workflow svc)) with "Router".
    apply (medium_run_from_Next _ _ _ _ _ _ _ _ _ S0).
    apply (medium_run_from_Next _ _ _ _ _ _ _ _ _ S1).
    apply (medium_run_from_Next _ _ _ _ _ _ _ _ _ S2).
    exact Hrest. }
  unfold st3, st2, st1. by through_inserts.
Qed.

(** When the initial state holds no counter, or an integer counter
    below two, and the language model answers the first relevance
    prompt with an ASCII text that is, once stripped, neither ["Yes"]
    nor ["No"], the invocation stops at the first relevance check: the
    label has no target, and no answer is generated. *)
Theorem unexpected_verdict_fails (state : dict) (q : value) (route verdict : string)
    (c : Z) (fuel : nat) :
  state !! "query" = Some q →
  get_default state "iteration_count" (VInt 0) = VInt c →
  (c + 1 < 3)%Z →
  route = "Retrieve_QnA" ∨ route = "Retrieve_Device" ∨ route = "Web_Search" →
  (∀ prompt, strip (get_llm_response svc 0 prompt) = route) →
  (∀ prompt, ascii_text (get_llm_response svc 2 prompt) = true) →
  (∀ prompt, strip (get_llm_response svc 2 prompt) = verdict) →
  verdict ≠ "Yes" → verdict ≠ "No" →
  invoke svc (S (S (S fuel))) state
  = (["Router"; route; "Relevance_Checker"],
     Some (Err (UnmappedLabel (VStr verdict)))).
Proof.
  intros Hq Hic Hc Hroute Hllm0 _ Hllm2 HY HN.
  pose proof (step_Router 0 state q route Hq Hllm0 Hroute) as S0.
  set (st1 := <["source" := VStr route]> state) in *.
  assert (st1 !! "query" = Some q) as Hq1 by (unfold st1; by through_inserts).
  destruct (step_retrieval route 1 st1 q Hq1 Hroute) as (ctx & name & S1 & _).
  set (st2 := <["source" := VStr name]> (<["context" := VStr ctx]> st1)) in *.
  assert (st2 !! "query" = Some q) as Hq2 by (unfold st2; by through_inserts).
  assert (st2 !! "context" = Some (VStr ctx)) as Hc2 by (unfold st2; by through_inserts).
  assert (get_default st2 "iteration_count" (VInt 0) = VInt c) as Hk2.
  { unfold get_default, st2, st1. through_inserts. exact Hic. }
  pose proof (step_Relevance_Checker 2 st2 q (VStr ctx) verdict c Hq2 Hc2 Hllm2 Hk2) as S2.
  assert ((3 <=? c + 1)%Z = false) as Hfree by (apply Z.leb_gt; lia).
  apply String.eqb_neq in HY, HN. rewrite Hfree, HY, HN in S2. cbn [orb] in S2.
  unfold invoke, run. change (entry (workflow svc)) with "Router".
  apply (medium_run_from_Next _ _ _ _ _ _ _ _ _ S0).
  apply (medium_run_from_Next _ _ _ _ _ _ _ _ _ S1).
  by apply medium_run_from_Failed.
Qed.

(** *** The cycle *)

Lemma relevance_checks_cons (cur : string) (visits : list string) :
  relevance_checks (cur :: visits)
  = ((if decide (cur = "Relevance_Checker") then 1 else 0) + relevance_checks visits)%nat.
Proof.
  unfold relevance_checks. rewrite filter_cons. by destruct (decide _).
Qed.

Lemma relevance_checks_cycle (k : nat) :
  relevance_checks (concat (replicate k ["Relevance_Checker"; "Web_Search"])) = k.
Proof.
  induction k as [| k IH]; [reflexivity |].
  cbn [replicate concat app]. rewrite !relevance_checks_cons, IH.
  repeat case_decide; try done. 
Qed.

(** While the contexts are rejected, the relevance check and the web
    search follow each other with the counter of the state as it
    was. *)
Lemma rejected_contexts_cycle (k n : nat) (st : dict) (q ctx : value) (c : Z) :
  st !! "query" = Some q →
  st !! "context" = Some ctx →
  get_default st "iteration_count" (VInt 0) = VInt c →
  (c + 1 < 3)%Z →
  (∀ m prompt, (0 < m)%nat → strip (get_llm_response svc m prompt) = "No") →
  (0 < n)%nat →
  run_from update ∅ (2 * k) (workflow svc) "Relevance_Checker" n st
  = (concat (replicate k ["Relevance_Checker"; "Web_Search"]), None).
Proof.
  intros Hq Hctx Hic Hc Hno. revert n st ctx Hq Hctx Hic.
  induction k as [| k IH]; intros n st ctx Hq Hctx Hic Hn; [reflexivity |].
  replace (2 * S k)%nat with (S (S (2 * k))) by lia.
  pose proof (step_Relevance_Checker n st q ctx "No" c Hq Hctx
                (λ prompt, Hno n prompt Hn) Hic) as S1.
  assert ((3 <=? c + 1)%Z = false) as Hfree by (apply Z.leb_gt; lia).
  rewrite Hfree in S1. cbn [orb] in S1.
  change (String.eqb "No" "Yes") with false in S1.
  change (String.eqb "No" "No") with true in S1. cbv iota in S1.
  set (st1 := <["is_relevant" := VStr "No"]> st) in *.
  assert (st1 !! "query" = Some q) as Hq1 by (unfold st1; by through_inserts).
  pose proof (step_Web_Search (S n) st1 q Hq1) as S2.
  set (st2 := <["source" := VStr "Web Search"]>
                (<["context" := VStr (search_run svc (S n) q)]> st1)) in *.
  apply (medium_run_from_Next _ _ _ _ _ _ _ _ _ S1).
  apply (medium_run_from_Next _ _ _ _ _ _ _ _ _ S2).
  apply (IH (S (S n)) st2 (VStr (search_run svc (S n) q))); [| | | lia].
  - unfold st2. by through_inserts.
  - unfold st2. by through_inserts.
  - unfold get_default, st2, st1. through_inserts. exact Hic.
Qed.

(** C1: the claim fails on the code. [relevance_decision] does add one
    to the counter and force ["Yes"] from three on, but in the
    dictionary it is handed, and the executor takes its label only: the
    counter never reaches the state. So when the initial state holds no
    counter, or an integer counter below two, and every relevance
    verdict is ["No"], the invocation never ends: with fuel for
    [2 * k + 2] visits it has made [k] relevance checks and has not
    returned, for every [k], and no amount of fuel gives a result. *)
Theorem relevance_checks_not_bounded (state : dict) (q : value) (route : string)
    (c : Z) (k : nat) :
  state !! "query" = Some q →
  get_default state "iteration_count" (VInt 0) = VInt c →
  (c + 1 < 3)%Z →
  route = "Retrieve_QnA" ∨ route = "Retrieve_Device" ∨ route = "Web_Search" →
  (∀ prompt, strip (get_llm_response svc 0 prompt) = route) →
  (∀ m prompt, (0 < m)%nat → strip (get_llm_response svc m prompt) = "No") →
  invoke svc (2 * k + 2) state
  = ("Router" :: route :: concat (replicate k ["Relevance_Checker"; "Web_Search"]), None) ∧
  relevance_checks (invoke svc (2 * k + 2) state).1 = k ∧
  ∀ fuel, (invoke svc fuel state).2 = None.
Proof.
  intros Hq Hic Hc Hroute Hllm0 Hno.
  assert (∀ j, invoke svc (2 * j + 2) state
               = ("Router" :: route
                    :: concat (replicate j ["Relevance_Checker"; "Web_Search"]), None))
    as Hloop.
  { intros j.
    pose proof (step_Router 0 state q route Hq Hllm0 Hroute) as S0.
    set (st1 := <["source" := VStr route]> state) in *.
    assert (st1 !! "query" = Some q) as Hq1 by (unfold st1; by through_inserts).
    destruct (step_retrieval route 1 st1 q Hq1 Hroute) as (ctx & name & S1 & _).
    set (st2 := <["source" := VStr name]> (<["context" := VStr ctx]> st1)) in *.
    unfold invoke, run. change (entry (workflow svc)) with "Router".
    replace (2 * j + 2)%nat with (S (S (2 * j))) by lia.
    apply (medium_run_from_Next _ _ _ _ _ _ _ _ _ S0).
    apply (medium_run_from_Next _ _ _ _ _ _ _ _ _ S1).
    apply (rejected_contexts_cycle j 2 st2 q (VStr ctx) c); [| | | done | done | lia].
    - unfold st2. by through_inserts.
    - unfold st2. by through_inserts.
    - unfold get_default, st2, st1. through_inserts. exact Hic. }
  split; [apply Hloop |]. split.
  - rewrite Hloop. cbn [fst]. rewrite !relevance_checks_cons, relevance_checks_cycle.
    case_decide; [done |].
    case_decide; [destruct Hroute as [-> | [-> | ->]]; done | done].
  - intros fuel.
    destruct (invoke svc fuel state) as [visits [r |]] eqn:E; [| done].
    unfold invoke, run in E.
    pose proof (EngineFacts.run_from_mono update ∅ fuel (2 * fuel + 2) (workflow svc)
                  _ _ _ _ _ E ltac:(lia)) as E'.
    specialize (Hloop fuel). unfold invoke, run in Hloop.
    rewrite Hloop in E'. discriminate E'.
Qed.

End Services.

Lemma invoke_without_query_witness :
  invoke (example_services "Retrieve_QnA" "Yes") 10 {[ "context" := VStr "notes" ]}
  = (["Router"], Some (Err (Raised (KeyError "query")))).
Proof.
  apply (invoke_without_query (example_services "Retrieve_QnA" "Yes")
           {[ "context" := VStr "notes" ]} 9).
  reflexivity.
Defined.


Lemma counter_is_never_stored_witness :
  match (invoke (example_services "Web_Search" "Yes") 10
           {[ "query" := VStr "What is aspirin?" ]}).2
  with Some (Ok d) => d | _ => ∅ end !! "iteration_count"
  = ({[ "query" := VStr "What is aspirin?" ]} : dict) !! "iteration_count".
Proof.
  apply (counter_is_never_stored (example_services "Web_Search" "Yes")
           {[ "query" := VStr "What is aspirin?" ]} 10
           (invoke (example_services "Web_Search" "Yes") 10
              {[ "query" := VStr "What is aspirin?" ]}).1).
  vm_compute. reflexivity.
Defined.

Lemma successful_invocation_state_witness :
  last (invoke (example_services "Web_Search" "Yes") 10
          {[ "query" := VStr "What is aspirin?" ]}).1 = Some END ∧
  
  match (invoke (example_services "Web_Search" "Yes") 10
            {[ "query" := VStr "What is aspirin?" ]}).2
   with Some (Ok d) => d | _ => ∅ end
    !! "query"
  = ({[ "query" := VStr "What is aspirin?" ]} : dict) !! "query" ∧
  (∃ v, 
  match (invoke (example_services "Web_Search" "Yes") 10
            {[ "query" := VStr "What is aspirin?" ]}).2
   with Some (Ok d) => d | _ => ∅ end
    !! "is_relevant" = Some (VStr v) ∧
        (v = "Yes" ∨
         ∃ c, ({[ "query" := VStr "What is aspirin?" ]} : dict) !! "iteration_count"
              = Some (VInt c) ∧ (2 ≤ c)%Z)) ∧
  (
  match (invoke (example_services "Web_Search" "Yes") 10
            {[ "query" := VStr "What is aspirin?" ]}).2
   with Some (Ok d) => d | _ => ∅ end
    !! "source" = Some (VStr "Medical Q&A Collection") ∨
   
  match (invoke (example_services "Web_Search" "Yes") 10
            {[ "query" := VStr "What is aspirin?" ]}).2
   with Some (Ok d) => d | _ => ∅ end
    !! "source" = Some (VStr "Medical Device Manual") ∨
   
  match (invoke (example_services "Web_Search" "Yes") 10
            {[ "query" := VStr "What is aspirin?" ]}).2
   with Some (Ok d) => d | _ => ∅ end
    !! "source" = Some (VStr "Web Search")) ∧
  (∃ c, 
  match (invoke (example_services "Web_Search" "Yes") 10
            {[ "query" := VStr "What is aspirin?" ]}).2
   with Some (Ok d) => d | _ => ∅ end
    !! "context" = Some (VStr c)) ∧
  (∃ p, 
  match (invoke (example_services "Web_Search" "Yes") 10
            {[ "query" := VStr "What is aspirin?" ]}).2
   with Some (Ok d) => d | _ => ∅ end
    !! "prompt" = Some (VStr p)) ∧
  (∃ a, 
  match (invoke (example_services "Web_Search" "Yes") 10
            {[ "query" := VStr "What is aspirin?" ]}).2
   with Some (Ok d) => d | _ => ∅ end
    !! "response" = Some (VStr a)).
Proof.
  apply (successful_invocation_state (example_services "Web_Search" "Yes")
           {[ "query" := VStr "What is aspirin?" ]} 10).
  vm_compute. reflexivity.
Defined.

Lemma accepted_at_first_check_witness :
  ∃ final c name,
    invoke (example_services "Retrieve_Device" "Yes") 6
      {[ "query" := VStr "How do I calibrate the pump?" ]}
    = (["Router"; "Retrieve_Device"; "Relevance_Checker"; "Augment"; "Generate"; END],
       Some (Ok final)) ∧
    final !! "iteration_count" = None ∧
    final !! "is_relevant" = Some (VStr "Yes") ∧
    final !! "context" = Some (VStr c) ∧
    final !! "source" = Some (VStr name) ∧
    (("Retrieve_Device" = "Retrieve_QnA" ∧
      c = join nl (collection1_query (example_services "Retrieve_Device" "Yes") 1
                     (VStr "How do I calibrate the pump?")) ∧
      name = "Medical Q&A Collection") ∨
     ("Retrieve_Device" = "Retrieve_Device" ∧
      c = join nl (collection2_query (example_services "Retrieve_Device" "Yes") 1
                     (VStr "How do I calibrate the pump?")) ∧
      name = "Medical Device Manual") ∨
     ("Retrieve_Device" = "Web_Search" ∧
      c = search_run (example_services "Retrieve_Device" "Yes") 1
            (VStr "How do I calibrate the pump?") ∧
      name = "Web Search")).
Proof.
  apply (accepted_at_first_check (example_services "Retrieve_Device" "Yes")
           {[ "query" := VStr "How do I calibrate the pump?" ]}
           (VStr "How do I calibrate the pump?") "Retrieve_Device").
  - reflexivity.
  - reflexivity.
  - right. left. reflexivity.
  - intros prompt. reflexivity.
  - intros prompt. reflexivity.
Defined.

Lemma initial_counter_forces_accept_witness :
  ∃ final,
    invoke (example_services "Retrieve_QnA" "No") 6
      {[ "query" := VStr "What is aspirin?"; "iteration_count" := VInt 2 ]}
    = (["Router"; "Retrieve_QnA"; "Relevance_Checker"; "Augment"; "Generate"; END],
       Some (Ok final)) ∧
    final !! "is_relevant" = Some (VStr "No") ∧
    final !! "iteration_count" = Some (VInt 2).
Proof.
  apply (initial_counter_forces_accept (example_services "Retrieve_QnA" "No")
           {[ "query" := VStr "What is aspirin?"; "iteration_count" := VInt 2 ]}
           (VStr "What is aspirin?") "Retrieve_QnA" "No" 2).
  - reflexivity.
  - reflexivity.
  - lia.
  - left. reflexivity.
  - intros prompt. reflexivity.
  - intros prompt. reflexivity.
  - intros prompt. reflexivity.
Defined.

Lemma unexpected_verdict_fails_witness :
  invoke (example_services "Web_Search" "Maybe") 10
    {[ "query" := VStr "What is aspirin?" ]}
  = (["Router"; "Web_Search"; "Relevance_Checker"],
     Some (Err (UnmappedLabel (VStr "Maybe")))).
Proof.
  apply (unexpected_verdict_fails (example_services "Web_Search" "Maybe")
           {[ "query" := VStr "What is aspirin?" ]} (VStr "What is aspirin?")
           "Web_Search" "Maybe" 0 7).
  - reflexivity.
  - reflexivity.
  - lia.
  - right. right. reflexivity.
  - intros prompt. reflexivity.
  - intros prompt. reflexivity.
  - intros prompt. reflexivity.
  - discriminate.
  - discriminate.
Defined.

Lemma relevance_checks_not_bounded_witness :
  invoke (example_services "Retrieve_QnA" "No") (2 * 4 + 2)
    {[ "query" := VStr "What is aspirin?" ]}
  = ("Router" :: "Retrieve_QnA"
       :: concat (replicate 4 ["Relevance_Checker"; "Web_Search"]), None) ∧
  relevance_checks
    (invoke (example_services "Retrieve_QnA" "No") (2 * 4 + 2)
       {[ "query" := VStr "What is aspirin?" ]}).1 = 4%nat ∧
  ∀ fuel, (invoke (example_services "Retrieve_QnA" "No") fuel
             {[ "query" := VStr "What is aspirin?" ]}).2 = None.
Proof.
  apply (relevance_checks_not_bounded (example_services "Retrieve_QnA" "No")
           {[ "query" := VStr "What is aspirin?" ]} (VStr "What is aspirin?")
           "Retrieve_QnA" 0 4).
  - reflexivity.
  - reflexivity.
  - lia.
  - left. reflexivity.
  - intros prompt. reflexivity.
  - intros m prompt Hm. destruct m; [lia | reflexivity].
Defined.

End MediumRuns.

Module MediumAnswers.

Import Engine Py PyFacts Medium MediumFacts MediumRuns.

Section Answers.
Variable svc : Services.

(** *** The prompt and the answer *)

Lemma step_Augment_inv (n : nat) (st : dict) next n' st' :
  step update ∅ (workflow svc) "Augment" n st = Next next n' st' →
  next = "Generate" ∧ build_prompt st = Ok st'.
Proof.
  intros H. apply EngineFacts.step_Next_inv in H as (f & u & Hl & Hf & _ & Hr & ->).
  change (lookup_node ∅ (workflow svc) "Augment")
    with (Some (pure_node (World:=nat) build_prompt)) in Hl.
  injection Hl as <-. unfold pure_node in Hf.
  destruct (build_prompt st) as [st1 |] eqn:E; [| discriminate]. injection Hf as <- <-.
  destruct (build_prompt_Ok _ _ E) as [p ->]. rewrite update_written1 in *.
  by apply (resolveNext_static svc "Augment" "Generate" _ _ eq_refl) in Hr as ->.
Qed.

Lemma step_Generate_inv (n : nat) (st : dict) next n' st' :
  step update ∅ (workflow svc) "Generate" n st = Next next n' st' →
  next = END ∧
  ∃ p, st !! "prompt" = Some p ∧ st' = <["response" := VStr (get_llm_response svc n p)]> st.
Proof.
  intros H. apply EngineFacts.step_Next_inv in H as (f & u & Hl & Hf & _ & Hr & ->).
  change (lookup_node ∅ (workflow svc) "Generate") with (Some (call_llm svc)) in Hl.
  injection Hl as <-. unfold call_llm in Hf.
  destruct (getitem st "prompt") as [p |] eqn:E; [| discriminate].
  unfold mbind, result_bind in Hf. injection Hf as <- <-.
  apply getitem_Ok in E. rewrite update_written1 in *.
  apply (resolveNext_static svc "Generate" END _ _ eq_refl) in Hr as ->.
  split; [done |]. by exists p.
Qed.

(** A state that [build_prompt] returned holds the prompt of its own
    query and context, and still does once the response is written. *)
Lemma build_prompt_fixed (st st' : dict) :
  build_prompt st = Ok st' → build_prompt st' = Ok st'.
Proof.
  unfold build_prompt, getitem.
  destruct (st !! "query") as [q |] eqn:Eq; [| discriminate].
  unfold mbind at 1, result_bind at 1.
  destruct (st !! "context") as [c |] eqn:Ec; [| discriminate].
  unfold mbind at 1, result_bind at 1. cbv zeta. intros [= <-].
  rewrite !lookup_insert_ne by done. rewrite Eq, Ec.
  unfold mbind, result_bind. by rewrite insert_insert_eq.
Qed.

Lemma build_prompt_response (st : dict) (a : value) :
  build_prompt st = Ok st →
  build_prompt (<["response" := a]> st) = Ok (<["response" := a]> st).
Proof.
  unfold build_prompt, getitem.
  rewrite !lookup_insert_ne by done.
  destruct (st !! "query") as [q |] eqn:Eq; [| discriminate].
  unfold mbind at 1 3, result_bind at 1 3.
  destruct (st !! "context") as [c |] eqn:Ec; [| discriminate].
  unfold mbind, result_bind. cbv zeta. intros [= H].
  rewrite insert_insert_ne by done. by rewrite H.
Qed.

Lemma prompt_invariant (state : dict) (cur : string) (n : nat) (st : dict) :
  reaches update ∅ (workflow svc) 0%nat state cur n st →
  (cur = "Generate" ∨ cur = END → build_prompt st = Ok st) ∧
  (cur = END →
   ∃ p k, st !! "prompt" = Some p ∧
          st !! "response" = Some (VStr (get_llm_response svc k p))).
Proof.
  induction 1 as [| cur n st next n' st' Hreach [IHp IHa] Hstep].
  - change (entry (workflow svc)) with "Router". split; other_node.
  - destruct (medium_step_shape svc _ _ _ _ _ _ Hstep)
      as [(-> & _ & Hn) | [(-> & -> & _) | [(-> & -> & _) | [(-> & -> & _)
         | [(-> & v & label & written & _ & _ & Hcase)
         | [(-> & -> & _) | (-> & -> & _)]]]]]].
    + destruct Hn as [-> | [-> | ->]]; split; other_node.
    + split; other_node.
    + split; other_node.
    + split; other_node.
    + destruct Hcase as [[_ ->] | [_ ->]]; split; other_node.
    + apply step_Augment_inv in Hstep as [_ Hb].
      split; [intros _; by apply build_prompt_fixed in Hb | other_node].
    + apply step_Generate_inv in Hstep as [_ (p & Hp & ->)].
      split; [intros _; apply build_prompt_response, IHp; tauto |].
      intros _. exists p, n. split; [by rewrite lookup_insert_ne |]. apply lookup_insert_eq.
Qed.

(** The answer an invocation returns is the answer of the language
    model to the prompt the final state holds, and that prompt is the
    one [build_prompt] builds from the query and the context of the
    final state: building it again changes nothing. *)
Theorem answer_generated_from_final_context (state : dict) (fuel : nat)
    (visits : list string) (final : dict) :
  invoke svc fuel state = (visits, Some (Ok final)) →
  build_prompt final = Ok final ∧
  ∃ p k, final !! "prompt" = Some p ∧
         final !! "response" = Some (VStr (get_llm_response svc k p)).
Proof.
  intros Hrun. unfold invoke, run in Hrun.
  destruct (EngineRuns.run_from_final update ∅ (workflow svc) 0%nat state _ _ _ _ _ _
              (reaches_entry _ _ _ _ _) Hrun) as (cur & n & st & Hreach & Hstep & _).
  apply medium_step_Finished in Hstep as [-> ->].
  destruct (prompt_invariant _ _ _ _ Hreach) as [Hp Ha].
  split; [apply Hp; tauto | by apply Ha].
Qed.

(** *** A counter that is not a number *)

(** When the initial state holds an [iteration_count] that is [None], a
    string or a list, the invocation fails with [TypeError] at the first
    relevance check, after the router, the retriever and the relevance
    prompt have been answered. *)
Theorem non_numeric_counter_fails (state : dict) (q v : value) (route : string)
    (fuel : nat) :
  state !! "query" = Some q →
  state !! "iteration_count" = Some v →
  v = VNone ∨ (∃ s, v = VStr s) ∨ (∃ l, v = VList l) →
  route = "Retrieve_QnA" ∨ route = "Retrieve_Device" ∨ route = "Web_Search" →
  (∀ prompt, strip (get_llm_response svc 0 prompt) = route) →
  invoke svc (S (S (S fuel))) state
  = (["Router"; route; "Relevance_Checker"], Some (Err (Raised TypeError))).
Proof.
  intros Hq Hv Hkind Hroute Hllm0.
  pose proof (step_Router svc 0 state q route Hq Hllm0 Hroute) as S0.
  set (st1 := <["source" := VStr route]> state) in *.
  assert (st1 !! "query" = Some q) as Hq1 by (unfold st1; by through_inserts).
  destruct (step_retrieval svc route 1 st1 q Hq1 Hroute) as (c & name & S1 & _).
  set (st2 := <["source" := VStr name]> (<["context" := VStr c]> st1)) in *.
  assert (st2 !! "query" = Some q) as Hq2 by (unfold st2; by through_inserts).
  assert (st2 !! "context" = Some (VStr c)) as Hc2 by (unfold st2; by through_inserts).
  assert (st2 !! "iteration_count" = Some v) as Hv2
    by (unfold st2, st1; by through_inserts).
  destruct (check_context_relevance_verdict svc 2 st2 q _ Hq2 Hc2) as [prompt Hf].
  assert (step update ∅ (workflow svc) "Relevance_Checker" 2 st2
          = Failed (Raised TypeError)) as S2.
  { unfold step.
    change (lookup_node ∅ (workflow svc) "Relevance_Checker")
      with (Some (check_context_relevance svc)).
    cbv beta iota. rewrite Hf. cbv beta iota.
    change (is_terminal (workflow svc) "Relevance_Checker") with false. cbv iota.
    rewrite update_written1. unfold resolveNext.
    change (edges (workflow svc) !! "Relevance_Checker")
      with (Some (Conditional (label_of relevance_decision)
                    [ (VStr "Yes", "Augment"); (VStr "No", "Web_Search") ])).
    cbv beta iota. unfold label_of, relevance_decision, get_default.
    rewrite lookup_insert_ne by done. rewrite Hv2.
    by destruct Hkind as [-> | [[s ->] | [l ->]]]. }
  unfold invoke, run. change (entry (workflow svc)) with "Router".
  apply (medium_run_from_Next svc _ _ _ _ _ _ _ _ _ S0).
  apply (medium_run_from_Next svc _ _ _ _ _ _ _ _ _ S1).
  by apply medium_run_from_Failed.
Qed.

End Answers.

Lemma answer_generated_from_final_context_witness :
  build_prompt
    (match (invoke (example_services "Retrieve_QnA" "Yes") 10
              {[ "query" := VStr "What is aspirin?" ]}).2
     with Some (Ok d) => d | _ => ∅ end)
  = Ok (match (invoke (example_services "Retrieve_QnA" "Yes") 10
                 {[ "query" := VStr "What is aspirin?" ]}).2
        with Some (Ok d) => d | _ => ∅ end) ∧
  ∃ p k,
    match (invoke (example_services "Retrieve_QnA" "Yes") 10
             {[ "query" := VStr "What is aspirin?" ]}).2
    with Some (Ok d) => d | _ => ∅ end !! "prompt" = Some p ∧
    match (invoke (example_services "Retrieve_QnA" "Yes") 10
             {[ "query" := VStr "What is aspirin?" ]}).2
    with Some (Ok d) => d | _ => ∅ end !! "response"
    = Some (VStr (get_llm_response (example_services "Retrieve_QnA" "Yes") k p)).
Proof.
  apply (answer_generated_from_final_context (example_services "Retrieve_QnA" "Yes")
           {[ "query" := VStr "What is aspirin?" ]} 10
           (invoke (example_services "Retrieve_QnA" "Yes") 10
              {[ "query" := VStr "What is aspirin?" ]}).1).
  vm_compute. reflexivity.
Defined.

Lemma non_numeric_counter_fails_witness :
  invoke (example_services "Web_Search" "Yes") 10
    {[ "query" := VStr "What is aspirin?"; "iteration_count" := VStr "1" ]}
  = (["Router"; "Web_Search"; "Relevance_Checker"], Some (Err (Raised TypeError))).
Proof.
  apply (non_numeric_counter_fails (example_services "Web_Search" "Yes")
           {[ "query" := VStr "What is aspirin?"; "iteration_count" := VStr "1" ]}
           (VStr "What is aspirin?") (VStr "1") "Web_Search" 7).
  - reflexivity.
  - reflexivity.
  - right. left. by exists "1".
  - right. right. reflexivity.
  - intros prompt. reflexivity.
Defined.

End MediumAnswers.

(** * The chat form *)

Module ChatUIFacts.

Import Engine Py PyFacts Support SupportFacts SupportRuns ChatUI.

(** *** The state of the form *)

Lemma form_state_message (user_id message context_text : string) :
  form_state user_id message context_text !! "message" = Some (VStr message).
Proof. unfold form_state. by lookups. Qed.

Lemma form_state_ticket_id (user_id message context_text : string) :
  form_state user_id message context_text !! "ticket_id" = None.
Proof. unfold form_state. by lookups. Qed.

(** The guard of the ticket line protects the subscript: the line is
    written or left out, and never raises. *)
Lemma ticket_line_Ok (result : dict) :
  ticket_line result
  = Ok (match result !! "ticket_id" with
        | Some t => if truthy t then [ st_write (VStr ("**Ticket ID:** " ++ str t)) ] else []
        | None => []
        end).
Proof.
  unfold ticket_line, get, getitem.
  destruct (result !! "ticket_id") as [t |]; [| reflexivity].
  change (default VNone (Some t)) with t. destruct (truthy t); reflexivity.
Qed.

(** What the workflow returns for the state of the form, with [e] the
    priority being critical or high and [a] the category being account
    or product. *)
Lemma form_invoke (now : Clock) (user_id message context_text : string) :
  ∃ s c p visits result,
    invoke now (form_state user_id message context_text) = (visits, Some (Ok result)) ∧
    In s ["urgent"; "negative"; "positive"; "neutral"] ∧
    In c ["billing"; "technical"; "account"; "product"] ∧
    In p ["critical"; "high"; "medium"; "low"] ∧
    (In "escalate" visits ↔ in_strs (VStr p) ["critical"; "high"] = true) ∧
    result !! "sentiment" = Some (VStr s) ∧
    result !! "category" = Some (VStr c) ∧
    result !! "priority" = Some (VStr p) ∧
    result !! "escalate" = Some (VBool (in_strs (VStr p) ["critical"; "high"])) ∧
    (∃ human, result !! "requires_human" = Some (VBool human) ∧
              (in_strs (VStr p) ["critical"; "high"] = true → human = true)) ∧
    result !! "ticket_id"
    = (if in_strs (VStr p) ["critical"; "high"] then Some (VStr ("TKT-" ++ now)) else None) ∧
    (∃ text, result !! "response" = Some (VStr text)).
Proof.
  pose proof (form_state_message user_id message context_text) as Hm.
  pose proof (form_state_ticket_id user_id message context_text) as Ht.
  destruct (classifiers _ message Hm)
    as (s & c & p & Hs & Hc & Hp & Hins & Hinc & _ & _ & Hpe).
  destruct (invoke_summary now _ message s c p Hm Hs Hc Hp)
    as (result & Hrun & H1 & H2 & H3 & H4 & H5 & H6 & H7 & _).
  destruct (priority_table s c p Hins Hinc Hpe) as (_ & Hlow & _ & _).
  exists s, c, p. eexists _, result. split; [exact Hrun |].
  split; [done |]. split; [done |].
  split; [rewrite Hpe; repeat case_match; simpl; tauto |].
  rewrite In_path by done. rewrite Hlow in *. rewrite Ht in H7.
  split.
  { destruct (in_strs (VStr p) ["critical"; "high"]); cbn [negb andb];
      [| destruct (in_strs (VStr c) ["account"; "product"])]; done. }
  split; [done |]. split; [done |]. split; [done |].
  split.
  { rewrite H5. by destruct (in_strs (VStr p) ["critical"; "high"]),
                       (in_strs (VStr c) ["account"; "product"]). }
  split.
  { eexists. split; [exact H4 |]. by intros ->. }
  split.
  { rewrite H7. by destruct (in_strs (VStr p) ["critical"; "high"]),
                       (in_strs (VStr c) ["account"; "product"]). }
  eexists. exact H6.
Qed.

(** A submission with a message goes through: the page it shows is
    written from the state the workflow returned. *)
Lemma on_submit_result (now : Clock) (user_id message context_text : string)
    (visits : list string) (result : dict) :
  strip message ≠ EmptyString →
  invoke now (form_state user_id message context_text) = (visits, Some (Ok result)) →
  ∃ ticket,
    ticket_line result = Ok ticket ∧
    on_submit now user_id message context_text
    = Some ([ top (st_info "⏳ Running support workflow...");
              top (st_success "✅ Workflow executed successfully!");
              top (st_subheader "📊 Analysis Results");
              column 1 (first_column result);
              column 2 (second_column result ++ ticket);
              top st_divider;
              top (st_subheader "💬 Response");
              top (st_write (get_default result "response" (VStr "No response generated.")));
              top st_divider;
              expander "🧾 Raw State Data" [ st_json result ] ], None).
Proof.
  intros Hm Hrun. eexists. split; [apply ticket_line_Ok |].
  unfold on_submit. apply String.eqb_neq in Hm.
  change (truthy (VStr (strip message))) with (negb (String.eqb (strip message) EmptyString)).
  rewrite Hm. cbn [negb]. cbv zeta. rewrite Hrun. cbn [snd].
  rewrite ticket_line_Ok. reflexivity.
Qed.

(** *** Submissions *)


(** On the page of a submission with a message of ASCII text, the
    ticket line is written exactly when the request was escalated, and
    exactly then
    the second column reads [True] twice; when the request was not
    escalated the column has its two lines only, the second of which
    reads [False]. *)
Theorem ticket_shown_iff_escalated (now : Clock) (user_id message context_text : string) :
  ascii_text message = true →
  strip message ≠ EmptyString →
  ∃ visits result page second,
    invoke now (form_state user_id message context_text) = (visits, Some (Ok result)) ∧
    on_submit now user_id message context_text = Some (page, None) ∧
    nth_error page 4 = Some (column 2 second) ∧
    (In "escalate" visits
     ↔ second = [ st_write (VStr "**Requires Human:** True");
                  st_write (VStr "**Escalated:** True");
                  st_write (VStr ("**Ticket ID:** TKT-" ++ now)) ]) ∧
    (¬ In "escalate" visits
     ↔ ∃ human, second = [ st_write (VStr ("**Requires Human:** " ++ human));
                           st_write (VStr "**Escalated:** False") ]).
Proof.
  intros _ E.
  destruct (form_invoke now user_id message context_text)
    as (s & c & p & visits & result & Hrun & _ & _ & _ & Hesc & _ & _ & _ & H5
        & (human & H4 & Hhuman) & H7 & _).
  destruct (on_submit_result _ _ _ _ _ _ E Hrun) as (ticket & Hticket & Hpage).
  eexists visits, result, _, _. split; [exact Hrun |]. split; [exact Hpage |].
  split; [reflexivity |].
  rewrite ticket_line_Ok, H7 in Hticket. rewrite Hesc.
  unfold second_column, get_default. rewrite H4, H5. cbn [default from_option id].
  destruct (in_strs (VStr p) ["critical"; "high"]).
  - rewrite (Hhuman eq_refl). injection Hticket as <-. split; [split; [done |] |].
    + intros _. reflexivity.
    + split; [done |]. intros (h & Heq). discriminate Heq.
  - injection Hticket as <-. split; [split; [done |] |].
    + intros Heq. discriminate Heq.
    + split; [| done]. intros _. eexists. reflexivity.
Qed.

(** *** The conversation history *)

Lemma lstrip_head (s : string) :
  lstrip s = EmptyString ∨ ∃ c rest, lstrip s = String c rest ∧ is_space c = false.
Proof.
  induction s as [| c rest IH]; [by left |].
  cbn [lstrip]. destruct (is_space c) eqn:E; [exact IH |]. right. by exists c, rest.
Qed.

Lemma rstrip_head (c : ascii) (rest : string) :
  is_space c = false → ∃ rest', rstrip (String c rest) = String c rest'.
Proof.
  intros E. cbn [rstrip]. destruct (rstrip rest); [| by eexists].
  rewrite E. by eexists.
Qed.

Lemma rstrip_idempotent (s : string) : rstrip (rstrip s) = rstrip s.
Proof.
  induction s as [| c rest IH]; [reflexivity |].
  cbn [rstrip]. destruct (rstrip rest) as [| d rest'] eqn:E.
  - destruct (is_space c) eqn:Ec; [reflexivity |]. cbn [rstrip]. by rewrite Ec.
  - change (rstrip (String c (String d rest')))
      with (match rstrip (String d rest') with
            | EmptyString => if is_space c then EmptyString else String c EmptyString
            | String _ _ as rest'' => String c rest''
            end).
    by rewrite IH.
Qed.

Lemma strip_idempotent (s : string) : strip (strip s) = strip s.
Proof.
  unfold strip. destruct (lstrip_head s) as [-> | (c & rest & -> & E)]; [reflexivity |].
  destruct (rstrip_head c rest E) as [rest' Hr]. rewrite Hr.
  cbn [lstrip]. rewrite E, <- Hr. apply rstrip_idempotent.
Qed.

Lemma In_lstrip (ch : ascii) (s : string) :
  In ch (list_ascii_of_string (lstrip s)) → In ch (list_ascii_of_string s).
Proof.
  induction s as [| c rest IH]; [done |].
  cbn [lstrip]. destruct (is_space c); [| done]. intros H. right. by apply IH.
Qed.

Lemma In_rstrip (ch : ascii) (s : string) :
  In ch (list_ascii_of_string (rstrip s)) → In ch (list_ascii_of_string s).
Proof.
  induction s as [| c rest IH]; [done |].
  cbn [rstrip]. destruct (rstrip rest) as [| d rest'].
  - destruct (is_space c); [done |]. intros [<- | []]. by left.
  - intros [<- | H]; [by left |]. right. by apply IH.
Qed.

Lemma In_strip (ch : ascii) (s : string) :
  In ch (list_ascii_of_string (strip s)) → In ch (list_ascii_of_string s).
Proof. intros H. by apply In_lstrip, In_rstrip. Qed.

Lemma In_append (ch : ascii) (a b : string) :
  In ch (list_ascii_of_string (a ++ b))
  → In ch (list_ascii_of_string a) ∨ In ch (list_ascii_of_string b).
Proof.
  induction a as [| c a IH]; [by right |].
  intros [<- | H]; [left; by left |]. destruct (IH H); [left; by right | by right].
Qed.

(** No line of [splitlines] holds a line break. *)
Lemma splitlines_from_lines (n : nat) (s line l : string) :
  (String.length s ≤ n)%nat →
  (∀ ch, In ch (list_ascii_of_string line) → is_linebreak ch = false) →
  In l (splitlines_from line s) →
  ∀ ch, In ch (list_ascii_of_string l) → is_linebreak ch = false.
Proof.
  revert s line. induction n as [| n IH]; intros s line Hn Hline Hl.
  - destruct s; [| simpl in Hn; lia]. cbn [splitlines_from] in Hl.
    destruct (String.eqb line EmptyString); [done |]. by destruct Hl as [<- | []].
  - destruct s as [| c rest].
    + cbn [splitlines_from] in Hl.
      destruct (String.eqb line EmptyString); [done |]. by destruct Hl as [<- | []].
    + cbn [splitlines_from] in Hl. simpl in Hn.
      destruct (is_linebreak c) eqn:E.
      * destruct Hl as [<- | Hl]; [done |].
        destruct rest as [| c' rest']; [done |]. simpl in Hn.
        destruct (Ascii.eqb c cr && Ascii.eqb c' lf).
        -- apply (IH rest' EmptyString); [lia | done | done].
        -- apply (IH (String c' rest') EmptyString); [simpl; lia | done | done].
      * apply (IH rest (line ++ String c EmptyString)); [lia | | done].
        intros ch Hch. destruct (In_append _ _ _ Hch) as [H | [<- | []]]; [by apply Hline | done].
Qed.

(** Every entry of the conversation history the form passes on, when
    the history is ASCII text, is a line of the text without the white
    space around it: it is not empty, stripping it again changes
    nothing, and it holds no line break. *)
Theorem context_list_entries (context_text entry : string) :
  ascii_text context_text = true →
  In entry (context_list context_text) →
  entry ≠ EmptyString ∧
  strip entry = entry ∧
  (∀ ch, In ch (list_ascii_of_string entry) → is_linebreak ch = false) ∧
  ∃ line, In line (splitlines context_text) ∧ entry = strip line.
Proof.
  unfold context_list. intros _ H. apply in_map_iff in H as (line & <- & H).
  apply filter_In in H as [Hline Hkeep].
  split.
  { intros Heq. rewrite Heq in Hkeep. discriminate Hkeep. }
  split; [apply strip_idempotent |].
  split; [| by exists line].
  intros ch Hch. apply In_strip in Hch.
  by apply (splitlines_from_lines (String.length context_text) context_text EmptyString line).
Qed.

(** The user id and the conversation history have no influence on what
    a submission shows: two submissions of the same message at the same
    time show the same page, but for the dump of the raw state that ends
    the page of a submission with a message. *)
Theorem page_independent_of_history (now : Clock) (message : string)
    (user_id user_id' context_text context_text' : string) :
  ∃ page page',
    on_submit now user_id message context_text = Some (page, None) ∧
    on_submit now user_id' message context_text' = Some (page', None) ∧
    removelast page = removelast page' ∧
    (strip message = EmptyString → page = page').
Proof.
  destruct (String.eqb (strip message) EmptyString) eqn:E.
  - apply String.eqb_eq in E. eexists _, _.
    split; [unfold on_submit; rewrite E; reflexivity |].
    split; [unfold on_submit; rewrite E; reflexivity |]. done.
  - apply String.eqb_neq in E.
    pose proof (form_state_message user_id message context_text) as Hm.
    pose proof (form_state_message user_id' message context_text') as Hm'.
    destruct (classifiers _ message Hm)
      as (s & c & p & Hs & Hc & Hp & _ & _ & Hse & Hce & Hpe).
    destruct (classifiers _ message Hm')
      as (s' & c' & p' & Hs' & Hc' & Hp' & _ & _ & Hse' & Hce' & Hpe').
    assert (s' = s) as -> by congruence. assert (c' = c) as -> by congruence.
    assert (p' = p) as -> by congruence.
    destruct (invoke_summary now _ message s c p Hm Hs Hc Hp)
      as (result & Hrun & H1 & H2 & H3 & H4 & H5 & H6 & H7 & _).
    destruct (invoke_summary now _ message s c p Hm' Hs' Hc' Hp')
      as (result' & Hrun' & H1' & H2' & H3' & H4' & H5' & H6' & H7' & _).
    rewrite form_state_ticket_id in H7, H7'.
    destruct (on_submit_result _ _ _ _ _ _ E Hrun) as (ticket & Hticket & Hpage).
    destruct (on_submit_result _ _ _ _ _ _ E Hrun') as (ticket' & Hticket' & Hpage').
    eexists _, _. split; [exact Hpage |]. split; [exact Hpage' |]. split; [| congruence].
    rewrite ticket_line_Ok, H7 in Hticket. rewrite ticket_line_Ok, H7' in Hticket'.
    assert (ticket' = ticket) as -> by congruence.
    cbn [removelast]. unfold first_column, second_column, get_default.
    by rewrite H1, H2, H3, H4, H5, H6, H1', H2', H3', H4', H5', H6'.
Qed.


Lemma ticket_shown_iff_escalated_witness :
  ∃ visits result page second,
    invoke "20261104120000"
      (form_state "U123" "URGENT: Cannot access my account, need help immediately!"
         "I wrote yesterday")
    = (visits, Some (Ok result)) ∧
    on_submit "20261104120000" "U123"
      "URGENT: Cannot access my account, need help immediately!" "I wrote yesterday"
    = Some (page, None) ∧
    nth_error page 4 = Some (column 2 second) ∧
    (In "escalate" visits
     ↔ second = [ st_write (VStr "**Requires Human:** True");
                  st_write (VStr "**Escalated:** True");
                  st_write (VStr ("**Ticket ID:** TKT-" ++ "20261104120000")) ]) ∧
    (¬ In "escalate" visits
     ↔ ∃ human, second = [ st_write (VStr ("**Requires Human:** " ++ human));
                           st_write (VStr "**Escalated:** False") ]).
Proof.
  apply (ticket_shown_iff_escalated "20261104120000" "U123"
           "URGENT: Cannot access my account, need help immediately!" "I wrote yesterday").
  - reflexivity.
  - discriminate.
Defined.

Lemma context_list_entries_witness :
  "it still fails" ≠ EmptyString ∧
  strip "it still fails" = "it still fails" ∧
  (∀ ch, In ch (list_ascii_of_string "it still fails") → is_linebreak ch = false) ∧
  ∃ line,
    In line (splitlines ("I wrote yesterday" ++ String cr (String lf EmptyString)
                         ++ "   " ++ nl ++ "  it still fails  ")) ∧
    "it still fails" = strip line.
Proof.
  apply (context_list_entries
           ("I wrote yesterday" ++ String cr (String lf EmptyString)
            ++ "   " ++ nl ++ "  it still fails  ") "it still fails").
  - reflexivity.
  - vm_compute. right. left. reflexivity.
Defined.

End ChatUIFacts.
